(** * Strategy tools: batch backtesting, result store and reconciliation

    A shallow embedding of [strategy_tools/strategy_backtester.py] and
    [strategy_tools/utils.py].

    Conventions of the embedding.
    - A Python [str] is a [string]: the UTF-8 bytes of the text.  Substring
      search, [split], [replace] and sorting agree on bytes and on code
      points.  Whitespace and digits are the ASCII ones; bytes above 127
      are opaque (never whitespace, never a digit).
    - A Python [int] is a [Z].  A Python [float] is a [PyFloat]: an exact
      rational, an infinity or a NaN; rounding to binary64 is not part of
      the model.
    - A value read by [json.load] or written by [json.dump] is a [Json].
    - An exception that a [try] block of the source can catch is a value
      of the result type of the operation that raises it.
    - A file is its text together with what [json.load] and [zipfile]
      read from it; a path is a list of names, and an identifier or a file
      name joined to a path is one name of it.
    - The lines the program logs, to the console and to its log file
      [strategy_backtest.log] in the working directory, are not part of
      the state: the file tree of the model does not show that file.  A log
      line is kept only where building its text can raise. *)

From Stdlib Require Import ZArith QArith List String Ascii Bool Lia Arith.
From Stdlib Require Import DecimalString.
From Stdlib Require Import Sorting.Sorted Sorting.Permutation.
Import ListNotations.
Local Open Scope string_scope.
Local Close Scope Q_scope.

Set Implicit Arguments.
Set Warnings "-register-all".

(** ** Python text *)

Module Text.

(** [sub in s] *)
Fixpoint contains (sub s : string) : bool :=
  prefix sub s ||
  match s with
  | EmptyString => false
  | String _ s' => contains sub s'
  end.

Definition startswith (s p : string) : bool := prefix p s.

Fixpoint rev_string (s acc : string) : string :=
  match s with
  | EmptyString => acc
  | String c s' => rev_string s' (String c acc)
  end.

Definition endswith (s p : string) : bool :=
  prefix (rev_string p "") (rev_string s "").

(** [s.split(sep)] for a non-empty separator: the pieces between the
    non-overlapping occurrences of [sep], found from the left.  [skip]
    counts the bytes of a separator still to be dropped, [cur] is the
    piece under construction (reversed). *)
Fixpoint split_from (sep : string) (skip : nat) (cur : string) (s : string)
  : list string :=
  match s with
  | EmptyString => [rev_string cur ""]
  | String c s' =>
      match skip with
      | S k => split_from sep k cur s'
      | O =>
          if prefix sep s
          then rev_string cur "" :: split_from sep (String.length sep - 1) "" s'
          else split_from sep 0 (String c cur) s'
      end
  end.

Definition split (sep s : string) : list string := split_from sep 0 "" s.

(** [s.replace(old, new)] for a non-empty [old]; it is
    [new.join(s.split(old))]. *)
Definition replace (old new s : string) : string :=
  String.concat new (split old s).

(** The ASCII characters for which [str.isspace] holds. *)
Definition is_space (c : ascii) : bool :=
  let n := nat_of_ascii c in
  (((9 <=? n) && (n <=? 13)) || ((28 <=? n) && (n <=? 32)))%nat.

Fixpoint lstrip (s : string) : string :=
  match s with
  | EmptyString => EmptyString
  | String c s' => if is_space c then lstrip s' else s
  end.

Fixpoint rstrip (s : string) : string :=
  match s with
  | EmptyString => EmptyString
  | String c s' =>
      match rstrip s' with
      | EmptyString => if is_space c then EmptyString else String c EmptyString
      | r => String c r
      end
  end.

Definition strip (s : string) : string := rstrip (lstrip s).

(** [s.split()] with no argument: the maximal runs of non-whitespace. *)
Fixpoint words_from (cur : string) (s : string) : list string :=
  match s with
  | EmptyString =>
      match cur with EmptyString => [] | _ => [rev_string cur ""] end
  | String c s' =>
      if is_space c
      then match cur with
           | EmptyString => words_from "" s'
           | _ => rev_string cur "" :: words_from "" s'
           end
      else words_from (String c cur) s'
  end.

Definition words (s : string) : list string := words_from "" s.

End Text.

(** ** Python numbers *)

Inductive PyFloat : Type :=
| FFin (q : Q)
| FInf (negative : bool)
| FNan.

Module Num.

Definition digit_of (c : ascii) : option N :=
  let n := N_of_ascii c in
  if ((48 <=? n) && (n <=? 57))%N then Some (n - 48)%N else None.

Definition is_digit (c : ascii) : bool :=
  match digit_of c with Some _ => true | None => false end.

(** Reads the rest of a digit part [digit (["_"] digit)*] whose first
    digits gave [acc] over [n] digits: the value, the number of digits
    and the unread text.  An underscore is read only between digits. *)
Fixpoint scan_digits (s : string) (acc : N) (n : nat) : N * nat * string :=
  match s with
  | EmptyString => (acc, n, EmptyString)
  | String c s' =>
      match digit_of c with
      | Some d => scan_digits s' (10 * acc + d)%N (S n)
      | None =>
          if Ascii.eqb c "_"
          then match s' with
               | String c2 _ =>
                   if is_digit c2 then scan_digits s' acc n else (acc, n, s)
               | EmptyString => (acc, n, s)
               end
          else (acc, n, s)
      end
  end.

(** A digit part: at least one digit, and it starts with one. *)
Definition digitpart (s : string) : option (N * nat * string) :=
  match s with
  | String c _ => if is_digit c then Some (scan_digits s 0%N 0) else None
  | EmptyString => None
  end.

(** An optional sign: [true] for a minus. *)
Definition sign (s : string) : bool * string :=
  match s with
  | String "-" s' => (true, s')
  | String "+" s' => (false, s')
  | _ => (false, s)
  end.

Definition signed (neg : bool) (n : N) : Z :=
  if neg then (- Z.of_N n)%Z else Z.of_N n.

(** [int(s)] for a [str]: [None] stands for [ValueError]. *)
Definition py_int (s : string) : option Z :=
  let (neg, body) := sign (Text.strip s) in
  match digitpart body with
  | Some (v, _, EmptyString) => Some (signed neg v)
  | _ => None
  end.

Definition lower (c : ascii) : ascii :=
  let n := nat_of_ascii c in
  if ((65 <=? n) && (n <=? 90))%nat then ascii_of_nat (n + 32) else c.

Fixpoint lower_string (s : string) : string :=
  match s with
  | EmptyString => EmptyString
  | String c s' => String (lower c) (lower_string s')
  end.

(** The exponent part [("e"|"E") ["+"|"-"] digitpart], read to the end of
    the text; the empty text is the exponent 0. *)
Definition exponent (s : string) : option Z :=
  match s with
  | EmptyString => Some 0%Z
  | String c s' =>
      if Ascii.eqb (lower c) "e"
      then let (neg, body) := sign s' in
           match digitpart body with
           | Some (v, _, EmptyString) => Some (signed neg v)
           | _ => None
           end
      else None
  end.

(** mantissa * 10 ^ e, exactly *)
Definition scale10 (m : Z) (e : Z) : Q :=
  if (0 <=? e)%Z
  then Qred (Qmake (m * 10 ^ e)%Z 1)
  else Qred (Qmake m (Z.to_pos (10 ^ (- e))%Z)).

(** The decimal forms [digits ["." [digits]] [exp]] and ["." digits [exp]]. *)
Definition decimal (s : string) : option Q :=
  match digitpart s with
  | Some (ip, _, rest) =>
      match rest with
      | String "." rest' =>
          match digitpart rest' with
          | Some (fp, k, rest'') =>
              match exponent rest'' with
              | Some e =>
                  Some (scale10 (Z.of_N ip * 10 ^ Z.of_nat k + Z.of_N fp)
                                (e - Z.of_nat k))
              | None => None
              end
          | None =>
              match exponent rest' with
              | Some e => Some (scale10 (Z.of_N ip) e)
              | None => None
              end
          end
      | _ =>
          match exponent rest with
          | Some e => Some (scale10 (Z.of_N ip) e)
          | None => None
          end
      end
  | None =>
      match s with
      | String "." rest' =>
          match digitpart rest' with
          | Some (fp, k, rest'') =>
              match exponent rest'' with
              | Some e => Some (scale10 (Z.of_N fp) (e - Z.of_nat k))
              | None => None
              end
          | None => None
          end
      | _ => None
      end
  end.

(** [float(s)] for a [str]: [None] stands for [ValueError]. *)
Definition py_float (s : string) : option PyFloat :=
  let (neg, body) := sign (Text.strip s) in
  let name := lower_string body in
  if (name =? "inf") || (name =? "infinity") then Some (FInf neg)
  else if name =? "nan" then Some FNan
  else match decimal body with
       | Some q => Some (FFin (if neg then Qopp q else q))
       | None => None
       end.

End Num.

(** ** Values of [json.load] and the Python operations on them *)

Inductive Json : Type :=
| JNull
| JBool (b : bool)
| JInt (z : Z)
| JFloat (f : PyFloat)
| JStr (s : string)
| JList (items : list Json)
| JDict (fields : list (string * Json)).

(** What a [try] block can catch: [subprocess.TimeoutExpired], or any other
    [Exception] with its text [str(e)]. *)
Inductive exn : Type :=
| TimeoutExpired
| Exception (text : string).

Inductive result (A : Type) : Type :=
| Ok (a : A)
| Raise (e : exn).
Arguments Ok {A} a.
Arguments Raise {A} e.

Module Py.

(** A [dict] with [str] keys is an association list with distinct keys,
    in insertion order. *)
Fixpoint dict_get (k : string) (d : list (string * Json)) : option Json :=
  match d with
  | [] => None
  | (k', v) :: d' => if String.eqb k k' then Some v else dict_get k d'
  end.

(** [d[k] = v] *)
Fixpoint dict_set (k : string) (v : Json) (d : list (string * Json))
  : list (string * Json) :=
  match d with
  | [] => [(k, v)]
  | (k', v') :: d' =>
      if String.eqb k k' then (k, v) :: d' else (k', v') :: dict_set k v d'
  end.

(** [d.update(e)] and [{**d, **e}] *)
Definition dict_update (d e : list (string * Json)) : list (string * Json) :=
  fold_left (fun acc kv => dict_set (fst kv) (snd kv) acc) e d.

(** [x.get(k, default)]: [None] stands for the [AttributeError] of a
    value that is not a [dict]. *)
Definition get (x : Json) (k : string) (default : Json) : option Json :=
  match x with
  | JDict d => Some (match dict_get k d with Some v => v | None => default end)
  | _ => None
  end.

(** [bool(x)] *)
Definition truthy (x : Json) : bool :=
  match x with
  | JNull => false
  | JBool b => b
  | JInt z => negb (z =? 0)%Z
  | JFloat (FFin q) => negb (Qeq_bool q 0)
  | JFloat _ => true
  | JStr s => negb (s =? "")
  | JList l => match l with [] => false | _ => true end
  | JDict d => match d with [] => false | _ => true end
  end.

(** [hash(x)] is defined *)
Definition hashable (x : Json) : bool :=
  match x with
  | JList _ | JDict _ => false
  | _ => true
  end.

(** The number a value stands for in a comparison ([bool] is an [int]). *)
Definition number (x : Json) : option PyFloat :=
  match x with
  | JBool b => Some (FFin (inject_Z (if b then 1 else 0)))
  | JInt z => Some (FFin (inject_Z z))
  | JFloat f => Some f
  | _ => None
  end.

Definition float_eq (f g : PyFloat) : bool :=
  match f, g with
  | FFin p, FFin q => Qeq_bool p q
  | FInf a, FInf b => Bool.eqb a b
  | _, _ => false
  end.

(** [x == y] *)
Fixpoint eq (x y : Json) {struct x} : bool :=
  match x, y with
  | JNull, JNull => true
  | JStr s, JStr t => String.eqb s t
  | JList l, JList m =>
      (fix all2 (l m : list Json) {struct l} : bool :=
         match l, m with
         | [], [] => true
         | a :: l', b :: m' => eq a b && all2 l' m'
         | _, _ => false
         end) l m
  | JDict d, JDict e =>
      Nat.eqb (List.length d) (List.length e) &&
      (fix sub (d : list (string * Json)) {struct d} : bool :=
         match d with
         | [] => true
         | (k, v) :: d' =>
             match dict_get k e with
             | Some w => eq v w
             | None => false
             end && sub d'
         end) d
  | _, _ =>
      match number x, number y with
      | Some f, Some g => float_eq f g
      | _, _ => false
      end
  end.

(** A [dict] keyed by arbitrary hashable values, and a [set] of them:
    lookups compare with [==]. *)
Fixpoint lookup (k : Json) (d : list (Json * Json)) : option Json :=
  match d with
  | [] => None
  | (k', v) :: d' => if eq k' k then Some v else lookup k d'
  end.

Fixpoint store (k v : Json) (d : list (Json * Json)) : list (Json * Json) :=
  match d with
  | [] => [(k, v)]
  | (k', v') :: d' =>
      if eq k' k then (k', v) :: d' else (k', v') :: store k v d'
  end.

Definition member (x : Json) (s : list Json) : bool := existsb (fun y => eq y x) s.

(** *** Arithmetic *)

Definition float_mul (f g : PyFloat) : PyFloat :=
  match f, g with
  | FNan, _ | _, FNan => FNan
  | FFin p, FFin q => FFin (Qred (p * q)%Q)
  | FInf a, FInf b => FInf (xorb a b)
  | FInf a, FFin q | FFin q, FInf a =>
      if Qeq_bool q 0 then FNan
      else FInf (xorb a (negb (Qle_bool 0 q)))
  end.

Definition float_div_fin (f : PyFloat) (d : Q) : PyFloat :=
  match f with
  | FFin p => FFin (Qred (p / d)%Q)
  | other => other
  end.

Definition float_sub_int (f : PyFloat) (z : Z) : PyFloat :=
  match f with
  | FFin p => FFin (Qred (p - inject_Z z)%Q)
  | other => other
  end.

Definition int_of_bool (b : bool) : Z := if b then 1%Z else 0%Z.

Fixpoint repeat_string (s : string) (n : nat) : string :=
  match n with
  | O => ""
  | S n' => s ++ repeat_string s n'
  end.

Fixpoint repeat_list {A : Type} (l : list A) (n : nat) : list A :=
  match n with
  | O => []
  | S n' => (l ++ repeat_list l n')%list
  end.

(** [x * 100]; [None] stands for [TypeError]. *)
Definition times_100 (x : Json) : option Json :=
  match x with
  | JBool b => Some (JInt (int_of_bool b * 100))
  | JInt z => Some (JInt (z * 100))
  | JFloat f => Some (JFloat (float_mul f (FFin (inject_Z 100))))
  | JStr s => Some (JStr (repeat_string s 100))
  | JList l => Some (JList (repeat_list l 100))
  | JNull | JDict _ => None
  end.

(** [float(z)] is defined for an [int] [z]: beyond this bound it raises
    [OverflowError] (the value would round to 2^1024). *)
Definition fits_float (z : Z) : bool :=
  (Z.abs z <? 2 ^ 1024 - 2 ^ 970)%Z.

(** [x / 100.0] *)
Definition over_100 (x : Json) : option PyFloat :=
  match x with
  | JBool b => Some (FFin (Qred (inject_Z (int_of_bool b) / inject_Z 100)%Q))
  | JInt z =>
      if fits_float z then Some (FFin (Qred (inject_Z z / inject_Z 100)%Q)) else None
  | JFloat f => Some (float_div_fin f (inject_Z 100))
  | _ => None
  end.

(** [x * f] for a [float] [f] *)
Definition times_float (x : Json) (f : PyFloat) : option PyFloat :=
  match x with
  | JBool b => Some (float_mul (FFin (inject_Z (int_of_bool b))) f)
  | JInt z => if fits_float z then Some (float_mul (FFin (inject_Z z)) f) else None
  | JFloat g => Some (float_mul g f)
  | _ => None
  end.

(** [int(f)]: towards zero; [None] for an infinity or a NaN. *)
Definition int_of_float (f : PyFloat) : option Z :=
  match f with
  | FFin q => Some (Z.quot (Qnum q) (Zpos (Qden q)))
  | _ => None
  end.

(** [x - z] for an [int] [z] *)
Definition minus_int (x : Json) (z : Z) : option Json :=
  match x with
  | JBool b => Some (JInt (int_of_bool b - z))
  | JInt y => Some (JInt (y - z))
  | JFloat f => Some (JFloat (float_sub_int f z))
  | _ => None
  end.

(** [f"{x:.2f}"] is defined *)
Definition formats_as_float (x : Json) : bool :=
  match x with
  | JInt z => fits_float z
  | _ => match number x with Some _ => true | None => false end
  end.

(** [k in x] for a [str] [k]; [None] stands for [TypeError]. *)
Definition has_key (k : string) (x : Json) : option bool :=
  match x with
  | JDict d => Some (match dict_get k d with Some _ => true | None => false end)
  | JList l => Some (member (JStr k) l)
  | JStr s => Some (Text.contains k s)
  | _ => None
  end.

(** [sorted(names)]: strings by their text, numbers by their value,
    [None] for the [TypeError] of a comparison between values of
    different kinds.  (With a NaN among the numbers the order Python
    gives depends on its algorithm.) *)
Definition float_le (f g : PyFloat) : bool :=
  match f, g with
  | FNan, _ | _, FNan => false
  | FFin p, FFin q => Qle_bool p q
  | FInf a, FInf b => a || negb b
  | FInf a, FFin _ => a
  | FFin _, FInf b => negb b
  end.

Fixpoint insert_by {A : Type} (le : A -> A -> bool) (x : A) (l : list A) : list A :=
  match l with
  | [] => [x]
  | y :: l' => if le x y then x :: l else y :: insert_by le x l'
  end.

Definition sort_by {A : Type} (le : A -> A -> bool) (l : list A) : list A :=
  fold_right (insert_by le) [] l.

Definition as_str (x : Json) : option string :=
  match x with JStr s => Some s | _ => None end.

Fixpoint all_some {A B : Type} (f : A -> option B) (l : list A) : option (list B) :=
  match l with
  | [] => Some []
  | x :: l' =>
      match f x, all_some f l' with
      | Some y, Some ys => Some (y :: ys)
      | _, _ => None
      end
  end.

Definition sorted (l : list Json) : option (list Json) :=
  match l with
  | [] | [_] => Some l
  | _ =>
      match all_some as_str l with
      | Some strs => Some (map JStr (sort_by String.leb strs))
      | None =>
          match all_some number l with
          | Some _ =>
              Some (sort_by (fun x y =>
                               match number x, number y with
                               | Some f, Some g => float_le f g
                               | _, _ => false
                               end) l)
          | None => None
          end
      end
  end.

(** [list(set(l))] keeps one of every group of equal values. *)
Fixpoint distinct (l : list Json) : list Json :=
  match l with
  | [] => []
  | x :: l' => x :: filter (fun y => negb (eq x y)) (distinct l')
  end.

End Py.

(** ** The file tree below the working directory *)

Module FS.

(** What the readers of a file make of it: [json.load] succeeds on a
    [Document], [zipfile.ZipFile] on an [Archive] (each member with the
    JSON value it holds, if it holds one), neither on a [Plain] file. *)
Inductive payload : Type :=
| Plain
| Document (j : Json)
| Archive (members : list (string * option Json)).

(** A file has its text ([st_size] is its length).  The names of a
    directory are listed in the order [iterdir] yields them. *)
Inductive node : Type :=
| File (text : string) (kind : payload)
| Dir (entries : list (string * node)).

(** A relative path, one name per component. *)
Definition path := list string.

Definition path_str (p : path) : string := String.concat "/" p.

Fixpoint entry (name : string) (es : list (string * node)) : option node :=
  match es with
  | [] => None
  | (n, x) :: es' => if String.eqb name n then Some x else entry name es'
  end.

Fixpoint lookup (p : path) (root : node) : option node :=
  match p with
  | [] => Some root
  | c :: p' =>
      match root with
      | Dir es =>
          match entry c es with
          | Some x => lookup p' x
          | None => None
          end
      | File _ _ => None
      end
  end.

Definition exists_ (p : path) (root : node) : bool :=
  match lookup p root with Some _ => true | None => false end.

Definition is_dir (x : node) : bool :=
  match x with Dir _ => true | File _ _ => false end.

Definition is_file (x : node) : bool :=
  match x with File _ _ => true | Dir _ => false end.

Definition st_size (x : node) : nat :=
  match x with File text _ => String.length text | Dir _ => 0 end.

(** Replaces the entry of that name, or adds one at the end. *)
Fixpoint set_entry (name : string) (x : node) (es : list (string * node))
  : list (string * node) :=
  match es with
  | [] => [(name, x)]
  | (n, y) :: es' =>
      if String.eqb name n then (name, x) :: es' else (n, y) :: set_entry name x es'
  end.

Definition del_entry (name : string) (es : list (string * node))
  : list (string * node) :=
  filter (fun e => negb (String.eqb name (fst e))) es.

Inductive errno : Type := ENOENT | EEXIST | ENOTDIR | EISDIR.

(** [str(e)] of the [OSError] that a failed system call raises. *)
Definition os_error (code : errno) (p : path) : exn :=
  Exception
    (match code with
     | ENOENT => "[Errno 2] No such file or directory: '"
     | EEXIST => "[Errno 17] File exists: '"
     | ENOTDIR => "[Errno 20] Not a directory: '"
     | EISDIR => "[Errno 21] Is a directory: '"
     end ++ path_str p ++ "'").

(** Rewrites the entries of the directory at [p]; fails when [p] does
    not lead to a directory. *)
Fixpoint in_dir (p : path)
         (f : list (string * node) -> errno + list (string * node))
         (root : node) : errno + node :=
  match root with
  | File _ _ => inl ENOTDIR
  | Dir es =>
      match p with
      | [] => match f es with inl e => inl e | inr es' => inr (Dir es') end
      | c :: p' =>
          match entry c es with
          | None => inl ENOENT
          | Some x =>
              match in_dir p' f x with
              | inl e => inl e
              | inr x' => inr (Dir (set_entry c x' es))
              end
          end
      end
  end.

Definition parent (p : path) : path := removelast p.
Definition name (p : path) : string := last p "".

(** [Path.mkdir(exist_ok=True)] *)
Definition mkdir (p : path) (root : node) : result node :=
  match in_dir (parent p)
          (fun es => match entry (name p) es with
                     | None => inr (set_entry (name p) (Dir []) es)
                     | Some (Dir _) => inr es
                     | Some (File _ _) => inl EEXIST
                     end) root with
  | inr root' => Ok root'
  | inl e => Raise (os_error e p)
  end.

(** [open(p, 'w')] followed by writing the whole file. *)
Definition write (p : path) (f : node) (root : node) : result node :=
  match in_dir (parent p)
          (fun es => match entry (name p) es with
                     | Some (Dir _) => inl EISDIR
                     | _ => inr (set_entry (name p) f es)
                     end) root with
  | inr root' => Ok root'
  | inl e => Raise (os_error e p)
  end.

(** Removes the entry at [p] with all below it ([rmdir] of an empty
    directory, [shutil.rmtree]); nothing changes when there is none. *)
Definition remove (p : path) (root : node) : node :=
  match in_dir (parent p) (fun es => inr (del_entry (name p) es)) root with
  | inr root' => root'
  | inl _ => root
  end.

(** [open(p, 'r')] and [json.load]: [None] for any exception. *)
Definition load_json (x : node) : option Json :=
  match x with
  | File _ (Document j) => Some j
  | _ => None
  end.

(** The bytes that [open(p, 'r')] reads: [None] for a directory. *)
Definition read_text (x : node) : option string :=
  match x with
  | File text _ => Some text
  | Dir _ => None
  end.

(** [PurePath.suffix] of a file name: from the last dot, when that dot
    is neither the first nor the last character. *)
Fixpoint rfind_dot (s : string) (i : nat) : option nat :=
  match s with
  | EmptyString => None
  | String c s' =>
      match rfind_dot s' (S i) with
      | Some j => Some j
      | None => if Ascii.eqb c "." then Some i else None
      end
  end.

Definition suffix (file_name : string) : string :=
  match rfind_dot file_name 0 with
  | Some i =>
      if ((0 <? i) && (i <? String.length file_name - 1))%nat
      then substring i (String.length file_name - i) file_name
      else ""
  | None => ""
  end.

(** [PurePath.stem] *)
Definition stem (file_name : string) : string :=
  substring 0 (String.length file_name - String.length (suffix file_name)) file_name.

End FS.

(** ** [StrategyBacktester] *)

Notation "x <- e ;; k" :=
  (match e with Ok x => k | Raise err => Raise err end)
    (at level 61, e at next level, right associativity, only parsing).

(** A statement of a [try: ... except: pass] block: when [e] raises, the
    block ends with the record as it is at that point. *)
Notation "'try' x <- e 'leaving' m ;; k" :=
  (match e with Ok x => k | Raise _ => m end)
    (at level 61, x name, e at next level, m at next level,
     right associativity, only parsing).

Module Backtester.

(** The fields [__init__] sets and nothing changes afterwards. *)
Record Config : Type := {
  config_path : string;
  start_date : string;
  end_date : string;
  strategy_timeout : Z;
  discovery_timeout : Z
}.

(** [self.results] and [self.failed_strategies] *)
Record Memory : Type := {
  results : list (Json * Json);
  failed_strategies : list Json
}.

Definition results_dir : FS.path := ["user_data"; "backtest_results"].
Definition individual_results_dir : FS.path :=
  (results_dir ++ ["individual_results"])%list.
Definition strategies_dir : FS.path := ["user_data"; "strategies"].

Definition get_strategy_result_file (strategy_name : string) : FS.path :=
  (individual_results_dir ++ [(strategy_name ++ "_result.json")%string])%list.

Definition failed_file (strategy_name : string) : FS.path :=
  (individual_results_dir ++ [(strategy_name ++ "_failed.json")%string])%list.

(** *** [get_strategies_to_process] *)

(** [{fs.get('strategy') for fs in self.failed_strategies}]; [None] when
    a record is not a [dict] or its strategy cannot be hashed. *)
Fixpoint failed_names (records : list Json) : option (list Json) :=
  match records with
  | [] => Some []
  | fs :: rest =>
      match Py.get fs "strategy" JNull with
      | Some v =>
          if Py.hashable v
          then match failed_names rest with
               | Some vs => Some (v :: vs)
               | None => None
               end
          else None
      | None => None
      end
  end.

Definition get_strategies_to_process
           (self : Memory) (all_strategies : list string) (include_failed : bool)
  : option (list string) :=
  let already_completed := map fst (results self) in
  match failed_names (failed_strategies self) with
  | None => None
  | Some already_failed =>
      let pending_strategies :=
        filter (fun s => negb (Py.member (JStr s) already_completed)
                         && negb (Py.member (JStr s) already_failed))
               all_strategies in
      let retried :=
        if include_failed
        then filter (fun s => Py.member (JStr s) already_failed) all_strategies
        else [] in
      Some (pending_strategies ++ retried)%list
  end.

(** *** [parse_backtest_output] *)

Definition zero : Json := JFloat (FFin 0%Q).

Definition default_metrics (strategy_name : string) : list (string * Json) :=
  [ ("strategy", JStr strategy_name);
    ("total_return", zero);
    ("total_trades", JInt 0);
    ("winning_trades", JInt 0);
    ("losing_trades", JInt 0);
    ("win_rate", zero);
    ("profit_factor", zero);
    ("sharpe_ratio", zero);
    ("max_drawdown", zero);
    ("avg_profit", zero);
    ("total_profit_abs", zero);
    ("total_profit_percent", zero);
    ("avg_duration", JStr "");
    ("best_pair", JStr "");
    ("worst_pair", JStr "");
    ("backtest_start", JStr "");
    ("backtest_end", JStr "");
    ("market_change", zero) ].

Definition newline : string := String (ascii_of_nat 10) "".
Definition box : string := "│".

(** [parts[i]] *)
Definition item (parts : list string) (i : nat) : result string :=
  match nth_error parts i with
  | Some p => Ok p
  | None => Raise (Exception "list index out of range")
  end.

Definition to_float (s : string) : result PyFloat :=
  match Num.py_float s with
  | Some f => Ok f
  | None => Raise (Exception ("could not convert string to float: '" ++ s ++ "'"))
  end.

Definition to_int (s : string) : result Z :=
  match Num.py_int s with
  | Some z => Ok z
  | None => Raise (Exception ("invalid literal for int() with base 10: '" ++ s ++ "'"))
  end.

(** [[part.strip() for part in line.split('│')]] *)
Definition cells (line : string) : list string :=
  map Text.strip (Text.split box line).

(** [len(parts) >= 4 and label in parts[1]] *)
Definition labelled (parts : list string) (label : string) : result bool :=
  if (4 <=? List.length parts)%nat
  then p <- item parts 1 ;; Ok (Text.contains label p)
  else Ok false.

(** The block of a row whose value carries [unit] (a percent sign):
    [v = parts[2]; if unit in v: metrics[key] = float(v.replace(unit, ''))],
    under [try ... except: pass]. *)
Definition percent_row (key : string) (parts : list string)
           (metrics : list (string * Json)) : list (string * Json) :=
  try v <- item parts 2 leaving metrics ;;
  if Text.contains "%" v
  then try f <- to_float (Text.replace "%" "" v) leaving metrics ;;
       Py.dict_set key (JFloat f) metrics
  else metrics.

Definition usdt_row (parts : list string) (metrics : list (string * Json))
  : list (string * Json) :=
  try v <- item parts 2 leaving metrics ;;
  if Text.contains "USDT" v
  then try f <- to_float (Text.strip (Text.replace "USDT" "" v)) leaving metrics ;;
       Py.dict_set "total_profit_abs" (JFloat f) metrics
  else metrics.

(** [try: metrics[key] = float(parts[2]) except: pass] *)
Definition float_row (key : string) (parts : list string)
           (metrics : list (string * Json)) : list (string * Json) :=
  try v <- item parts 2 leaving metrics ;;
  try f <- to_float v leaving metrics ;;
  Py.dict_set key (JFloat f) metrics.

(** [metrics[key] = parts[2]], outside any [try] *)
Definition pair_row (key : string) (parts : list string)
           (metrics : list (string * Json)) : result (list (string * Json)) :=
  v <- item parts 2 ;; Ok (Py.dict_set key (JStr v) metrics).

(** The [if]/[elif] chain over the rows of the detail table. *)
Definition detail_row (parts : list string) (metrics : list (string * Json))
  : result (list (string * Json)) :=
  c <- labelled parts "Total profit %" ;;
  if c then Ok (percent_row "total_profit_percent" parts metrics) else
  c <- labelled parts "Absolute profit" ;;
  if c then Ok (usdt_row parts metrics) else
  c <- labelled parts "Sharpe" ;;
  if c then Ok (float_row "sharpe_ratio" parts metrics) else
  c <- labelled parts "Profit factor" ;;
  if c then Ok (float_row "profit_factor" parts metrics) else
  c <- labelled parts "Best Pair" ;;
  if c then pair_row "best_pair" parts metrics else
  c <- labelled parts "Worst Pair" ;;
  if c then pair_row "worst_pair" parts metrics else
  c <- (if (4 <=? List.length parts)%nat
        then p <- item parts 1 ;;
             Ok (Text.contains "Max % of account underwater" p
                 || Text.contains "Absolute Drawdown (Account)" p)
        else Ok false) ;;
  if c then Ok (percent_row "max_drawdown" parts metrics) else
  c <- labelled parts "Market change" ;;
  if c then Ok (percent_row "market_change" parts metrics) else
  Ok metrics.

(** The block of the strategy summary row, one [try] around all its
    cells. *)
Definition summary_row (parts : list string) (metrics : list (string * Json))
  : list (string * Json) :=
  try c2 <- item parts 2 leaving metrics ;;
  try trades <- to_int c2 leaving metrics ;;
  let metrics := Py.dict_set "total_trades" (JInt trades) metrics in
  try c3 <- item parts 3 leaving metrics ;;
  try avg <- to_float c3 leaving metrics ;;
  let metrics := Py.dict_set "avg_profit" (JFloat avg) metrics in
  try c4 <- item parts 4 leaving metrics ;;
  try abs <- to_float c4 leaving metrics ;;
  let metrics := Py.dict_set "total_profit_abs" (JFloat abs) metrics in
  try c5 <- item parts 5 leaving metrics ;;
  try pct <- to_float c5 leaving metrics ;;
  let metrics := Py.dict_set "total_profit_percent" (JFloat pct) metrics in
  try c6 <- item parts 6 leaving metrics ;;
  let metrics := Py.dict_set "avg_duration" (JStr c6) metrics in
  try c7 <- item parts 7 leaving metrics ;;
  let win_stats := Text.strip c7 in
  if negb (win_stats =? "")
  then let stats_parts := Text.words win_stats in
       if (4 <=? List.length stats_parts)%nat
       then try s0 <- item stats_parts 0 leaving metrics ;;
            try wins <- to_int s0 leaving metrics ;;
            let metrics := Py.dict_set "winning_trades" (JInt wins) metrics in
            try s2 <- item stats_parts 2 leaving metrics ;;
            try losses <- to_int s2 leaving metrics ;;
            let metrics := Py.dict_set "losing_trades" (JInt losses) metrics in
            try s3 <- item stats_parts 3 leaving metrics ;;
            try rate <- to_float s3 leaving metrics ;;
            Py.dict_set "win_rate" (JFloat rate) metrics
       else metrics
  else metrics.

(** The block of the ["Backtested a -> b"] line. *)
Definition backtested_row (line : string) (metrics : list (string * Json))
  : list (string * Json) :=
  try after <- item (Text.split "Backtested" line) 1 leaving metrics ;;
  try before <- item (Text.split "|" after) 0 leaving metrics ;;
  let date_part := Text.strip before in
  if Text.contains "->" date_part
  then match Text.split "->" date_part with
       | [start_date; end_date] =>
           Py.dict_set "backtest_end" (JStr (Text.strip end_date))
             (Py.dict_set "backtest_start" (JStr (Text.strip start_date)) metrics)
       | _ => metrics
       end
  else metrics.

(** The body of the loop over the lines. *)
Definition parse_line (strategy_name raw : string) (metrics : list (string * Json))
  : result (list (string * Json)) :=
  let line := Text.strip raw in
  metrics <- (if Text.contains box line
              then detail_row (cells line) metrics
              else Ok metrics) ;;
  let metrics :=
    if Text.contains strategy_name line && Text.contains box line
    then let parts := cells line in
         if (9 <=? List.length parts)%nat then summary_row parts metrics else metrics
    else metrics in
  let metrics :=
    if Text.contains "Backtested" line && Text.contains "->" line
    then backtested_row line metrics
    else metrics in
  Ok metrics.

Fixpoint parse_lines (strategy_name : string) (lines : list string)
         (metrics : list (string * Json)) : result (list (string * Json)) :=
  match lines with
  | [] => Ok metrics
  | line :: rest =>
      metrics <- parse_line strategy_name line metrics ;;
      parse_lines strategy_name rest metrics
  end.

Definition parse_backtest_output (output strategy_name : string)
  : result (list (string * Json)) :=
  parse_lines strategy_name (Text.split newline output) (default_metrics strategy_name).

(** *** The world around a backtester *)

(** [subprocess.CompletedProcess] *)
Record Completed : Type := {
  returncode : Z;
  stdout : string;
  stderr : string
}.

Inductive outcome : Type :=
| Returned (r : Completed)
| Raised (e : exn).

(** What the program does not decide: how a child process ends, the
    files it leaves and the seconds it takes; how a time prints; the text
    [f.read()] decodes from the bytes of a file in the encoding of the
    locale ([None] when it raises [UnicodeDecodeError]); what
    [re.findall(pattern, content, re.IGNORECASE)] finds; the text
    [json.dump(x, f, indent=2)] writes. *)
Record Env : Type := {
  run : list string -> Z -> FS.node -> outcome * FS.node * Q;
  isoformat : Q -> string;
  decode : string -> option string;
  findall : string -> string -> list string;
  dumps : Json -> string
}.

(** The files, the wall clock, the commands given to [subprocess.run]
    (latest first) and [self.timeframe_cache]. *)
Record State : Type := {
  fs : FS.node;
  clock : Q;
  spawned : list (list string);
  timeframe_cache : list (string * string)
}.

Definition with_fs (s : State) (root : FS.node) : State :=
  {| fs := root; clock := clock s; spawned := spawned s;
     timeframe_cache := timeframe_cache s |}.

Definition with_cache (s : State) (cache : list (string * string)) : State :=
  {| fs := fs s; clock := clock s; spawned := spawned s;
     timeframe_cache := cache |}.

(** Code that reads and changes the state and may raise. *)
Definition M (A : Type) : Type := State -> result A * State.

Definition ret {A : Type} (a : A) : M A := fun s => (Ok a, s).

Definition bind {A B : Type} (c : M A) (k : A -> M B) : M B :=
  fun s => match c s with
           | (Ok a, s') => k a s'
           | (Raise e, s') => (Raise e, s')
           end.

Definition gets {A : Type} (f : State -> A) : M A := fun s => (Ok (f s), s).

Definition lift {A : Type} (r : result A) : M A := fun s => (r, s).

(** Code whose exceptions are all caught inside it. *)
Definition total {A : Type} (f : State -> A * State) : M A :=
  fun s => let (a, s') := f s in (Ok a, s').

Definition on_fs (f : FS.node -> result FS.node) : M unit :=
  fun s => match f (fs s) with
           | Ok root => (Ok tt, with_fs s root)
           | Raise e => (Raise e, s)
           end.

Fixpoint cached (k : string) (cache : list (string * string)) : option string :=
  match cache with
  | [] => None
  | (k', v) :: rest => if String.eqb k k' then Some v else cached k rest
  end.

Fixpoint remember (k v : string) (cache : list (string * string))
  : list (string * string) :=
  match cache with
  | [] => [(k, v)]
  | (k', v') :: rest =>
      if String.eqb k k' then (k, v) :: rest else (k', v') :: remember k v rest
  end.

(** [sorted] on a list of [str] *)
Fixpoint insert_sorted (x : string) (l : list string) : list string :=
  match l with
  | [] => [x]
  | y :: l' => if String.leb x y then x :: l else y :: insert_sorted x l'
  end.

Fixpoint sorted (l : list string) : list string :=
  match l with
  | [] => []
  | x :: l' => insert_sorted x (sorted l')
  end.

(** [Path(file_path).parent.name] *)
Definition parent_name (file_path : string) : string :=
  let parts := filter (fun c => negb (c =? "") && negb (c =? "."))
                      (Text.split "/" file_path) in
  match rev parts with
  | _ :: p :: _ => p
  | _ => ""
  end.

(** The loop of [get_compatible_strategies] over the lines of [grep]. *)
Definition compatible_names (lines : list string) : list string :=
  fold_left
    (fun compatible_strategies line =>
       if negb (Text.strip line =? "") && Text.contains ".py:" line
       then match Text.split ":" line with
            | file_path :: _ =>
                if Text.endswith file_path ".py"
                then let strategy_name := parent_name file_path in
                     if existsb (String.eqb strategy_name) compatible_strategies
                     then compatible_strategies
                     else (compatible_strategies ++ [strategy_name])%list
                else compatible_strategies
            | [] => compatible_strategies
            end
       else compatible_strategies)
    lines [].

(** The loop of [discover_strategies] over the lines of the listing. *)
Definition listed_names (lines : list string) : list string :=
  fold_left
    (fun strategies line =>
       let strategy := Text.strip line in
       if negb (strategy =? "") && negb (Text.startswith strategy "2025-")
       then (strategies ++ [strategy])%list
       else strategies)
    lines [].

(** [discover_strategies_from_filesystem]; the [NotADirectoryError] of
    [iterdir] is not caught. *)
Definition discover_strategies_from_filesystem (root : FS.node)
  : result (list string) :=
  match FS.lookup strategies_dir root with
  | None => Ok []
  | Some (FS.File _ _) => Raise (FS.os_error FS.ENOTDIR strategies_dir)
  | Some (FS.Dir entries) =>
      Ok (sorted
            (fold_left
               (fun strategies e =>
                  let (dir_name, strategy_dir) := e : string * FS.node in
                  if FS.is_dir strategy_dir && negb (Text.startswith dir_name ".")
                  then if FS.exists_ [dir_name ++ ".py"] strategy_dir
                       then (strategies ++ [dir_name])%list
                       else strategies
                  else strategies)
               entries []))
  end.

(** [complete] is the test of [has_complete_results] on one entry. *)
Definition complete (e : string * FS.node) : bool :=
  (FS.suffix (fst e) =? ".json")
  && Text.contains "backtest" (fst e)
  && (1000 <? FS.st_size (snd e))%nat.

Definition cleanup_failed_strategy_directory
           (strategy_dir : FS.path) (strategy_name : string) (s : State) : State :=
  match FS.lookup strategy_dir (fs s) with
  | Some (FS.Dir files_in_dir) =>
      match files_in_dir with
      | [] => with_fs s (FS.remove strategy_dir (fs s))
      | _ =>
          let has_complete_results :=
            existsb complete (filter (fun e => FS.is_file (snd e)) files_in_dir) in
          if negb has_complete_results
          then with_fs s (FS.remove strategy_dir (fs s))
          else s
      end
  | Some (FS.File _ _) => s
  | None => s
  end.

Notation "x <~ c ;; k" := (bind c (fun x => k))
  (at level 61, c at next level, right associativity, only parsing).

Section Methods.

Variable env : Env.
Variable self : Config.

(** *** [load_existing_result] *)

(** The test "the result is for the same time period"; [None] when it
    raises. *)
Definition same_period (result : Json) : option bool :=
  match Py.get result "backtest_config" (JDict []) with
  | None => None
  | Some config =>
      match Py.get config "start_date" JNull with
      | None => None
      | Some stored_start =>
          if Py.eq stored_start (JStr (start_date self))
          then match Py.get result "backtest_config" (JDict []) with
               | None => None
               | Some config' =>
                   match Py.get config' "end_date" JNull with
                   | None => None
                   | Some stored_end =>
                       Some (Py.eq stored_end (JStr (end_date self)))
                   end
               end
          else Some false
      end
  end.

Definition load_existing_result (strategy_name : string) (root : FS.node)
  : option Json :=
  match FS.lookup (get_strategy_result_file strategy_name) root with
  | Some result_file =>
      match FS.load_json result_file with
      | Some result =>
          match same_period result with
          | Some true => Some result
          | Some false => None
          | None => None
          end
      | None => None
      end
  | None => None
  end.

(** *** [save_strategy_result] and the saving of a failure record *)

Definition dump (file : FS.path) (x : Json) (s : State) : State :=
  match FS.write file (FS.File (dumps env x) (FS.Document x)) (fs s) with
  | Ok root => with_fs s root
  | Raise _ => s
  end.

Definition save_strategy_result (strategy_name : string) (result : Json)
  : State -> State :=
  dump (get_strategy_result_file strategy_name) result.

Definition save_failed_result (strategy_name : string) (failed_result : Json)
  : State -> State :=
  dump (failed_file strategy_name) failed_result.

(** *** [detect_strategy_timeframe] *)

Definition quote : string := String (ascii_of_nat 34) "".

Definition timeframe_pattern (key : string) : string :=
  key ++ "\s*=\s*[" ++ quote ++ "\']([^" ++ quote ++ "\']+)[" ++ quote ++ "\']".

Definition timeframe_patterns : list string :=
  [ timeframe_pattern "timeframe";
    timeframe_pattern "TIMEFRAME";
    timeframe_pattern "informative_timeframe" ].

Fixpoint first_match (patterns : list string) (content : string) : option string :=
  match patterns with
  | [] => None
  | pattern :: rest =>
      match findall env pattern content with
      | m :: _ => Some m
      | [] => first_match rest content
      end
  end.

Definition detect_strategy_timeframe (strategy_name : string) (s : State)
  : string * State :=
  match cached strategy_name (timeframe_cache s) with
  | Some timeframe => (timeframe, s)
  | None =>
      let strategy_file :=
        (strategies_dir ++ [strategy_name; (strategy_name ++ ".py")%string])%list in
      let detected :=
        match FS.lookup strategy_file (fs s) with
        | None => "5m"
        | Some f =>
            match FS.read_text f with
            | None => "5m"
            | Some bytes =>
                match decode env bytes with
                | None => "5m"
                | Some content =>
                    match first_match timeframe_patterns content with
                    | Some timeframe => timeframe
                    | None => "5m"
                    end
                end
            end
        end in
      (detected, with_cache s (remember strategy_name detected (timeframe_cache s)))
  end.

(** *** Child processes *)

Definition subprocess_run (cmd : list string) (timeout : Z) : M Completed :=
  fun s =>
    let '(out, root, elapsed) := run env cmd timeout (fs s) in
    let s' := {| fs := root;
                 clock := Qred (clock s + elapsed)%Q;
                 spawned := cmd :: spawned s;
                 timeframe_cache := timeframe_cache s |} in
    match out with
    | Returned r => (Ok r, s')
    | Raised e => (Raise e, s')
    end.

Definition get_freqtrade_version (s : State) : string * State :=
  match subprocess_run ["freqtrade"; "--version"] 10 s with
  | (Ok r, s') =>
      (if (returncode r =? 0)%Z then Text.strip (stdout r) else "unknown", s')
  | (Raise _, s') => ("unknown", s')
  end.

(** *** [run_backtest_worker] *)

Definition strategy_results_dir (strategy_name : string) : FS.path :=
  (results_dir ++ [strategy_name])%list.

Definition now : M string := gets (fun s => isoformat env (clock s)).

(** The end of every failing path: save the record, clean up the
    unit's directory, return [None]. *)
Definition abandon (strategy_name : string) (failed_result : list (string * Json))
           (s : State) : State :=
  cleanup_failed_strategy_directory (strategy_results_dir strategy_name) strategy_name
    (save_failed_result strategy_name (JDict failed_result) s).

Definition period_config : list (string * Json) :=
  [ ("start_date", JStr (start_date self));
    ("end_date", JStr (end_date self));
    ("config_path", JStr (config_path self)) ].

Definition exit_record (strategy_name : string) (r : Completed)
           (detected_timeframe stamp : string) : list (string * Json) :=
  [ ("strategy", JStr strategy_name);
    ("error", JStr (stderr r));
    ("stdout", JStr (stdout r));
    ("detected_timeframe", JStr detected_timeframe);
    ("failed_timestamp", JStr stamp);
    ("backtest_config",
     JDict (period_config ++ [("timeframe", JStr detected_timeframe)])%list) ].

Definition timeout_text : string :=
  "Timeout after " ++ NilZero.string_of_int (Z.to_int (strategy_timeout self))
                   ++ " seconds".

Definition raised_record (strategy_name error stamp : string) : list (string * Json) :=
  [ ("strategy", JStr strategy_name);
    ("error", JStr error);
    ("stdout", JStr "");
    ("failed_timestamp", JStr stamp);
    ("backtest_config", JDict period_config) ].

Definition backtest_command (strategy_name detected_timeframe : string) : list string :=
  [ "freqtrade"; "backtesting";
    "--config"; config_path self;
    "--strategy"; strategy_name;
    "--timerange"; start_date self ++ "-" ++ end_date self;
    "--timeframe"; detected_timeframe;
    "--export"; "trades";
    "--export-filename";
    FS.path_str (strategy_results_dir strategy_name
                 ++ [(strategy_name ++ "_backtest.json")%string])%list ].

(** The [try] block after the look at the cache. *)
Definition execute (strategy_name : string) : M (option Json) :=
  _ <~ on_fs (FS.mkdir (strategy_results_dir strategy_name)) ;;
  detected_timeframe <~ total (detect_strategy_timeframe strategy_name) ;;
  let cmd := backtest_command strategy_name detected_timeframe in
  start_time <~ gets clock ;;
  r <~ subprocess_run cmd (strategy_timeout self) ;;
  end_time <~ gets clock ;;
  if (returncode r =? 0)%Z
  then
    metrics <~ lift (parse_backtest_output (stdout r) strategy_name) ;;
    stamp <~ now ;;
    version <~ total get_freqtrade_version ;;
    let metadata :=
      [ ("execution_time", JFloat (FFin (Qred (end_time - start_time)%Q)));
        ("backtest_timestamp", JStr stamp);
        ("detected_timeframe", JStr detected_timeframe);
        ("backtest_config",
         JDict (period_config ++ [("timeframe", JStr detected_timeframe)])%list);
        ("freqtrade_version", JStr version);
        ("command_executed", JStr (String.concat " " cmd)) ] in
    let full_result := JDict (Py.dict_update metrics metadata) in
    _ <~ on_fs (FS.write
                  (strategy_results_dir strategy_name
                   ++ [(strategy_name ++ "_output.txt")%string])%list
                  (FS.File (stdout r) FS.Plain)) ;;
    _ <~ total (fun s => (tt, save_strategy_result strategy_name full_result s)) ;;
    ret (Some full_result)
  else
    stamp <~ now ;;
    _ <~ total (fun s =>
                 (tt, abandon strategy_name
                        (exit_record strategy_name r detected_timeframe stamp) s)) ;;
    ret None.

(** The [try] block of the worker. *)
Definition attempt (strategy_name : string) : M (option Json) :=
  existing_result <~ gets (fun s => load_existing_result strategy_name (fs s)) ;;
  match existing_result with
  | Some result =>
      if Py.truthy result then ret (Some result) else execute strategy_name
  | None => execute strategy_name
  end.

Definition run_backtest_worker (strategy_name : string) (s : State)
  : option Json * State :=
  match attempt strategy_name s with
  | (Ok r, s') => (r, s')
  | (Raise TimeoutExpired, s') =>
      (None,
       abandon strategy_name
         (raised_record strategy_name timeout_text (isoformat env (clock s'))) s')
  | (Raise (Exception text), s') =>
      (None,
       abandon strategy_name
         (raised_record strategy_name text (isoformat env (clock s'))) s')
  end.

(** *** Discovery *)

Definition get_compatible_strategies (s : State) : list string * State :=
  match subprocess_run
          ["grep"; "-r"; "populate_entry_trend"; FS.path_str strategies_dir] 30 s with
  | (Ok r, s') =>
      (sorted (if (returncode r =? 0)%Z
               then compatible_names (Text.split newline (stdout r))
               else []), s')
  | (Raise _, s') => ([], s')
  end.

Definition discover_strategies (compatible_only : bool) : M (list string) :=
  if compatible_only then total get_compatible_strategies
  else
    fun s =>
      match subprocess_run
              ["freqtrade"; "list-strategies"; "--one-column"; "--config";
               config_path self] (discovery_timeout self) s with
      | (Ok r, s') =>
          if (returncode r =? 0)%Z
          then (Ok (sorted (listed_names
                              (Text.split newline (Text.strip (stdout r))))), s')
          else match discover_strategies_from_filesystem (fs s') with
               | Ok l => (Ok l, s')
               | Raise _ => (discover_strategies_from_filesystem (fs s'), s')
               end
      | (Raise _, s') => (discover_strategies_from_filesystem (fs s'), s')
      end.

End Methods.

End Backtester.

(** ** [StrategyResultsUtils] *)

Module Utils.

Notation "x <-- e ;; k" :=
  (match e with Some x => k | None => None end)
    (at level 61, e at next level, right associativity, only parsing).

Definition zero : Json := JFloat (FFin 0%Q).

Definition default_metrics (strategy_name : string) : list (string * Json) :=
  (Backtester.default_metrics strategy_name
   ++ [ ("cagr", zero); ("expectancy", zero); ("sortino", zero);
        ("calmar", zero); ("sqn", zero) ])%list.

(** [d.get(k, default)] on a value known to be a [dict] *)
Definition field (d : list (string * Json)) (k : string) (default : Json) : Json :=
  match Py.dict_get k d with Some v => v | None => default end.

(** The JSON the pointer file leads to: the [.json] file next to it, or
    else the first JSON member of the [.zip] archive. *)
Definition load_backtest_data (entries : list (string * FS.node))
           (latest_backtest : string) : option Json :=
  let json_filename := Text.replace ".zip" ".json" latest_backtest in
  match FS.entry json_filename entries with
  | Some json_file => FS.load_json json_file
  | None =>
      match FS.entry latest_backtest entries with
      | Some zip_file =>
          if Text.endswith latest_backtest ".zip"
          then match zip_file with
               | FS.File _ (FS.Archive members) =>
                   match filter (fun m => Text.endswith (fst m) ".json"
                                          && negb (Text.endswith (fst m) "_config.json"))
                                members with
                   | (_, content) :: _ => content
                   | [] => None
                   end
               | _ => None
               end
          else None
      | None => None
      end
  end.

(** [best_pair] and [worst_pair], read from the root of the data. *)
Definition with_pairs (backtest_data metrics : list (string * Json))
  : option (list (string * Json)) :=
  let best_pair_data := field backtest_data "best_pair" (JDict []) in
  let worst_pair_data := field backtest_data "worst_pair" (JDict []) in
  metrics <-- (if Py.truthy best_pair_data
              then key <-- Py.get best_pair_data "key" (JStr "") ;;
                   Some (Py.dict_set "best_pair" key metrics)
              else Some metrics) ;;
  if Py.truthy worst_pair_data
  then key <-- Py.get worst_pair_data "key" (JStr "") ;;
       Some (Py.dict_set "worst_pair" key metrics)
  else Some metrics.

(** The last statement before [return metrics]: the log line formats
    the profit with [:.2f]. *)
Definition logged (metrics : list (string * Json)) : option (list (string * Json)) :=
  if Py.formats_as_float (field metrics "total_profit_percent" JNull)
  then Some metrics
  else None.

(** The [strategy_comparison] variant. *)
Definition from_comparison (backtest_data comparison_data metrics : list (string * Json))
  : option (list (string * Json)) :=
  win_rate <-- Py.times_100 (field comparison_data "winrate" zero) ;;
  max_drawdown <-- Py.times_100 (field comparison_data "max_drawdown_account" zero) ;;
  cagr <-- Py.times_100 (field comparison_data "cagr" zero) ;;
  let metrics :=
    Py.dict_update metrics
      [ ("total_trades", field comparison_data "trades" (JInt 0));
        ("total_profit_percent", field comparison_data "profit_total_pct" zero);
        ("total_profit_abs", field comparison_data "profit_total_abs" zero);
        ("win_rate", win_rate);
        ("profit_factor", field comparison_data "profit_factor" zero);
        ("sharpe_ratio", field comparison_data "sharpe" zero);
        ("max_drawdown", max_drawdown);
        ("avg_profit", field comparison_data "profit_mean_pct" zero);
        ("cagr", cagr);
        ("expectancy", field comparison_data "expectancy" zero);
        ("sortino", field comparison_data "sortino" zero);
        ("calmar", field comparison_data "calmar" zero);
        ("sqn", field comparison_data "sqn" zero);
        ("winning_trades", field comparison_data "wins" (JInt 0));
        ("losing_trades", field comparison_data "losses" (JInt 0));
        ("avg_duration", field comparison_data "duration_avg" (JStr "")) ] in
  let metrics :=
    match Py.dict_get "backtest_start" backtest_data with
    | Some _ =>
        Py.dict_update metrics
          [ ("backtest_start", field backtest_data "backtest_start" (JStr ""));
            ("backtest_end", field backtest_data "backtest_end" (JStr ""));
            ("market_change", field backtest_data "market_change" zero) ]
    | None => metrics
    end in
  metrics <-- with_pairs backtest_data metrics ;;
  logged metrics.

(** The variant with the metrics at the root of the data. *)
Definition from_root (backtest_data metrics : list (string * Json))
  : option (list (string * Json)) :=
  win_rate <-- Py.times_100 (field backtest_data "winrate" zero) ;;
  max_drawdown <-- Py.times_100 (field backtest_data "max_drawdown_account" zero) ;;
  let metrics :=
    Py.dict_update metrics
      [ ("total_trades", field backtest_data "total_trades" (JInt 0));
        ("total_profit_percent", field backtest_data "profit_total_pct" zero);
        ("total_profit_abs", field backtest_data "profit_total_abs" zero);
        ("win_rate", win_rate);
        ("profit_factor", field backtest_data "profit_factor" zero);
        ("sharpe_ratio", field backtest_data "sharpe" zero);
        ("max_drawdown", max_drawdown);
        ("avg_profit", field backtest_data "profit_mean_pct" zero);
        ("cagr", field backtest_data "cagr" zero);
        ("expectancy", field backtest_data "expectancy" zero);
        ("sortino", field backtest_data "sortino" zero);
        ("calmar", field backtest_data "calmar" zero);
        ("sqn", field backtest_data "sqn" zero);
        ("backtest_start", field backtest_data "backtest_start" (JStr ""));
        ("backtest_end", field backtest_data "backtest_end" (JStr ""));
        ("market_change", field backtest_data "market_change" zero) ] in
  metrics <-- with_pairs backtest_data metrics ;;
  let total_trades := field metrics "total_trades" JNull in
  winrate <-- Py.over_100 (field metrics "win_rate" JNull) ;;
  product <-- Py.times_float total_trades winrate ;;
  winning_trades <-- Py.int_of_float product ;;
  let metrics := Py.dict_set "winning_trades" (JInt winning_trades) metrics in
  losing_trades <-- Py.minus_int total_trades winning_trades ;;
  let metrics := Py.dict_set "losing_trades" losing_trades metrics in
  let metrics :=
    Py.dict_set "avg_duration" (field backtest_data "holding_avg" (JStr "")) metrics in
  logged metrics.

(** [parse_strategy_json_data]: [None] is the [None] the source returns,
    from a [return None] or from its [except Exception]. *)
Definition parse_strategy_json_data (dir_name : string) (strategy_dir : FS.node)
  : option (list (string * Json)) :=
  match strategy_dir with
  | FS.File _ _ => None
  | FS.Dir entries =>
      last_result_file <-- FS.entry ".last_result.json" entries ;;
      last_result <-- FS.load_json last_result_file ;;
      latest_backtest <-- Py.get last_result "latest_backtest" JNull ;;
      if negb (Py.truthy latest_backtest) then None else
      latest_backtest <-- Py.as_str latest_backtest ;;
      backtest_data <-- load_backtest_data entries latest_backtest ;;
      if negb (Py.truthy backtest_data) then None else
      has_strategy <-- Py.has_key "strategy" backtest_data ;;
      if negb has_strategy then None else
      strategy_data <-- Py.get backtest_data "strategy" (JDict []) ;;
      if negb (Py.truthy strategy_data) then None else
      match backtest_data with
      | JDict data =>
          let metrics := default_metrics dir_name in
          let strategy_comparison := field data "strategy_comparison" (JList []) in
          if Py.truthy strategy_comparison
          then match strategy_comparison with
               | JList (JDict comparison_data :: _) =>
                   from_comparison data comparison_data metrics
               | _ => None
               end
          else match Py.dict_get "total_trades" data with
               | Some _ => from_root data metrics
               | None => None
               end
      | _ => None
      end
  end.

Section Scan.

(** [self.results_dir] and the [datetime.now().isoformat()] of the
    scan. *)
Variable results_dir : FS.path.
Variable now : string.

Definition individual_results_dir : FS.path :=
  (results_dir ++ ["individual_results"])%list.

(** [individual_results_dir.glob("*" + ending)], when the directory
    exists; nothing when the path is not a directory. *)
Definition cached_files (ending : string) (root : FS.node) : list (string * FS.node) :=
  match FS.lookup individual_results_dir root with
  | Some (FS.Dir entries) => filter (fun e => Text.endswith (fst e) ending) entries
  | _ => []
  end.

(** The body of the first loop of [discover_all_successful_strategies],
    over the directories of the units. *)
Definition directory_step (acc : list Json * list (Json * Json))
           (e : string * FS.node) : list Json * list (Json * Json) :=
  let '(successful_strategies, results) := acc in
  let (dir_name, strategy_dir) := e in
  if negb (FS.is_dir strategy_dir) || (dir_name =? "individual_results")
  then acc
  else match parse_strategy_json_data dir_name strategy_dir with
       | Some metrics =>
           let strategy_name := field metrics "strategy" JNull in
           ((successful_strategies ++ [strategy_name])%list,
            Py.store strategy_name (JDict metrics) results)
       | None => acc
       end.

Definition scan_directories (entries : list (string * FS.node))
  : list Json * list (Json * Json) :=
  fold_left directory_step entries ([], []).

(** The body of its second loop, over the cache files: one [try]. *)
Definition cache_step (acc : list Json * list (Json * Json))
           (e : string * FS.node) : list Json * list (Json * Json) :=
  let '(successful_strategies, results) := acc in
  let (file_name, result_file) := e in
  match FS.load_json result_file with
  | Some result =>
      match Py.get result "strategy"
                   (JStr (Text.replace "_result" "" (FS.stem file_name))) with
      | Some strategy_name =>
          if Py.hashable strategy_name
          then match Py.lookup strategy_name results with
               | Some _ => acc
               | None =>
                   ((successful_strategies ++ [strategy_name])%list,
                    Py.store strategy_name result results)
               end
          else acc
      | None => acc
      end
  | None => acc
  end.

Definition scan_cache (files : list (string * FS.node))
           (acc : list Json * list (Json * Json))
  : list Json * list (Json * Json) :=
  fold_left cache_step files acc.

(** [None] stands for an exception the function does not catch. *)
Definition discover_all_successful_strategies (root : FS.node)
  : option (list Json * list (Json * Json)) :=
  match FS.lookup results_dir root with
  | None => Some ([], [])
  | Some (FS.File _ _) => None
  | Some (FS.Dir entries) =>
      let '(successful_strategies, results) :=
        scan_cache (cached_files "_result.json" root) (scan_directories entries) in
      successful_strategies <-- Py.sorted (Py.distinct successful_strategies) ;;
      Some (successful_strategies, results)
  end.

Definition failed_indicator (e : string * FS.node) : bool :=
  Text.contains "_failed" (fst e) || Text.contains "error" (fst e).

(** [any(fs.get('strategy') == strategy_name for fs in failed_strategies)];
    [None] when a [fs.get] raises. *)
Fixpoint already_failed (strategy_name : Json) (failed_strategies : list Json)
  : option bool :=
  match failed_strategies with
  | [] => Some false
  | fs :: rest =>
      match Py.get fs "strategy" JNull with
      | Some v =>
          if Py.eq v strategy_name then Some true
          else already_failed strategy_name rest
      | None => None
      end
  end.

Definition get_failed_strategies (root : FS.node) : option (list Json) :=
  match FS.lookup results_dir root with
  | None => Some []
  | Some (FS.File _ _) => None
  | Some (FS.Dir entries) =>
      let failed_strategies :=
        fold_left
          (fun failed_strategies e =>
             let (dir_name, strategy_dir) := e : string * FS.node in
             match strategy_dir with
             | FS.Dir files =>
                 if dir_name =? "individual_results" then failed_strategies
                 else match parse_strategy_json_data dir_name strategy_dir with
                      | Some _ => failed_strategies
                      | None =>
                          if existsb failed_indicator files
                          then (failed_strategies
                                ++ [JDict [ ("strategy", JStr dir_name);
                                            ("error", JStr "Backtest failed");
                                            ("failed_timestamp", JStr now) ]])%list
                          else failed_strategies
                      end
             | FS.File _ _ => failed_strategies
             end)
          entries [] in
      Some
        (fold_left
           (fun failed_strategies e =>
              let (file_name, failed_file) := e : string * FS.node in
              match FS.load_json failed_file with
              | Some failed_result =>
                  match Py.get failed_result "strategy"
                               (JStr (Text.replace "_failed" "" (FS.stem file_name))) with
                  | Some strategy_name =>
                      match already_failed strategy_name failed_strategies with
                      | Some false => (failed_strategies ++ [failed_result])%list
                      | Some true => failed_strategies
                      | None => failed_strategies
                      end
                  | None => failed_strategies
                  end
              | None => failed_strategies
              end)
           (cached_files "_failed.json" root) failed_strategies)
  end.

Definition collect_all_results (root : FS.node)
  : option (list (Json * Json) * list Json) :=
  found <-- discover_all_successful_strategies root ;;
  failed_strategies <-- get_failed_strategies root ;;
  Some (snd found, failed_strategies).

End Scan.

End Utils.

(** ** [StrategyBacktester], the methods that use the shared utilities *)

Module Housekeeping.

Import Backtester.

(** *** [cleanup_empty_directories] *)

(** The test of its first loop: a directory other than
    [individual_results] in which [iterdir] finds nothing. *)
Definition is_empty_dir (e : string * FS.node) : bool :=
  match snd e with
  | FS.Dir [] => negb (fst e =? "individual_results")
  | _ => false
  end.

(** The second loop: [rmdir] of each of them. *)
Definition remove_dirs (names : list string) (root : FS.node) : FS.node :=
  fold_left (fun root name => FS.remove (results_dir ++ [name])%list root) names root.

Definition cleanup_empty_directories (s : State) : State :=
  match FS.lookup results_dir (fs s) with
  | Some (FS.Dir entries) =>
      let empty_dirs := filter is_empty_dir entries in
      with_fs s (remove_dirs (map fst empty_dirs) (fs s))
  | Some (FS.File _ _) => s
  | None => s
  end.

(** *** [collect_all_results] and [get_previously_successful_strategies] *)

(** The loops of the fallback of [collect_all_results], over the files
    [*_result.json] and [*_failed.json] of the cache; the body of each is
    one [try]. *)
Definition fallback_result_step (results : list (Json * Json))
           (e : string * FS.node) : list (Json * Json) :=
  let (file_name, result_file) := e in
  match FS.load_json result_file with
  | Some result =>
      match Py.get result "strategy"
                   (JStr (Text.replace "_result" "" (FS.stem file_name))) with
      | Some strategy_name =>
          if Py.hashable strategy_name
          then Py.store strategy_name result results
          else results
      | None => results
      end
  | None => results
  end.

Definition fallback_failed_step (failed : list Json) (e : string * FS.node)
  : list Json :=
  match FS.load_json (snd e) with
  | Some failed_result => (failed ++ [failed_result])%list
  | None => failed
  end.

Definition collect_all_results_fallback (root : FS.node) : Memory :=
  {| results :=
       fold_left fallback_result_step
                 (Utils.cached_files results_dir "_result.json" root) [];
     failed_strategies :=
       fold_left fallback_failed_step
                 (Utils.cached_files results_dir "_failed.json" root) [] |}.

(** [collect_all_results]: the scan of the shared utilities, or the
    fallback when [import utils] fails ([utils_found] is false) or the scan
    raises.  [now] is the time of the scan. *)
Definition collect_all_results (utils_found : bool) (now : string) (root : FS.node)
  : Memory :=
  if utils_found
  then match Utils.collect_all_results results_dir now root with
       | Some (successes, failures) =>
           {| results := successes; failed_strategies := failures |}
       | None => collect_all_results_fallback root
       end
  else collect_all_results_fallback root.

End Housekeeping.


(** ** The vocabulary of the statements *)

Module Spec.

Import Backtester.

(** The identifier is a key of [self.results]. *)
Definition completed (self : Memory) (s : string) : Prop :=
  In (JStr s) (map fst (results self)).

(** The identifier is the strategy of a record of
    [self.failed_strategies]. *)
Definition failed (self : Memory) (s : string) : Prop :=
  exists fs, In fs (failed_strategies self)
             /\ Py.get fs "strategy" JNull = Some (JStr s).

(** Every failure record is a [dict] whose strategy can be hashed. *)
Definition records_hashable (self : Memory) : Prop :=
  Forall (fun fs => exists v, Py.get fs "strategy" JNull = Some v
                              /\ Py.hashable v = true)
         (failed_strategies self).

(** A window bound of the configuration stored in a result. *)
Definition stored_bound (result : Json) (bound : string) : option Json :=
  match result with
  | JDict fields =>
      match Py.dict_get "backtest_config" fields with
      | Some (JDict config) => Py.dict_get bound config
      | _ => None
      end
  | _ => None
  end.

(** The result file of the identifier exists and [json.load] reads
    [result] from it. *)
Definition persisted (strategy_name : string) (root : FS.node) (result : Json) : Prop :=
  exists f, FS.lookup (get_strategy_result_file strategy_name) root = Some f
            /\ FS.load_json f = Some result.

(** A complete artifact: a regular file with the suffix [.json], a name
    that contains [backtest] and more than 1000 bytes. *)
Definition qualifying (file_name : string) (f : FS.node) : Prop :=
  FS.is_file f = true
  /\ FS.suffix file_name = ".json"
  /\ Text.contains "backtest" file_name = true
  /\ 1000 < FS.st_size f.

(** The fields of a metrics record that the parser may assign: all but
    [strategy]. *)
Definition data_keys : list string := tl (map fst (default_metrics "")).

(** [update] is a list of assignments to those fields. *)
Definition assignments (update : list (string * Json)) : Prop :=
  Forall (fun kv => In (fst kv) data_keys) update.

(** What a block of the parser stores: the same assignments whatever
    the record it starts from. *)
Definition effect (f : list (string * Json) -> list (string * Json)) : Prop :=
  exists update, assignments update /\ forall m, f m = Py.dict_update m update.

(** No two keys of the map are equal. *)
Definition distinct_keys (results : list (Json * Json)) : Prop :=
  ForallOrdPairs (fun a b => Py.eq (fst a) (fst b) = false) results.

(** The entries of the map under the identifier. *)
Definition entries_of (strategy_name : string) (results : list (Json * Json))
  : list (Json * Json) :=
  filter (fun kv => Py.eq (fst kv) (JStr strategy_name)) results.

(** The sequence is sorted, as [sorted] leaves a list of [str]. *)
Definition ordered (l : list string) : Prop :=
  Sorted (fun a b => String.leb a b = true) l.

(** *** What the parser extracts

    The tables below restate the parser in the words of its contract:
    which field a row is for, and how its value is read.  A reading is
    [None] where the value cannot be extracted. *)

Definition read_float (v : string) : option Json :=
  option_map JFloat (Num.py_float v).

Definition read_int (v : string) : option Json :=
  option_map JInt (Num.py_int v).

Definition read_text (v : string) : option Json := Some (JStr v).

(** A number followed by a percent sign *)
Definition read_percent (v : string) : option Json :=
  if Text.contains "%" v then read_float (Text.replace "%" "" v) else None.

(** An amount in USDT *)
Definition read_usdt (v : string) : option Json :=
  if Text.contains "USDT" v
  then read_float (Text.strip (Text.replace "USDT" "" v))
  else None.

(** The rows of the detail table: the labels of a row, its field and the
    reading of its value.  A row is for the first entry one of whose labels
    occurs in its second cell. *)
Definition detail_table : list (list string * string * (string -> option Json)) :=
  [ (["Total profit %"], "total_profit_percent", read_percent);
    (["Absolute profit"], "total_profit_abs", read_usdt);
    (["Sharpe"], "sharpe_ratio", read_float);
    (["Profit factor"], "profit_factor", read_float);
    (["Best Pair"], "best_pair", read_text);
    (["Worst Pair"], "worst_pair", read_text);
    (["Max % of account underwater"; "Absolute Drawdown (Account)"],
     "max_drawdown", read_percent);
    (["Market change"], "market_change", read_percent) ].

Definition row_for (cell : string)
           (row : list string * string * (string -> option Json)) : bool :=
  existsb (fun label => Text.contains label cell) (fst (fst row)).

(** What a row of at least four cells stores: the value of its third
    cell under the field of its label, when that value can be read. *)
Definition detail_reading (parts : list string) : option (string * Json) :=
  if (4 <=? List.length parts)%nat
  then match find (row_for (nth 1 parts "")) detail_table with
       | Some (_, field, read) =>
           option_map (pair field) (read (nth 2 parts ""))
       | None => None
       end
  else None.

(** The readings of a row up to the first that fails. *)
Fixpoint until_malformed (readings : list (string * option Json))
  : list (string * Json) :=
  match readings with
  | (field, Some v) :: rest => (field, v) :: until_malformed rest
  | _ => []
  end.

(** The cells of the strategy summary row, in the order they are read:
    trades, average profit, total profit in USDT and in percent, average
    duration, and the wins, losses and win rate of the eighth cell when it
    has four words. *)
Definition summary_readings (parts : list string) : list (string * option Json) :=
  let stats_parts := Text.words (Text.strip (nth 7 parts "")) in
  ([ ("total_trades", read_int (nth 2 parts ""));
     ("avg_profit", read_float (nth 3 parts ""));
     ("total_profit_abs", read_float (nth 4 parts ""));
     ("total_profit_percent", read_float (nth 5 parts ""));
     ("avg_duration", read_text (nth 6 parts "")) ]
   ++ (if (4 <=? List.length stats_parts)%nat
       then [ ("winning_trades", read_int (nth 0 stats_parts ""));
              ("losing_trades", read_int (nth 2 stats_parts ""));
              ("win_rate", read_float (nth 3 stats_parts "")) ]
       else []))%list.

(** The two dates of a line [Backtested a -> b | ...]. *)
Definition dates_reading (line : string) : list (string * Json) :=
  let date_part :=
    Text.strip (nth 0 (Text.split "|" (nth 1 (Text.split "Backtested" line) "")) "") in
  if (2 <=? List.length (Text.split "Backtested" line))%nat
     && Text.contains "->" date_part
  then match Text.split "->" date_part with
       | [start_date; end_date] =>
           [ ("backtest_start", JStr (Text.strip start_date));
             ("backtest_end", JStr (Text.strip end_date)) ]
       | _ => []
       end
  else [].

(** What a stripped line stores, in the order it is stored. *)
Definition line_update (strategy_name line : string) : list (string * Json) :=
  ((if Text.contains box line
    then match detail_reading (cells line) with
         | Some assignment => [assignment]
         | None => []
         end
    else [])
   ++ (if Text.contains strategy_name line && Text.contains box line
          && (9 <=? List.length (cells line))%nat
       then until_malformed (summary_readings (cells line))
       else [])
   ++ (if Text.contains "Backtested" line && Text.contains "->" line
       then dates_reading line
       else []))%list.

(** What an output stores. *)
Definition extracted (strategy_name output : string) : list (string * Json) :=
  flat_map (fun raw => line_update strategy_name (Text.strip raw))
           (Text.split newline output).

(** The log file of the program, in the working directory: the file
    tree of the model does not show what is written to it. *)
Definition log_file : FS.path := ["strategy_backtest.log"].

(** The path leads to the same file or directory, or to none, in both
    states. *)
Definition unchanged_at (p : FS.path) (s s' : State) : Prop :=
  FS.lookup p (fs s') = FS.lookup p (fs s).

(** Code that leaves what is at the path as it is. *)
Definition leaves {A : Type} (p : FS.path) (c : M A) : Prop :=
  forall s, unchanged_at p s (snd (c s)).

(** The text is one name of a path: not empty, without a slash, and
    neither [.] nor [..]. *)
Definition component (name : string) : Prop :=
  Text.contains "/" name = false
  /\ name <> "" /\ name <> "." /\ name <> "..".

(** The failure records whose [strategy] is the identifier. *)
Definition records_of (strategy_name : string) (failed_strategies : list Json)
  : list Json :=
  filter (fun fs => match Py.get fs "strategy" JNull with
                    | Some v => Py.eq v (JStr strategy_name)
                    | None => false
                    end)
         failed_strategies.

End Spec.

(** ** Sample worlds *)

Module Sample.

Import Backtester.

(** The configuration [__init__] sets. *)
Definition self : Config :=
  {| config_path := "user_data/config.json";
     start_date := "20240101";
     end_date := "20241231";
     strategy_timeout := 300;
     discovery_timeout := 60 |}.

(** A working directory whose results directory has these entries. *)
Definition tree (results : list (string * FS.node)) : FS.node :=
  FS.Dir [("user_data", FS.Dir [("backtest_results", FS.Dir results)])].

Definition state (root : FS.node) : State :=
  {| fs := root; clock := 0%Q; spawned := []; timeframe_cache := [] |}.

(** A world in which every command ends the same way, after one second,
    and leaves the files as they are. *)
Definition world (end_of_command : outcome) : Env :=
  {| run := fun _ _ root => (end_of_command, root, 1%Q);
     isoformat := fun _ => "2024-06-01T12:00:00";
     decode := fun bytes => Some bytes;
     findall := fun _ _ => [];
     dumps := fun _ => "{}" |}.

Definition exits (code : Z) (out err : string) : outcome :=
  Returned {| returncode := code; stdout := out; stderr := err |}.

(** A result as the worker stores it, for a window and a time frame. *)
Definition stored_result (strategy_name first last timeframe : string) : Json :=
  JDict [ ("strategy", JStr strategy_name);
          ("total_trades", JInt 10);
          ("execution_time", JFloat (FFin 42%Q));
          ("backtest_timestamp", JStr "2024-05-01T08:00:00");
          ("backtest_config",
           JDict [ ("start_date", JStr first);
                   ("end_date", JStr last);
                   ("config_path", JStr "other/config.json");
                   ("timeframe", JStr timeframe) ]) ].

Definition document (x : Json) : FS.node := FS.File "{}" (FS.Document x).

Definition failure_of (strategy_name : string) : Json :=
  JDict [ ("strategy", JStr strategy_name);
          ("error", JStr "Timeout after 300 seconds");
          ("stdout", JStr "");
          ("failed_timestamp", JStr "2024-05-01T07:00:00") ].

(** The cache holds a result of [B] for the active window, computed with
    another time frame and configuration file, and a result of [C] for
    last year's window. *)
Definition cached_tree : FS.node :=
  tree [ ("individual_results",
          FS.Dir [ ("B_result.json",
                    document (stored_result "B" "20240101" "20241231" "1h"));
                   ("C_result.json",
                    document (stored_result "C" "20230101" "20231231" "5m")) ]) ].

(** The results directory exists, its [individual_results] does not. *)
Definition bare_tree : FS.node := tree [].

(** In memory: [B] is completed, and a failure of [B] is on record. *)
Definition memory : Memory :=
  {| results := [(JStr "B", stored_result "B" "20240101" "20241231" "5m")];
     failed_strategies := [failure_of "B"] |}.

(** The summary row of a strategy [S], and the same row with a malformed
    average profit. *)
Definition summary_of (strategy_name avg_profit : string) : string :=
  "│ " ++ strategy_name ++ " │ 10 │ " ++ avg_profit
       ++ " │ 5.0 │ 2.5 │ 1:00:00 │ 3 0 7 30.0 │ 1% │".
Definition summary_good : string := summary_of "S" "1.5".
Definition summary_bad : string := summary_of "S" "n/a".

(** A text of [n] bytes. *)
Definition text_of_size (n : nat) : string := Py.repeat_string "x" n.

(** An artifact directory with a trace of a failed run only, and one
    with a complete export. *)
Definition partial_tree : FS.node :=
  tree [ ("A", FS.Dir [ ("A_backtest.json", FS.File "" FS.Plain);
                        ("A_output.txt", FS.File "started" FS.Plain) ]) ].
Definition complete_tree : FS.node :=
  tree [ ("A", FS.Dir [ ("A_backtest.json",
                         FS.File (text_of_size 1001) FS.Plain) ]) ].

(** An artifact directory of [A] with its pointer file and a structured
    export, next to a cache record of [A]. *)
Definition export_of_A : Json :=
  JDict [ ("strategy", JDict [("A", JDict [("trades", JList [])])]);
          ("strategy_comparison",
           JList [ JDict [ ("key", JStr "A");
                           ("trades", JInt 12);
                           ("profit_total_pct", JFloat (FFin 3.5%Q));
                           ("winrate", JFloat (FFin 0.5%Q)) ] ]) ].

Definition directory_of_A : FS.node :=
  FS.Dir [ (".last_result.json",
            document (JDict [("latest_backtest", JStr "backtest-result.zip")]));
           ("backtest-result.zip",
            FS.File "PK" (FS.Archive [ ("backtest-result_config.json", None);
                                       ("backtest-result.json", Some export_of_A) ])) ].

Definition both_sources_tree : FS.node :=
  tree [ ("A", directory_of_A);
         ("individual_results",
          FS.Dir [ ("A_result.json",
                    document (stored_result "A" "20240101" "20241231" "5m")) ]) ].

(** The cache after a failed run of [X] and a successful retry: the
    failure record of the first run is still there. *)
Definition retried_tree : FS.node :=
  tree [ ("individual_results",
          FS.Dir [ ("X_failed.json", document (failure_of "X"));
                   ("X_result.json",
                    document (stored_result "X" "20240101" "20241231" "5m")) ]) ].

(** A world in which the backtest of [X] fails as long as no failure of
    [X] is on record, and succeeds afterwards. *)
Definition flaky_world : Env :=
  {| run := fun cmd _ root =>
              match cmd with
              | "freqtrade" :: "backtesting" :: _ =>
                  if FS.exists_ (failed_file "X") root
                  then (exits 0 (summary_of "X" "1.5") "", root, 2%Q)
                  else (exits 1 "" "No data found", root, 1%Q)
              | _ => (exits 0 "freqtrade 2024.5" "", root, 1%Q)
              end;
     isoformat := fun _ => "2024-06-01T12:00:00";
     decode := fun bytes => Some bytes;
     findall := fun _ _ => [];
     dumps := fun _ => "{}" |}.

Definition empty_cache_tree : FS.node := tree [("individual_results", FS.Dir [])].

(** A listing that names the strategy [A] twice. *)
Definition listing_twice : string := "A" ++ newline ++ "A" ++ newline.

(** A results directory after failed runs: two empty artifact
    directories, the empty cache, a directory with an output and a file. *)
Definition littered_tree : FS.node :=
  tree [ ("A", FS.Dir []);
         ("individual_results", FS.Dir []);
         ("B", FS.Dir [("B_output.txt", FS.File "done" FS.Plain)]);
         ("C", FS.Dir []);
         ("notes.txt", FS.File "" FS.Plain) ].

(** The strategies directory: [A] and [B] with their sources, a hidden
    directory, a directory without the source of its name, and a file. *)
Definition strategies_tree : FS.node :=
  FS.Dir [ ("user_data",
            FS.Dir [ ("strategies",
                      FS.Dir [ ("B", FS.Dir [("B.py", FS.File "class B" FS.Plain)]);
                               (".git", FS.Dir [(".git.py", FS.File "" FS.Plain)]);
                               ("A", FS.Dir [("A.py", FS.File "class A" FS.Plain)]);
                               ("C", FS.Dir [("helper.py", FS.File "" FS.Plain)]);
                               ("README.md", FS.File "" FS.Plain) ]);
                     ("backtest_results",
                      FS.Dir [("individual_results", FS.Dir [])]) ]) ].

(** Both sources hold a record of [A], and the cache holds a record
    whose strategy is the number 5. *)
Definition mixed_names_tree : FS.node :=
  tree [ ("A", directory_of_A);
         ("individual_results",
          FS.Dir [ ("A_result.json",
                    document (stored_result "A" "20240101" "20241231" "5m"));
                   ("N_result.json",
                    document (JDict [("strategy", JInt 5)])) ]) ].

(** A row of the detail table. *)
Definition detail_of (label value : string) : string :=
  "│ " ++ label ++ " │ " ++ value ++ " │".

(** A listing with a log line, and lines with white space around. *)
Definition listing_logged : string :=
  "2025-01-01 12:00:00 - freqtrade - INFO" ++ newline
    ++ "  B " ++ newline ++ "A" ++ newline.

End Sample.

(** * Properties *)

Local Open Scope list_scope.

(** ** Values *)

Lemma eq_str (y : Json) (s : string) : Py.eq y (JStr s) = true <-> y = JStr s.
Proof.
  destruct y as [| b | z | f | t | l | d]; simpl;
    try (split; [discriminate | intros H; discriminate H]).
  rewrite String.eqb_eq. split; [intros -> | intros H; injection H]; auto.
Qed.

Lemma member_str (s : string) (l : list Json) :
  Py.member (JStr s) l = true <-> In (JStr s) l.
Proof.
  unfold Py.member. rewrite existsb_exists. split.
  - intros [y [Hy Hq]]. apply eq_str in Hq. subst y. exact Hy.
  - intros H. exists (JStr s). split; [exact H | apply eq_str; reflexivity].
Qed.

(** ** The pending set *)

Lemma failed_names_spec (records : list Json) :
  Forall (fun fs => exists v, Py.get fs "strategy" JNull = Some v
                              /\ Py.hashable v = true) records ->
  exists names,
    Backtester.failed_names records = Some names
    /\ forall v, In v names <->
                 exists fs, In fs records /\ Py.get fs "strategy" JNull = Some v.
Proof.
  induction 1 as [| fs rest [v [Hget Hhash]] _ [names [Hnames Hin]]]; simpl.
  - exists []. split; [reflexivity |]. intros v; split; [intros [] | intros [fs [[] _]]].
  - rewrite Hget, Hhash, Hnames. exists (v :: names). split; [reflexivity |].
    intros w; split.
    + intros [<- | Hw].
      * exists fs. split; [left; reflexivity | exact Hget].
      * apply Hin in Hw. destruct Hw as [fs' [Hfs' Hg]].
        exists fs'. split; [right; exact Hfs' | exact Hg].
    + intros [fs' [[<- | Hfs'] Hg]].
      * left. congruence.
      * right. apply Hin. exists fs'. split; assumption.
Qed.

(** C3, as amended.  When the strategies of the failure records can be
    hashed, [get_strategies_to_process] returns the elements of
    [all_strategies] that are neither completed nor failed, in discovery
    order, followed, when [include_failed] is set, by the elements that are
    failed, in discovery order.  A completed identifier is never in the
    pending group; it is in the returned list only when [include_failed] is
    set and it is failed as well. *)
Theorem get_strategies_to_process_spec
        (self : Backtester.Memory) (all_strategies : list string)
        (include_failed : bool) :
  Spec.records_hashable self ->
  exists pending retry : string -> bool,
    (forall s, pending s = true <-> ~ Spec.completed self s /\ ~ Spec.failed self s)
    /\ (forall s, retry s = true <-> Spec.failed self s)
    /\ Backtester.get_strategies_to_process self all_strategies include_failed
       = Some (filter pending all_strategies
               ++ (if include_failed then filter retry all_strategies else []))%list
    /\ (forall s, Spec.completed self s -> ~ In s (filter pending all_strategies))
    /\ (forall l s,
           Backtester.get_strategies_to_process self all_strategies include_failed
           = Some l ->
           In s l -> Spec.completed self s ->
           include_failed = true /\ Spec.failed self s).
Proof.
  intros Hok. unfold Backtester.get_strategies_to_process.
  destruct (failed_names_spec Hok) as [names [Hnames Hin]].
  rewrite Hnames.
  set (pending := fun s =>
         negb (Py.member (JStr s) (map fst (Backtester.results self)))
         && negb (Py.member (JStr s) names)).
  set (retry := fun s => Py.member (JStr s) names).
  assert (Hretry : forall s, retry s = true <-> Spec.failed self s).
  { intros s. unfold retry, Spec.failed. rewrite member_str. apply Hin. }
  assert (Hpending : forall s, pending s = true
                               <-> ~ Spec.completed self s /\ ~ Spec.failed self s).
  { intros s. unfold pending, Spec.completed.
    rewrite andb_true_iff, !negb_true_iff, <- !not_true_iff_false, member_str.
    fold (retry s). rewrite Hretry. reflexivity. }
  exists pending, retry.
  split; [exact Hpending |]. split; [exact Hretry |].
  split; [destruct include_failed; reflexivity |]. split.
  - intros s Hc Hs. apply filter_In in Hs. destruct Hs as [_ Hs].
    apply Hpending in Hs. tauto.
  - intros l s Hl Hs Hc. injection Hl as <-.
    apply in_app_or in Hs. destruct Hs as [Hs | Hs].
    + apply filter_In in Hs. destruct Hs as [_ Hs]. apply Hpending in Hs. tauto.
    + destruct include_failed; [| destruct Hs].
      apply filter_In in Hs. destruct Hs as [_ Hs].
      split; [reflexivity | apply Hretry; exact Hs].
Qed.

(** ** The result cache *)

Lemma same_period_true (self : Backtester.Config) (r : Json) :
  Backtester.same_period self r = Some true <->
  Spec.stored_bound r "start_date" = Some (JStr (Backtester.start_date self))
  /\ Spec.stored_bound r "end_date" = Some (JStr (Backtester.end_date self)).
Proof.
  unfold Backtester.same_period, Spec.stored_bound, Py.get.
  destruct r as [| b | z | f | t | l | d];
    try (split; [discriminate | intros [H _]; discriminate H]).
  destruct (Py.dict_get "backtest_config" d) as [c |].
  - destruct c as [| b | z | f | t | l | c];
      try (split; [discriminate | intros [H _]; discriminate H]).
    destruct (Py.dict_get "start_date" c) as [v |].
    + destruct (Py.eq v (JStr (Backtester.start_date self))) eqn:E.
      * apply eq_str in E. subst v.
        destruct (Py.dict_get "end_date" c) as [w |].
        -- split.
           ++ intros H. injection H as H. apply eq_str in H. subst w. auto.
           ++ intros [_ H]. injection H as ->. f_equal. apply eq_str. reflexivity.
        -- simpl. split; [discriminate | intros [_ H]; discriminate H].
      * split; [discriminate |]. intros [H _]. injection H as ->.
        rewrite (proj2 (eq_str _ _) eq_refl) in E. discriminate E.
    + simpl. split; [discriminate | intros [H _]; discriminate H].
  - simpl. split; [discriminate | intros [H _]; discriminate H].
Qed.

Lemma load_existing_result_some
      (self : Backtester.Config) (strategy_name : string) (root : FS.node)
      (result : Json) :
  Backtester.load_existing_result self strategy_name root = Some result <->
  Spec.persisted strategy_name root result
  /\ Spec.stored_bound result "start_date" = Some (JStr (Backtester.start_date self))
  /\ Spec.stored_bound result "end_date" = Some (JStr (Backtester.end_date self)).
Proof.
  unfold Backtester.load_existing_result, Spec.persisted. split.
  - destruct (FS.lookup _ root) as [f |]; [| discriminate].
    destruct (FS.load_json f) as [r |] eqn:Hr; [| discriminate].
    destruct (Backtester.same_period self r) as [[|] |] eqn:Hp; try discriminate.
    intros H. injection H as <-. apply same_period_true in Hp.
    split; [exists f; auto | exact Hp].
  - intros [[f [Hf Hr]] Hb]. rewrite Hf, Hr.
    apply same_period_true in Hb. rewrite Hb. reflexivity.
Qed.

(** C1.  [load_existing_result] returns a result exactly when it is the
    persisted result of the identifier and the start and end dates of its
    stored configuration both equal the active ones; when the persisted
    result has another window, the call returns [None], and with [None]
    the worker goes on to run the backtest. *)
Theorem load_existing_result_window
        (self : Backtester.Config) (strategy_name : string) (root : FS.node)
        (result : Json) :
  (Backtester.load_existing_result self strategy_name root = Some result <->
   Spec.persisted strategy_name root result
   /\ Spec.stored_bound result "start_date" = Some (JStr (Backtester.start_date self))
   /\ Spec.stored_bound result "end_date" = Some (JStr (Backtester.end_date self)))
  /\ (Spec.persisted strategy_name root result ->
      Spec.stored_bound result "start_date" <> Some (JStr (Backtester.start_date self))
      \/ Spec.stored_bound result "end_date" <> Some (JStr (Backtester.end_date self)) ->
      Backtester.load_existing_result self strategy_name root = None)
  /\ (forall env s,
         Backtester.load_existing_result self strategy_name (Backtester.fs s) = None ->
         Backtester.attempt env self strategy_name s
         = Backtester.execute env self strategy_name s).
Proof.
  split; [apply load_existing_result_some |]. split.
  - intros [f [Hf Hr]] Hb.
    destruct (Backtester.load_existing_result self strategy_name root) as [r |] eqn:Hl;
      [| reflexivity].
    apply load_existing_result_some in Hl. destruct Hl as [[f' [Hf' Hr']] Hb'].
    rewrite Hf in Hf'. injection Hf' as <-. rewrite Hr in Hr'. injection Hr' as <-.
    tauto.
  - intros env s H. unfold Backtester.attempt, Backtester.bind, Backtester.gets.
    rewrite H. reflexivity.
Qed.

(** C10.  A persisted result whose stored start and end dates equal the
    active ones is returned whatever its other fields are, those of the
    stored configuration (time frame, configuration path) included. *)
Theorem load_existing_result_window_only
        (self : Backtester.Config) (strategy_name : string) (root : FS.node)
        (text : string) (fields config : list (string * Json)) :
  FS.lookup (Backtester.get_strategy_result_file strategy_name) root
  = Some (FS.File text (FS.Document (JDict fields))) ->
  Py.dict_get "backtest_config" fields = Some (JDict config) ->
  Py.dict_get "start_date" config = Some (JStr (Backtester.start_date self)) ->
  Py.dict_get "end_date" config = Some (JStr (Backtester.end_date self)) ->
  Backtester.load_existing_result self strategy_name root = Some (JDict fields).
Proof.
  intros Hf Hc Hs He.
  apply load_existing_result_some.
  split; [exists (FS.File text (FS.Document (JDict fields))); auto |].
  unfold Spec.stored_bound. rewrite Hc. auto.
Qed.

Lemma valid_result_truthy
      (self : Backtester.Config) (strategy_name : string) (root : FS.node)
      (result : Json) :
  Backtester.load_existing_result self strategy_name root = Some result ->
  Py.truthy result = true.
Proof.
  intros H. apply load_existing_result_some in H. destruct H as [_ [H _]].
  unfold Spec.stored_bound in H.
  destruct result as [| b | z | f | t | l | d]; try discriminate H.
  destruct d; [discriminate H | reflexivity].
Qed.

(** C2.  When the identifier has a valid persisted result under the
    active configuration, [run_backtest_worker] returns it and leaves the
    state as it was: no command is given to [subprocess.run] and no file
    changes, so the stored duration and timestamp stay. *)
Theorem run_backtest_worker_cache_hit
        (env : Backtester.Env) (self : Backtester.Config) (strategy_name : string)
        (s : Backtester.State) (result : Json) :
  Backtester.load_existing_result self strategy_name (Backtester.fs s) = Some result ->
  Backtester.run_backtest_worker env self strategy_name s = (Some result, s).
Proof.
  intros H. unfold Backtester.run_backtest_worker, Backtester.attempt,
    Backtester.bind, Backtester.gets.
  rewrite H, (valid_result_truthy _ _ _ H). reflexivity.
Qed.

(** ** The file tree *)

Lemma entry_set_entry (n : string) (x : FS.node) (es : list (string * FS.node)) :
  FS.entry n (FS.set_entry n x es) = Some x.
Proof.
  induction es as [| [m y] es IH]; simpl.
  - rewrite String.eqb_refl. reflexivity.
  - destruct (String.eqb n m) eqn:E; simpl.
    + rewrite String.eqb_refl. reflexivity.
    + rewrite E. exact IH.
Qed.

Lemma entry_set_entry_other (n m : string) (x : FS.node) (es : list (string * FS.node)) :
  n <> m -> FS.entry m (FS.set_entry n x es) = FS.entry m es.
Proof.
  intros Hnm. induction es as [| [k y] es IH]; simpl.
  - destruct (String.eqb m n) eqn:E; [| reflexivity].
    apply String.eqb_eq in E. congruence.
  - destruct (String.eqb n k) eqn:E; simpl.
    + apply String.eqb_eq in E. subst k.
      destruct (String.eqb m n) eqn:E'; [| reflexivity].
      apply String.eqb_eq in E'. congruence.
    + destruct (String.eqb m k); [reflexivity | exact IH].
Qed.

Lemma entry_del_entry (n : string) (es : list (string * FS.node)) :
  FS.entry n (FS.del_entry n es) = None.
Proof.
  induction es as [| [m y] es IH]; simpl; [reflexivity |].
  destruct (String.eqb n m) eqn:E; simpl; [exact IH |].
  rewrite E. exact IH.
Qed.

Lemma entry_del_entry_other (n m : string) (es : list (string * FS.node)) :
  n <> m -> FS.entry m (FS.del_entry n es) = FS.entry m es.
Proof.
  intros Hnm. induction es as [| [k y] es IH]; simpl; [reflexivity |].
  destruct (String.eqb n k) eqn:E; simpl.
  - apply String.eqb_eq in E. subst k.
    destruct (String.eqb m n) eqn:E'; [| exact IH].
    apply String.eqb_eq in E'. congruence.
  - destruct (String.eqb m k); [reflexivity | exact IH].
Qed.

Lemma lookup_app (p q : FS.path) (root : FS.node) :
  FS.lookup (p ++ q) root =
  match FS.lookup p root with
  | Some x => FS.lookup q x
  | None => None
  end.
Proof.
  revert root. induction p as [| c p IH]; intros root; simpl; [reflexivity |].
  destruct root as [text kind | es]; [reflexivity |].
  destruct (FS.entry c es) as [x |]; [apply IH | reflexivity].
Qed.

(** A rewriting of the directory at [p] that succeeds has found a
    directory there and leaves the rewritten one there. *)
Lemma in_dir_inr (p : FS.path)
      (f : list (string * FS.node) -> FS.errno + list (string * FS.node))
      (root root' : FS.node) :
  FS.in_dir p f root = inr root' ->
  exists es es',
    FS.lookup p root = Some (FS.Dir es) /\ f es = inr es'
    /\ FS.lookup p root' = Some (FS.Dir es').
Proof.
  revert root root'. induction p as [| c p IH]; intros root root';
    destruct root as [text kind | es]; simpl; try discriminate.
  - destruct (f es) as [e | es'] eqn:Hf; [discriminate |].
    intros H. injection H as <-. exists es, es'. auto.
  - destruct (FS.entry c es) as [x |] eqn:Hx; [| discriminate].
    destruct (FS.in_dir p f x) as [e | x'] eqn:Hin; [discriminate |].
    intros H. injection H as <-.
    destruct (IH _ _ Hin) as [es0 [es0' [H1 [H2 H3]]]].
    exists es0, es0'. simpl. rewrite entry_set_entry. auto.
Qed.

(** It fails only where there is no directory, when [f] itself succeeds. *)
Lemma in_dir_inl (p : FS.path)
      (f : list (string * FS.node) -> FS.errno + list (string * FS.node))
      (root : FS.node) (e : FS.errno) (es : list (string * FS.node)) :
  FS.in_dir p f root = inl e ->
  FS.lookup p root = Some (FS.Dir es) ->
  f es = inl e.
Proof.
  revert root. induction p as [| c p IH]; intros root;
    destruct root as [text kind | es0]; simpl; try discriminate.
  - intros H1 H2. injection H2 as ->. destruct (f es); congruence.
  - destruct (FS.entry c es0) as [x |]; [| discriminate].
    destruct (FS.in_dir p f x) as [e' | x'] eqn:Hin; [| discriminate].
    intros H1 H2. injection H1 as ->. eapply IH; eauto.
Qed.

Lemma parent_name_app (p : FS.path) (n : string) :
  FS.parent (p ++ [n]) = p /\ FS.name (p ++ [n]) = n.
Proof.
  unfold FS.parent, FS.name. split; [apply removelast_last | apply last_last].
Qed.

Lemma lookup_remove (p : FS.path) (n : string) (root : FS.node) :
  FS.lookup (p ++ [n]) (FS.remove (p ++ [n]) root) = None.
Proof.
  unfold FS.remove. destruct (parent_name_app p n) as [-> ->].
  rewrite lookup_app.
  destruct (FS.in_dir p (fun es => inr (FS.del_entry n es)) root) as [e | root'] eqn:H.
  - destruct (FS.lookup p root) as [[text kind | es] |] eqn:Hp; try reflexivity.
    pose proof (in_dir_inl _ _ _ H Hp) as Hf. discriminate Hf.
  - apply in_dir_inr in H. destruct H as [es [es' [_ [Hf ->]]]].
    injection Hf as <-. simpl. rewrite entry_del_entry. reflexivity.
Qed.

(** Removing [p/n] leaves what lies below another name [m] of [p]. *)
Lemma lookup_remove_sibling (p q : FS.path) (n m : string) (root : FS.node) :
  n <> m ->
  FS.lookup (p ++ m :: q) (FS.remove (p ++ [n]) root) = FS.lookup (p ++ m :: q) root.
Proof.
  intros Hnm. unfold FS.remove. destruct (parent_name_app p n) as [-> ->].
  destruct (FS.in_dir p (fun es => inr (FS.del_entry n es)) root) as [e | root'] eqn:H;
    [reflexivity |].
  apply in_dir_inr in H. destruct H as [es [es' [H1 [Hf H2]]]].
  injection Hf as <-. rewrite !lookup_app, H1, H2. simpl.
  rewrite (entry_del_entry_other es Hnm). reflexivity.
Qed.

Lemma lookup_write (p : FS.path) (n : string) (f : FS.node) (root root' : FS.node) :
  FS.write (p ++ [n]) f root = Ok root' ->
  FS.lookup (p ++ [n]) root' = Some f.
Proof.
  unfold FS.write. destruct (parent_name_app p n) as [-> ->].
  destruct (FS.in_dir p _ root) as [e | r] eqn:H; [discriminate |].
  intros Hr. injection Hr as <-.
  apply in_dir_inr in H. destruct H as [es [es' [_ [Hf H2]]]].
  rewrite lookup_app, H2. simpl.
  destruct (FS.entry n es) as [[text kind | es0] |]; try discriminate;
    injection Hf as <-; rewrite entry_set_entry; reflexivity.
Qed.

(** [open(p/n, 'w')] succeeds where [p] is a directory and [n] is not the
    name of a directory in it. *)
Lemma write_succeeds (p : FS.path) (n : string) (f : FS.node) (root : FS.node)
      (es : list (string * FS.node)) :
  FS.lookup p root = Some (FS.Dir es) ->
  (forall sub, FS.entry n es <> Some (FS.Dir sub)) ->
  exists root', FS.write (p ++ [n]) f root = Ok root'.
Proof.
  intros Hp Hn. unfold FS.write. destruct (parent_name_app p n) as [-> ->].
  match goal with
  | |- context [FS.in_dir p ?g root] =>
      destruct (FS.in_dir p g root) as [e | r] eqn:H
  end.
  - pose proof (in_dir_inl _ _ _ H Hp) as Hf. simpl in Hf.
    destruct (FS.entry n es) as [[text kind | sub] |]; try discriminate Hf.
    exfalso. eapply Hn. reflexivity.
  - exists r. reflexivity.
Qed.

(** ** Cleaning up after a failure *)

Lemma has_complete_results_iff (files : list (string * FS.node)) :
  existsb Backtester.complete (filter (fun e => FS.is_file (snd e)) files) = true <->
  exists file_name f, In (file_name, f) files /\ Spec.qualifying file_name f.
Proof.
  rewrite existsb_exists. unfold Spec.qualifying, Backtester.complete. split.
  - intros [[n f] [Hin Hc]]. apply filter_In in Hin. destruct Hin as [Hin Hfile].
    simpl in *. apply andb_true_iff in Hc. destruct Hc as [Hc Hsize].
    apply andb_true_iff in Hc. destruct Hc as [Hsuf Hname].
    apply String.eqb_eq in Hsuf. apply Nat.ltb_lt in Hsize.
    exists n, f. auto.
  - intros [n [f [Hin [Hfile [Hsuf [Hname Hsize]]]]]].
    exists (n, f). split.
    + apply filter_In. auto.
    + simpl. rewrite Hsuf, Hname. simpl. apply Nat.ltb_lt. exact Hsize.
Qed.

(** C8.  Where the unit's artifact directory exists,
    [cleanup_failed_strategy_directory] removes it when it holds no
    complete artifact (it is empty, or it holds partial files only), and
    changes nothing when it holds one. *)
Theorem cleanup_failed_strategy_directory_spec
        (parent : FS.path) (dir_name strategy_name : string)
        (s : Backtester.State) (files : list (string * FS.node)) :
  FS.lookup (parent ++ [dir_name]) (Backtester.fs s) = Some (FS.Dir files) ->
  ((forall file_name f, In (file_name, f) files -> ~ Spec.qualifying file_name f) ->
   FS.lookup (parent ++ [dir_name])
     (Backtester.fs
        (Backtester.cleanup_failed_strategy_directory
           (parent ++ [dir_name]) strategy_name s)) = None)
  /\ ((exists file_name f, In (file_name, f) files /\ Spec.qualifying file_name f) ->
      Backtester.cleanup_failed_strategy_directory
        (parent ++ [dir_name]) strategy_name s = s).
Proof.
  intros Hdir. unfold Backtester.cleanup_failed_strategy_directory. rewrite Hdir.
  destruct files as [| e files].
  - split.
    + intros _. simpl. apply lookup_remove.
    + intros [n [f [[] _]]].
  - destruct (existsb Backtester.complete
                (filter (fun e => FS.is_file (snd e)) (e :: files))) eqn:Hc.
    + split; [| reflexivity].
      intros Hnone. apply has_complete_results_iff in Hc.
      destruct Hc as [n [f [Hin Hq]]]. exfalso. exact (Hnone n f Hin Hq).
    + split.
      * intros _. simpl. apply lookup_remove.
      * intros Hsome. apply has_complete_results_iff in Hsome. congruence.
Qed.

(** ** The failing paths of the worker *)

Lemma save_failed_result_written
      (env : Backtester.Env) (strategy_name : string) (record : Json)
      (s : Backtester.State) (es : list (string * FS.node)) :
  FS.lookup Backtester.individual_results_dir (Backtester.fs s) = Some (FS.Dir es) ->
  (forall sub, FS.entry (strategy_name ++ "_failed.json")%string es <> Some (FS.Dir sub)) ->
  FS.lookup (Backtester.failed_file strategy_name)
    (Backtester.fs (Backtester.save_failed_result env strategy_name record s))
  = Some (FS.File (Backtester.dumps env record) (FS.Document record)).
Proof.
  intros Hdir Hfile.
  unfold Backtester.save_failed_result, Backtester.dump, Backtester.failed_file.
  destruct (@write_succeeds _ (strategy_name ++ "_failed.json")%string
              (FS.File (Backtester.dumps env record) (FS.Document record))
              _ _ Hdir Hfile) as [root' Hw].
  rewrite Hw. change (Backtester.fs (Backtester.with_fs s root')) with root'.
  eapply lookup_write. exact Hw.
Qed.

Lemma cleanup_keeps_cache (strategy_name : string) (s : Backtester.State) (q : FS.path) :
  strategy_name <> "individual_results" ->
  FS.lookup (Backtester.individual_results_dir ++ q)
    (Backtester.fs
       (Backtester.cleanup_failed_strategy_directory
          (Backtester.strategy_results_dir strategy_name) strategy_name s))
  = FS.lookup (Backtester.individual_results_dir ++ q) (Backtester.fs s).
Proof.
  intros Hname. unfold Backtester.cleanup_failed_strategy_directory.
  assert (Hrm : FS.lookup (Backtester.individual_results_dir ++ q)
                  (FS.remove (Backtester.strategy_results_dir strategy_name)
                             (Backtester.fs s))
                = FS.lookup (Backtester.individual_results_dir ++ q) (Backtester.fs s)).
  { unfold Backtester.individual_results_dir, Backtester.strategy_results_dir.
    rewrite <- app_assoc. apply lookup_remove_sibling. exact Hname. }
  destruct (FS.lookup (Backtester.strategy_results_dir strategy_name) (Backtester.fs s))
    as [[text kind | files] |]; try reflexivity.
  destruct files as [| e files]; [exact Hrm |].
  destruct (negb _); [exact Hrm | reflexivity].
Qed.

(** The [try] block returns [None] only from its branch for a nonzero
    exit code. *)
Lemma execute_none
      (env : Backtester.Env) (self : Backtester.Config) (strategy_name : string)
      (s s' : Backtester.State) :
  Backtester.execute env self strategy_name s = (Ok None, s') ->
  exists r detected_timeframe stamp s1,
    s' = Backtester.abandon env strategy_name
           (Backtester.exit_record self strategy_name r detected_timeframe stamp) s1.
Proof.
  unfold Backtester.execute, Backtester.now, Backtester.bind, Backtester.on_fs,
    Backtester.total, Backtester.gets, Backtester.lift, Backtester.ret.
  destruct (FS.mkdir _ _) as [root |]; [| discriminate].
  destruct (Backtester.detect_strategy_timeframe env strategy_name _) as [tf s2].
  destruct (Backtester.subprocess_run env _ _ s2) as [[r | e] s3]; [| discriminate].
  destruct (Backtester.returncode r =? 0)%Z.
  - destruct (Backtester.parse_backtest_output _ _) as [metrics |]; [| discriminate].
    destruct (Backtester.get_freqtrade_version env s3) as [version s4].
    destruct (FS.write _ _ _); discriminate.
  - intros H. injection H as <-. eauto.
Qed.

(** C4, as amended.  A call of [run_backtest_worker] that finds no valid
    cached result and whose backtest command exits with a nonzero code,
    times out or raises returns no result, after it has built a failure
    record (the identifier, the error text, the time, the window), tried to
    save it as [individual_results/<name>_failed.json] and cleaned up the
    unit's artifact directory; after a timeout the error text is
    "Timeout after N seconds".  The same holds for every exception raised
    in the call, and every call that returns no result has built such a
    record.  For an identifier without a slash the record is written
    whenever that file can be opened for writing ([individual_results] is a
    directory and the file name is not one of a directory); for an
    identifier that is one name of a path and not [individual_results] it
    is still there when the call returns. *)
Theorem run_backtest_worker_failure
        (env : Backtester.Env) (self : Backtester.Config) (strategy_name : string) :
  (forall s root timeframe s2,
      Backtester.load_existing_result self strategy_name (Backtester.fs s) = None ->
      FS.mkdir (Backtester.strategy_results_dir strategy_name) (Backtester.fs s)
      = Ok root ->
      Backtester.detect_strategy_timeframe env strategy_name (Backtester.with_fs s root)
      = (timeframe, s2) ->
      let cmd := Backtester.backtest_command self strategy_name timeframe in
      let s3 := snd (Backtester.subprocess_run env cmd
                       (Backtester.strategy_timeout self) s2) in
      let stamp := Backtester.isoformat env (Backtester.clock s3) in
      match fst (fst (Backtester.run env cmd (Backtester.strategy_timeout self)
                        (Backtester.fs s2))) with
      | Backtester.Returned r =>
          Backtester.returncode r <> 0%Z ->
          Backtester.run_backtest_worker env self strategy_name s
          = (None,
             Backtester.abandon env strategy_name
               (Backtester.exit_record self strategy_name r timeframe stamp) s3)
      | Backtester.Raised TimeoutExpired =>
          Backtester.run_backtest_worker env self strategy_name s
          = (None,
             Backtester.abandon env strategy_name
               (Backtester.raised_record self strategy_name
                  (Backtester.timeout_text self) stamp) s3)
      | Backtester.Raised (Exception text) =>
          Backtester.run_backtest_worker env self strategy_name s
          = (None,
             Backtester.abandon env strategy_name
               (Backtester.raised_record self strategy_name text stamp) s3)
      end)
  /\ (forall s e s1,
         Backtester.attempt env self strategy_name s = (Raise e, s1) ->
         Backtester.run_backtest_worker env self strategy_name s
         = (None,
            Backtester.abandon env strategy_name
              (Backtester.raised_record self strategy_name
                 match e with
                 | TimeoutExpired => Backtester.timeout_text self
                 | Exception text => text
                 end
                 (Backtester.isoformat env (Backtester.clock s1))) s1))
  /\ (forall s s',
         Backtester.run_backtest_worker env self strategy_name s = (None, s') ->
         exists record s1,
           s' = Backtester.abandon env strategy_name record s1
           /\ Py.dict_get "strategy" record = Some (JStr strategy_name)
           /\ (exists error, Py.dict_get "error" record = Some (JStr error))
           /\ (exists stamp, Py.dict_get "failed_timestamp" record = Some (JStr stamp)))
  /\ (forall record s1 es,
         FS.lookup Backtester.individual_results_dir (Backtester.fs s1)
         = Some (FS.Dir es) ->
         (forall sub, FS.entry (strategy_name ++ "_failed.json")%string es
                      <> Some (FS.Dir sub)) ->
         Text.contains "/" strategy_name = false ->
         FS.lookup (Backtester.failed_file strategy_name)
           (Backtester.fs
              (Backtester.save_failed_result env strategy_name (JDict record) s1))
         = Some (FS.File (Backtester.dumps env (JDict record))
                         (FS.Document (JDict record)))
         /\ (Spec.component strategy_name ->
             strategy_name <> "individual_results"%string ->
             FS.lookup (Backtester.failed_file strategy_name)
               (Backtester.fs (Backtester.abandon env strategy_name record s1))
             = Some (FS.File (Backtester.dumps env (JDict record))
                             (FS.Document (JDict record))))).
Proof.
  split; [| split; [| split]].
  - intros s root timeframe s2 Hload Hdir Htf cmd s3 stamp.
    assert (Hrun : Backtester.run_backtest_worker env self strategy_name s
                   = match Backtester.subprocess_run env cmd
                             (Backtester.strategy_timeout self) s2 with
                     | (Ok r, s3) =>
                         if (Backtester.returncode r =? 0)%Z
                         then Backtester.run_backtest_worker env self strategy_name s
                         else (None,
                               Backtester.abandon env strategy_name
                                 (Backtester.exit_record self strategy_name r timeframe
                                    (Backtester.isoformat env (Backtester.clock s3)))
                                 s3)
                     | (Raise TimeoutExpired, s3) =>
                         (None,
                          Backtester.abandon env strategy_name
                            (Backtester.raised_record self strategy_name
                               (Backtester.timeout_text self)
                               (Backtester.isoformat env (Backtester.clock s3))) s3)
                     | (Raise (Exception text), s3) =>
                         (None,
                          Backtester.abandon env strategy_name
                            (Backtester.raised_record self strategy_name text
                               (Backtester.isoformat env (Backtester.clock s3))) s3)
                     end).
    { unfold Backtester.run_backtest_worker, Backtester.attempt, Backtester.execute,
        Backtester.now, Backtester.bind, Backtester.on_fs,
        Backtester.total, Backtester.gets, Backtester.lift, Backtester.ret.
      rewrite Hload, Hdir, Htf. fold cmd.
      destruct (Backtester.subprocess_run env cmd (Backtester.strategy_timeout self) s2)
        as [[r | [| text]] s4]; try reflexivity.
      destruct (Backtester.returncode r =? 0)%Z; reflexivity. }
    rewrite Hrun. subst stamp s3. clear Hrun.
    unfold Backtester.subprocess_run.
    destruct (Backtester.run env cmd (Backtester.strategy_timeout self)
                (Backtester.fs s2)) as [[[r | [| text]] root'] elapsed];
      cbn [fst snd]; [| reflexivity | reflexivity].
    intros Hnz. destruct (Z.eqb_spec (Backtester.returncode r) 0); [contradiction |].
    reflexivity.
  - intros s e s1 Ha. unfold Backtester.run_backtest_worker. rewrite Ha.
    now destruct e.
  - intros s s' Hrun. unfold Backtester.run_backtest_worker in Hrun.
    destruct (Backtester.attempt env self strategy_name s) as [[r | [| text]] s1] eqn:Ha.
    + injection Hrun as -> <-.
      assert (He : Backtester.execute env self strategy_name s = (Ok None, s1)).
      { unfold Backtester.attempt, Backtester.bind, Backtester.gets in Ha.
        destruct (Backtester.load_existing_result self strategy_name (Backtester.fs s))
          as [result |]; [| exact Ha].
        destruct (Py.truthy result); [discriminate Ha | exact Ha]. }
      apply execute_none in He. destruct He as (r & tf & stamp & s0 & Hs).
      exists (Backtester.exit_record self strategy_name r tf stamp), s0.
      split; [exact Hs |]. split; [reflexivity |].
      split; eexists; reflexivity.
    + injection Hrun as <-. eexists _, s1. split; [reflexivity |].
      split; [reflexivity |]. split; eexists; reflexivity.
    + injection Hrun as <-. eexists _, s1. split; [reflexivity |].
      split; [reflexivity |]. split; eexists; reflexivity.
  - intros record s1 es Hdir Hfile _.
    pose proof (save_failed_result_written env strategy_name (JDict record) s1 Hdir Hfile)
      as Hw.
    split; [exact Hw |]. intros _ Hname.
    unfold Backtester.abandon, Backtester.failed_file.
    rewrite (cleanup_keeps_cache _ _ Hname). exact Hw.
Qed.

(** ** The output parser *)

Lemma dict_get_set (k k' : string) (v : Json) (m : list (string * Json)) :
  Py.dict_get k (Py.dict_set k' v m)
  = if String.eqb k k' then Some v else Py.dict_get k m.
Proof.
  induction m as [| [k0 v0] m IH]; simpl; [reflexivity |].
  destruct (String.eqb k' k0) eqn:E0; simpl.
  - apply String.eqb_eq in E0. subst k0.
    destruct (String.eqb k k'); reflexivity.
  - rewrite IH. destruct (String.eqb k k0) eqn:E1; [| reflexivity].
    apply String.eqb_eq in E1. subst k0.
    rewrite String.eqb_sym, E0. reflexivity.
Qed.

Lemma dict_set_keys (k : string) (v : Json) (m : list (string * Json)) :
  In k (map fst m) -> map fst (Py.dict_set k v m) = map fst m.
Proof.
  induction m as [| [k0 v0] m IH]; simpl; [intros [] |].
  destruct (String.eqb k k0) eqn:E; simpl.
  - apply String.eqb_eq in E. subst k0. reflexivity.
  - intros [H | H]; [apply String.eqb_neq in E; congruence |].
    rewrite IH by exact H. reflexivity.
Qed.

Lemma dict_update_app (m a b : list (string * Json)) :
  Py.dict_update m (a ++ b) = Py.dict_update (Py.dict_update m a) b.
Proof. unfold Py.dict_update. apply fold_left_app. Qed.

Lemma dict_get_update_congr (k : string) (a m1 m2 : list (string * Json)) :
  Py.dict_get k m1 = Py.dict_get k m2 ->
  Py.dict_get k (Py.dict_update m1 a) = Py.dict_get k (Py.dict_update m2 a).
Proof.
  revert m1 m2. induction a as [| [k' v] a IH]; intros m1 m2 H; [exact H |].
  apply IH. rewrite !dict_get_set, H. reflexivity.
Qed.

Lemma dict_get_update_other (k : string) (a m : list (string * Json)) :
  ~ In k (map fst a) -> Py.dict_get k (Py.dict_update m a) = Py.dict_get k m.
Proof.
  revert m. induction a as [| [k' v] a IH]; intros m Hk; [reflexivity |].
  change (Py.dict_update m ((k', v) :: a)) with (Py.dict_update (Py.dict_set k' v m) a).
  rewrite IH by (intros H; apply Hk; right; exact H).
  rewrite dict_get_set. destruct (String.eqb k k') eqn:E; [| reflexivity].
  apply String.eqb_eq in E. exfalso. apply Hk. left. symmetry. exact E.
Qed.

Lemma data_key_in_record (k strategy_name : string) :
  In k Spec.data_keys -> In k (map fst (Backtester.default_metrics strategy_name)).
Proof. intros H. right. exact H. Qed.

Lemma data_key_not_strategy (k : string) : In k Spec.data_keys -> k <> "strategy"%string.
Proof.
  intros H ->. simpl in H.
  repeat (destruct H as [H | H]; [discriminate H |]). exact H.
Qed.

Lemma dict_update_frame (strategy_name : string) (a m : list (string * Json)) :
  Spec.assignments a ->
  map fst m = map fst (Backtester.default_metrics strategy_name) ->
  map fst (Py.dict_update m a) = map fst (Backtester.default_metrics strategy_name)
  /\ Py.dict_get "strategy" (Py.dict_update m a) = Py.dict_get "strategy" m.
Proof.
  intros Ha. revert m. induction Ha as [| [k v] a Hk _ IH]; intros m Hm; [auto |].
  simpl in Hk.
  destruct (IH (Py.dict_set k v m)) as [H1 H2].
  - rewrite dict_set_keys; [exact Hm |].
    rewrite Hm. apply data_key_in_record. exact Hk.
  - split; [exact H1 |].
    change (Py.dict_update m ((k, v) :: a)) with (Py.dict_update (Py.dict_set k v m) a).
    rewrite H2, dict_get_set.
    destruct (String.eqb "strategy" k) eqn:E; [| reflexivity].
    apply String.eqb_eq in E. symmetry in E.
    exfalso. exact (data_key_not_strategy Hk E).
Qed.

Lemma effect_id : Spec.effect (fun m => m).
Proof. exists []. split; [constructor | reflexivity]. Qed.

Lemma effect_set (k : string) (v : Json)
      (f : list (string * Json) -> list (string * Json)) :
  In k Spec.data_keys -> Spec.effect f -> Spec.effect (fun m => Py.dict_set k v (f m)).
Proof.
  intros Hk [a [Ha Hf]]. exists (a ++ [(k, v)]). split.
  - apply Forall_app. split; [exact Ha | constructor; [exact Hk | constructor]].
  - intros m. rewrite Hf, dict_update_app. reflexivity.
Qed.

Lemma effect_compose (f g : list (string * Json) -> list (string * Json)) :
  Spec.effect f -> Spec.effect g -> Spec.effect (fun m => g (f m)).
Proof.
  intros [a [Ha Hf]] [b [Hb Hg]]. exists (a ++ b). split.
  - apply Forall_app. split; assumption.
  - intros m. rewrite Hg, Hf, dict_update_app. reflexivity.
Qed.

Ltac effect_leaf :=
  repeat first [ exact effect_id | apply effect_set; [simpl; tauto |] ].

Ltac effect_cases :=
  repeat match goal with
         | |- context [Backtester.item ?p ?i] => destruct (Backtester.item p i)
         | |- context [Backtester.to_int ?x] => destruct (Backtester.to_int x)
         | |- context [Backtester.to_float ?x] => destruct (Backtester.to_float x)
         | |- context [if ?c then _ else _] => destruct c
         end.

Lemma summary_row_effect (parts : list string) :
  Spec.effect (Backtester.summary_row parts).
Proof. unfold Backtester.summary_row. effect_cases; effect_leaf. Qed.

Lemma backtested_row_effect (line : string) :
  Spec.effect (Backtester.backtested_row line).
Proof.
  unfold Backtester.backtested_row. effect_cases; try effect_leaf.
  destruct (Text.split "->" _) as [| x [| y [| z l]]]; effect_leaf.
Qed.

Lemma item_nth (parts : list string) (i : nat) :
  i < List.length parts -> Backtester.item parts i = Ok (nth i parts ""%string).
Proof.
  intros H. unfold Backtester.item.
  destruct (nth_error parts i) as [p |] eqn:E.
  - rewrite (nth_error_nth _ _ _ E). reflexivity.
  - apply nth_error_None in E. lia.
Qed.

Lemma labelled_total (parts : list string) (label : string) :
  Backtester.labelled parts label
  = Ok ((4 <=? List.length parts)%nat && Text.contains label (nth 1 parts ""%string)).
Proof.
  unfold Backtester.labelled.
  destruct (4 <=? List.length parts)%nat eqn:E; [| reflexivity].
  apply Nat.leb_le in E. rewrite item_nth by lia. reflexivity.
Qed.

(** A block that stores at most one field. *)
Lemma one_none :
  exists a, List.length a <= 1 /\ Spec.assignments a
            /\ forall m : list (string * Json), m = Py.dict_update m a.
Proof. exists []. split; [simpl; lia | split; [constructor | reflexivity]]. Qed.

Lemma one_set (k : string) (v : Json) :
  In k Spec.data_keys ->
  exists a, List.length a <= 1 /\ Spec.assignments a
            /\ forall m, Py.dict_set k v m = Py.dict_update m a.
Proof.
  intros Hk. exists [(k, v)].
  split; [simpl; lia | split; [constructor; [exact Hk | constructor] | reflexivity]].
Qed.

Lemma percent_row_one (key : string) (parts : list string) :
  In key Spec.data_keys ->
  exists a, List.length a <= 1 /\ Spec.assignments a
            /\ forall m, Backtester.percent_row key parts m = Py.dict_update m a.
Proof.
  intros Hk. unfold Backtester.percent_row.
  destruct (Backtester.item parts 2) as [v |]; [| exact one_none].
  destruct (Text.contains "%" v); [| exact one_none].
  destruct (Backtester.to_float _); [exact (one_set _ Hk) | exact one_none].
Qed.

Lemma usdt_row_one (parts : list string) :
  exists a, List.length a <= 1 /\ Spec.assignments a
            /\ forall m, Backtester.usdt_row parts m = Py.dict_update m a.
Proof.
  unfold Backtester.usdt_row.
  destruct (Backtester.item parts 2) as [v |]; [| exact one_none].
  destruct (Text.contains "USDT" v); [| exact one_none].
  destruct (Backtester.to_float _); [apply one_set; simpl; tauto | exact one_none].
Qed.

Lemma float_row_one (key : string) (parts : list string) :
  In key Spec.data_keys ->
  exists a, List.length a <= 1 /\ Spec.assignments a
            /\ forall m, Backtester.float_row key parts m = Py.dict_update m a.
Proof.
  intros Hk. unfold Backtester.float_row.
  destruct (Backtester.item parts 2) as [v |]; [| exact one_none].
  destruct (Backtester.to_float _); [exact (one_set _ Hk) | exact one_none].
Qed.

Ltac one_of H :=
  let a := fresh "a" in
  let H1 := fresh in let H2 := fresh in let H3 := fresh in
  destruct H as [a [H1 [H2 H3]]];
  exists a; split; [exact H1 | split; [exact H2 |]];
  let m := fresh "m" in intros m; rewrite <- H3; reflexivity.

Lemma detail_row_one (parts : list string) :
  exists a, List.length a <= 1 /\ Spec.assignments a
            /\ forall m, Backtester.detail_row parts m = Ok (Py.dict_update m a).
Proof.
  unfold Backtester.detail_row, Backtester.pair_row. rewrite !labelled_total.
  destruct (4 <=? List.length parts)%nat eqn:E.
  - apply Nat.leb_le in E.
    rewrite (@item_nth parts 1) by lia. rewrite (@item_nth parts 2) by lia.
    repeat match goal with
           | |- context [if ?c then _ else _] => destruct c
           end;
      first [ one_of (@percent_row_one "total_profit_percent" parts ltac:(simpl; tauto))
            | one_of (@percent_row_one "max_drawdown" parts ltac:(simpl; tauto))
            | one_of (@percent_row_one "market_change" parts ltac:(simpl; tauto))
            | one_of (usdt_row_one parts)
            | one_of (@float_row_one "sharpe_ratio" parts ltac:(simpl; tauto))
            | one_of (@float_row_one "profit_factor" parts ltac:(simpl; tauto))
            | one_of (@one_set "best_pair" (JStr (nth 2 parts ""%string)) ltac:(simpl; tauto))
            | one_of (@one_set "worst_pair" (JStr (nth 2 parts ""%string)) ltac:(simpl; tauto))
            | one_of one_none ].
  - simpl. one_of one_none.
Qed.

Lemma parse_line_effect (strategy_name raw : string) :
  exists a, Spec.assignments a
            /\ forall m, Backtester.parse_line strategy_name raw m
                         = Ok (Py.dict_update m a).
Proof.
  unfold Backtester.parse_line.
  set (line := Text.strip raw).
  assert (H1 : exists a, Spec.assignments a
               /\ forall m, (if Text.contains Backtester.box line
                             then Backtester.detail_row (Backtester.cells line) m
                             else Ok m) = Ok (Py.dict_update m a)).
  { destruct (Text.contains Backtester.box line).
    - destruct (detail_row_one (Backtester.cells line)) as [a [_ [Ha Hd]]].
      exists a. auto.
    - exists []. split; [constructor | reflexivity]. }
  assert (H2 : Spec.effect
                 (fun m =>
                    if Text.contains strategy_name line && Text.contains Backtester.box line
                    then if (9 <=? List.length (Backtester.cells line))%nat
                         then Backtester.summary_row (Backtester.cells line) m
                         else m
                    else m)).
  { destruct (Text.contains strategy_name line && Text.contains Backtester.box line);
      [| exact effect_id].
    destruct (9 <=? _)%nat; [apply summary_row_effect | exact effect_id]. }
  assert (H3 : Spec.effect
                 (fun m =>
                    if Text.contains "Backtested" line && Text.contains "->" line
                    then Backtester.backtested_row line m
                    else m)).
  { destruct (Text.contains "Backtested" line && Text.contains "->" line);
      [apply backtested_row_effect | exact effect_id]. }
  destruct H1 as [a [Ha H1]].
  destruct (effect_compose H2 H3) as [b [Hb H23]].
  exists (a ++ b). split; [apply Forall_app; split; assumption |].
  intros m. rewrite H1, dict_update_app, <- H23. reflexivity.
Qed.

Lemma parse_lines_effect (strategy_name : string) (lines : list string) :
  exists a, Spec.assignments a
            /\ forall m, Backtester.parse_lines strategy_name lines m
                         = Ok (Py.dict_update m a).
Proof.
  induction lines as [| raw lines [b [Hb IH]]]; simpl.
  - exists []. split; [constructor | reflexivity].
  - destruct (parse_line_effect strategy_name raw) as [a [Ha Hl]].
    exists (a ++ b). split; [apply Forall_app; split; assumption |].
    intros m. rewrite Hl, IH, dict_update_app. reflexivity.
Qed.

Lemma parse_lines_app (strategy_name : string) (l1 l2 : list string)
      (m : list (string * Json)) :
  Backtester.parse_lines strategy_name (l1 ++ l2) m
  = match Backtester.parse_lines strategy_name l1 m with
    | Ok m1 => Backtester.parse_lines strategy_name l2 m1
    | Raise e => Raise e
    end.
Proof.
  revert m. induction l1 as [| raw l1 IH]; intros m; simpl; [reflexivity |].
  destruct (Backtester.parse_line strategy_name raw m); [apply IH | reflexivity].
Qed.

Lemma parse_line_plain (strategy_name raw : string) (m : list (string * Json)) :
  Text.contains Backtester.box (Text.strip raw) = false ->
  Text.contains "Backtested" (Text.strip raw) = false ->
  Backtester.parse_line strategy_name raw m = Ok m.
Proof.
  intros Hbox Hdate. unfold Backtester.parse_line.
  rewrite Hbox, Hdate, andb_false_r. reflexivity.
Qed.

Ltac row_leaf :=
  unfold Backtester.percent_row, Backtester.usdt_row, Backtester.float_row,
    Backtester.pair_row, Backtester.to_float,
    Spec.read_percent, Spec.read_usdt, Spec.read_float, Spec.read_text;
  cbn [Backtester.item nth_error];
  repeat match goal with
         | |- context [if Text.contains ?a ?b then _ else _] =>
             destruct (Text.contains a b)
         | |- context [Num.py_float ?x] => destruct (Num.py_float x)
         end;
  reflexivity.

Lemma detail_row_reading (parts : list string) (metrics : list (string * Json)) :
  Backtester.detail_row parts metrics
  = Ok (match Spec.detail_reading parts with
        | Some (field, v) => Py.dict_set field v metrics
        | None => metrics
        end).
Proof.
  unfold Backtester.detail_row, Backtester.labelled, Spec.detail_reading.
  destruct (4 <=? List.length parts)%nat eqn:E; [| reflexivity].
  destruct parts as [| p0 [| p1 [| p2 [| p3 rest]]]]; try discriminate E.
  cbn [Backtester.item nth_error nth find Spec.detail_table Spec.row_for existsb fst].
  rewrite ?Bool.orb_false_r.
  destruct (Text.contains "Total profit %" p1); [row_leaf |].
  destruct (Text.contains "Absolute profit" p1); [row_leaf |].
  destruct (Text.contains "Sharpe" p1); [row_leaf |].
  destruct (Text.contains "Profit factor" p1); [row_leaf |].
  destruct (Text.contains "Best Pair" p1); [row_leaf |].
  destruct (Text.contains "Worst Pair" p1); [row_leaf |].
  destruct (Text.contains "Max % of account underwater" p1 ||
            Text.contains "Absolute Drawdown (Account)" p1); [row_leaf |].
  destruct (Text.contains "Market change" p1); [row_leaf | reflexivity].
Qed.

Lemma words_empty : Text.words "" = [].
Proof. reflexivity. Qed.

Lemma summary_row_readings (parts : list string) (metrics : list (string * Json)) :
  9 <= List.length parts ->
  Backtester.summary_row parts metrics
  = Py.dict_update metrics (Spec.until_malformed (Spec.summary_readings parts)).
Proof.
  intros Hlen.
  destruct parts as [| p0 [| p1 [| p2 [| p3 [| p4 [| p5 [| p6 [| p7 [| p8 rest]]]]]]]]];
    simpl in Hlen; try lia.
  unfold Backtester.summary_row, Spec.summary_readings,
    Backtester.to_int, Backtester.to_float, Spec.read_int, Spec.read_float,
    Spec.read_text.
  cbn [Backtester.item nth_error nth app].
  destruct (Num.py_int p2) as [trades |]; [| reflexivity].
  destruct (Num.py_float p3) as [avg |]; [| reflexivity].
  destruct (Num.py_float p4) as [total |]; [| reflexivity].
  destruct (Num.py_float p5) as [pct |]; [| reflexivity].
  cbn [option_map Spec.until_malformed app].
  destruct (String.eqb_spec (Text.strip p7) "") as [He | He].
  - rewrite He. reflexivity.
  - cbn [negb].
    destruct (4 <=? List.length (Text.words (Text.strip p7)))%nat eqn:E;
      [| reflexivity].
    destruct (Text.words (Text.strip p7)) as [| w0 [| w1 [| w2 [| w3 ws]]]];
      try discriminate E.
    cbn [Backtester.item nth_error nth].
    destruct (Num.py_int w0) as [wins |]; [| reflexivity].
    destruct (Num.py_int w2) as [losses |]; [| reflexivity].
    destruct (Num.py_float w3) as [rate |]; reflexivity.
Qed.

Lemma split_from_cons (sep : string) (skip : nat) (cur s : string) :
  exists x l, Text.split_from sep skip cur s = x :: l.
Proof.
  revert skip cur. induction s as [| c s IH]; intros skip cur; [simpl; eauto |].
  cbn [Text.split_from]. destruct skip; [| apply IH].
  destruct (prefix sep (String c s)); [eauto | apply IH].
Qed.

Lemma backtested_row_reading (line : string) (metrics : list (string * Json)) :
  Backtester.backtested_row line metrics
  = Py.dict_update metrics (Spec.dates_reading line).
Proof.
  unfold Backtester.backtested_row, Spec.dates_reading, Backtester.item.
  destruct (Text.split "Backtested" line) as [| a [| b l]]; try reflexivity.
  cbn [nth_error nth List.length Nat.leb andb].
  destruct (split_from_cons "|" 0 "" b) as (x & l' & Hs).
  unfold Text.split. rewrite Hs. cbn [nth_error nth].
  destruct (Text.contains "->" (Text.strip x)); [| reflexivity].
  destruct (Text.split_from "->" 0 "" (Text.strip x)) as [| s [| e [| y z]]];
    reflexivity.
Qed.

Lemma parse_line_update (strategy_name raw : string) (metrics : list (string * Json)) :
  Backtester.parse_line strategy_name raw metrics
  = Ok (Py.dict_update metrics (Spec.line_update strategy_name (Text.strip raw))).
Proof.
  unfold Backtester.parse_line, Spec.line_update.
  set (line := Text.strip raw).
  rewrite !dict_update_app.
  assert (Hd : (if Text.contains Backtester.box line
                then Backtester.detail_row (Backtester.cells line) metrics
                else Ok metrics)
               = Ok (Py.dict_update metrics
                       (if Text.contains Backtester.box line
                        then match Spec.detail_reading (Backtester.cells line) with
                             | Some assignment => [assignment]
                             | None => []
                             end
                        else []))).
  { destruct (Text.contains Backtester.box line); [| reflexivity].
    rewrite detail_row_reading.
    destruct (Spec.detail_reading (Backtester.cells line)) as [[k v] |]; reflexivity. }
  rewrite Hd. clear Hd.
  match goal with |- context [Py.dict_update metrics ?u] =>
    generalize (Py.dict_update metrics u) end.
  intros m1.
  assert (Hs : (if Text.contains strategy_name line && Text.contains Backtester.box line
                then if (9 <=? List.length (Backtester.cells line))%nat
                     then Backtester.summary_row (Backtester.cells line) m1
                     else m1
                else m1)
               = Py.dict_update m1
                   (if Text.contains strategy_name line
                       && Text.contains Backtester.box line
                       && (9 <=? List.length (Backtester.cells line))%nat
                    then Spec.until_malformed
                           (Spec.summary_readings (Backtester.cells line))
                    else [])).
  { destruct (Text.contains strategy_name line && Text.contains Backtester.box line);
      [| reflexivity].
    destruct (9 <=? List.length (Backtester.cells line))%nat eqn:E; [| reflexivity].
    apply Nat.leb_le in E. now apply summary_row_readings. }
  rewrite Hs. clear Hs.
  match goal with |- context [Py.dict_update m1 ?u] =>
    generalize (Py.dict_update m1 u) end.
  intros m2.
  destruct (Text.contains "Backtested" line && Text.contains "->" line);
    [| reflexivity].
  now rewrite backtested_row_reading.
Qed.

Lemma parse_lines_update (strategy_name : string) (lines : list string)
      (metrics : list (string * Json)) :
  Backtester.parse_lines strategy_name lines metrics
  = Ok (Py.dict_update metrics
          (flat_map (fun raw => Spec.line_update strategy_name (Text.strip raw)) lines)).
Proof.
  revert metrics. induction lines as [| raw lines IH]; intros metrics; [reflexivity |].
  simpl. rewrite parse_line_update, IH, dict_update_app. reflexivity.
Qed.

Lemma until_malformed_keys (readings : list (string * option Json)) (k : string) :
  In k (map fst (Spec.until_malformed readings)) -> In k (map fst readings).
Proof.
  induction readings as [| [f [v |]] rest IH]; simpl; [tauto | | tauto].
  intros [H | H]; auto.
Qed.

Lemma line_update_assignments (strategy_name line : string) :
  Spec.assignments (Spec.line_update strategy_name line).
Proof.
  unfold Spec.assignments, Spec.line_update.
  rewrite !Forall_app. split; [| split].
  - destruct (Text.contains Backtester.box line); [| constructor].
    destruct (Spec.detail_reading (Backtester.cells line)) as [[k v] |] eqn:E;
      [| constructor].
    constructor; [| constructor]. simpl.
    unfold Spec.detail_reading in E.
    destruct (4 <=? _)%nat; [| discriminate].
    destruct (find _ Spec.detail_table) as [[[labels field] read] |] eqn:Ef;
      [| discriminate].
    destruct (read _); [| discriminate]. injection E as <- _.
    apply find_some in Ef. destruct Ef as [Ef _].
    simpl in Ef. 
    repeat (destruct Ef as [Ef | Ef]; [injection Ef as _ <- _; simpl; tauto |]).
    contradiction.
  - destruct (_ && _ && _)%bool; [| constructor].
    apply Forall_forall. intros [k v] Hin.
    assert (Hk : In k (map fst (Spec.summary_readings (Backtester.cells line)))).
    { apply until_malformed_keys. now apply (in_map fst) in Hin. }
    unfold Spec.summary_readings in Hk. rewrite map_app in Hk.
    apply in_app_or in Hk. simpl.
    destruct Hk as [Hk | Hk].
    + simpl in Hk. intuition (subst; auto 20).
    + destruct (4 <=? _)%nat; simpl in Hk; intuition (subst; auto 20).
  - destruct (_ && _)%bool; [| constructor].
    unfold Spec.dates_reading.
    destruct (_ && _)%bool; [| constructor].
    destruct (Text.split "->" _) as [| s [| e [| y z]]]; try constructor.
    + simpl. auto 20.
    + constructor; [| constructor]. simpl. auto 20.
Qed.

Lemma extracted_assignments (strategy_name output : string) :
  Spec.assignments (Spec.extracted strategy_name output).
Proof.
  unfold Spec.extracted, Spec.assignments.
  induction (Text.split Backtester.newline output) as [| raw l IH]; [constructor |].
  simpl. apply Forall_app. split; [apply line_update_assignments | exact IH].
Qed.

Lemma find_first (A : Type) (p : A -> bool) (before after : list A) (x : A) :
  (forall y, In y before -> p y = false) -> p x = true ->
  find p (before ++ x :: after) = Some x.
Proof.
  intros Hb Hx. induction before as [| y before IH]; simpl; [now rewrite Hx |].
  rewrite (Hb y (or_introl eq_refl)). apply IH. intros z Hz. apply Hb. now right.
Qed.

Lemma find_none_all (A : Type) (p : A -> bool) (l : list A) :
  (forall y, In y l -> p y = false) -> find p l = None.
Proof.
  induction l as [| y l IH]; intros H; simpl; [reflexivity |].
  rewrite (H y (or_introl eq_refl)). apply IH. intros z Hz. apply H. now right.
Qed.

Lemma dict_get_update_only (k k' : string) (u m : list (string * Json)) :
  (forall kv, In kv u -> fst kv = k) -> k' <> k ->
  Py.dict_get k' (Py.dict_update m u) = Py.dict_get k' m.
Proof.
  intros Hu Hk. apply dict_get_update_other. intros Hin.
  apply in_map_iff in Hin. destruct Hin as (kv & <- & Hkv).
  apply Hk. now apply Hu.
Qed.

(** C7, as amended.  [parse_backtest_output] never raises: it returns the
    defaults updated by what the lines of the output store, in their order;
    the record keeps the fields of the defaults and the identifier, and a
    field that no line stores keeps its default.  A row of the detail table
    of at least four cells stores the value of its third cell under the
    field of the first label that occurs in its second cell, when that
    value can be read, and nothing otherwise; a row of fewer cells or
    without a label stores nothing.  The strategy summary row stores its
    cells in the order they are read up to the first that cannot be read:
    the cells before it keep their values, the cells after it are not
    read.  A line that stores nothing is as if it were not there, and two
    outputs that differ in one line, where that line stores no field but
    [key], agree on every other field; a line of fewer than nine cells that
    is not a [Backtested] line stores at most one field, that of a label in
    its second cell with the value read from its third. *)
Theorem parse_backtest_output_spec :
  (forall output strategy_name,
      Backtester.parse_backtest_output output strategy_name
      = Ok (Py.dict_update (Backtester.default_metrics strategy_name)
              (Spec.extracted strategy_name output)))
  /\ (forall output strategy_name,
         let metrics := Py.dict_update (Backtester.default_metrics strategy_name)
                          (Spec.extracted strategy_name output) in
         map fst metrics = map fst (Backtester.default_metrics strategy_name)
         /\ Py.dict_get "strategy" metrics = Some (JStr strategy_name)
         /\ forall k, ~ In k (map fst (Spec.extracted strategy_name output)) ->
                      Py.dict_get k metrics
                      = Py.dict_get k (Backtester.default_metrics strategy_name))
  /\ (forall parts metrics before labels field read after,
         Spec.detail_table = (before ++ (labels, field, read) :: after)%list ->
         4 <= List.length parts ->
         (forall row, In row before -> Spec.row_for (nth 1 parts ""%string) row = false) ->
         Spec.row_for (nth 1 parts ""%string) (labels, field, read) = true ->
         Backtester.detail_row parts metrics
         = Ok (match read (nth 2 parts ""%string) with
               | Some v => Py.dict_set field v metrics
               | None => metrics
               end))
  /\ (forall parts metrics,
         List.length parts < 4
         \/ (forall row, In row Spec.detail_table ->
                         Spec.row_for (nth 1 parts ""%string) row = false) ->
         Backtester.detail_row parts metrics = Ok metrics)
  /\ (forall parts metrics,
         9 <= List.length parts ->
         Backtester.summary_row parts metrics
         = Py.dict_update metrics (Spec.until_malformed (Spec.summary_readings parts)))
  /\ (forall strategy_name before after raw start,
         Spec.line_update strategy_name (Text.strip raw) = [] ->
         Backtester.parse_lines strategy_name (before ++ raw :: after) start
         = Backtester.parse_lines strategy_name (before ++ after) start)
  /\ (forall strategy_name before after raw raw' key start,
         (forall kv, In kv (Spec.line_update strategy_name (Text.strip raw)) ->
                     fst kv = key) ->
         (forall kv, In kv (Spec.line_update strategy_name (Text.strip raw')) ->
                     fst kv = key) ->
         exists metrics metrics',
           Backtester.parse_lines strategy_name (before ++ raw :: after) start
           = Ok metrics
           /\ Backtester.parse_lines strategy_name (before ++ raw' :: after) start
              = Ok metrics'
           /\ forall k, k <> key -> Py.dict_get k metrics = Py.dict_get k metrics')
  /\ (forall strategy_name line kv,
         List.length (Backtester.cells line) < 9 ->
         Text.contains "Backtested" line = false ->
         In kv (Spec.line_update strategy_name line) ->
         Spec.line_update strategy_name line = [kv]
         /\ exists labels read,
             In (labels, fst kv, read) Spec.detail_table
             /\ Spec.row_for (nth 1 (Backtester.cells line) ""%string)
                             (labels, fst kv, read) = true
             /\ read (nth 2 (Backtester.cells line) ""%string) = Some (snd kv)).
Proof.
  split; [| split; [| split; [| split; [| split; [| split; [| split]]]]]].
  - intros output strategy_name. unfold Backtester.parse_backtest_output.
    apply parse_lines_update.
  - intros output strategy_name metrics. subst metrics.
    destruct (@dict_update_frame strategy_name (Spec.extracted strategy_name output)
                (Backtester.default_metrics strategy_name)
                (extracted_assignments strategy_name output) eq_refl) as [Hk Hs].
    split; [exact Hk |]. split; [rewrite Hs; reflexivity |].
    intros k Hn. now apply dict_get_update_other.
  - intros parts metrics before labels field read after Ht Hlen Hb Hx.
    rewrite detail_row_reading. unfold Spec.detail_reading.
    destruct (Nat.leb_spec 4 (List.length parts)) as [_ | Hlt]; [| lia].
    rewrite Ht, (find_first _ _ after _ Hb Hx).
    destruct (read (nth 2 parts ""%string)); reflexivity.
  - intros parts metrics H. rewrite detail_row_reading. unfold Spec.detail_reading.
    destruct H as [H | H].
    + destruct (Nat.leb_spec 4 (List.length parts)) as [Hge | _]; [lia | reflexivity].
    + rewrite (find_none_all _ _ H). now destruct (4 <=? _)%nat.
  - intros parts metrics. apply summary_row_readings.
  - intros strategy_name before after raw start H.
    rewrite !parse_lines_update, !flat_map_app. simpl. rewrite H. reflexivity.
  - intros strategy_name before after raw raw' key start Hu Hu'.
    rewrite !parse_lines_update. eexists _, _.
    split; [reflexivity |]. split; [reflexivity |].
    intros k Hk. rewrite !flat_map_app. simpl. rewrite !dict_update_app.
    apply dict_get_update_congr.
    rewrite (dict_get_update_only _ _ Hu Hk), (dict_get_update_only _ _ Hu' Hk).
    reflexivity.
  - intros strategy_name line kv Hlen Hb. unfold Spec.line_update.
    destruct (Nat.leb_spec 9 (List.length (Backtester.cells line))) as [Hge | _];
      [lia |].
    rewrite Hb, Bool.andb_false_r. cbn [andb app]. rewrite app_nil_r.
    destruct (Text.contains Backtester.box line); [| intros []].
    destruct (Spec.detail_reading (Backtester.cells line)) as [[k v] |] eqn:E;
      [| intros []].
    intros [<- | []]. split; [reflexivity |].
    unfold Spec.detail_reading in E.
    destruct (4 <=? _)%nat; [| discriminate].
    destruct (find _ Spec.detail_table) as [[[labels field] read] |] eqn:Ef;
      [| discriminate].
    destruct (read _) as [w |] eqn:Er; [| discriminate]. injection E as <- <-.
    apply find_some in Ef. destruct Ef as [Hin Hrow].
    exists labels, read. auto.
Qed.

(** ** Reconciliation *)

Lemma eq_str_l (s : string) (y : Json) : Py.eq (JStr s) y = true <-> y = JStr s.
Proof.
  destruct y as [| b | z | f | t | l | d]; simpl;
    try (split; [discriminate | intros H; discriminate H]).
  rewrite String.eqb_eq. split; [intros -> | intros H; injection H]; auto.
Qed.

Lemma strategy_after_set (k : string) (v : Json) (m : list (string * Json)) :
  k <> "strategy"%string ->
  Py.dict_get "strategy" (Py.dict_set k v m) = Py.dict_get "strategy" m.
Proof.
  intros Hk. rewrite dict_get_set.
  destruct (String.eqb "strategy" k) eqn:E; [| reflexivity].
  apply String.eqb_eq in E. congruence.
Qed.

Ltac keep_strategy :=
  repeat (rewrite strategy_after_set by discriminate).

Lemma with_pairs_strategy (data m m' : list (string * Json)) :
  Utils.with_pairs data m = Some m' ->
  Py.dict_get "strategy" m' = Py.dict_get "strategy" m.
Proof.
  unfold Utils.with_pairs.
  destruct (Py.truthy (Utils.field data "best_pair" (JDict []))).
  - destruct (Py.get _ "key" _) as [k1 |]; [| discriminate].
    destruct (Py.truthy (Utils.field data "worst_pair" (JDict []))).
    + destruct (Py.get _ "key" _) as [k2 |]; [| discriminate].
      intros H. injection H as <-. keep_strategy. reflexivity.
    + intros H. injection H as <-. keep_strategy. reflexivity.
  - destruct (Py.truthy (Utils.field data "worst_pair" (JDict []))).
    + destruct (Py.get _ "key" _) as [k2 |]; [| discriminate].
      intros H. injection H as <-. keep_strategy. reflexivity.
    + intros H. injection H as <-. reflexivity.
Qed.

Lemma logged_same (m m' : list (string * Json)) : Utils.logged m = Some m' -> m' = m.
Proof. unfold Utils.logged. destruct (Py.formats_as_float _); congruence. Qed.

Lemma from_comparison_strategy (data comparison m m' : list (string * Json)) :
  Utils.from_comparison data comparison m = Some m' ->
  Py.dict_get "strategy" m' = Py.dict_get "strategy" m.
Proof.
  unfold Utils.from_comparison.
  destruct (Py.times_100 _) as [w |]; [| discriminate].
  destruct (Py.times_100 _) as [d |]; [| discriminate].
  destruct (Py.times_100 _) as [c |]; [| discriminate].
  match goal with
  | |- context [Utils.with_pairs data ?x] =>
      destruct (Utils.with_pairs data x) as [m1 |] eqn:Hp; [| discriminate]
  end.
  intros H. apply logged_same in H. subst m'.
  apply with_pairs_strategy in Hp. rewrite Hp.
  destruct (Py.dict_get "backtest_start" data); unfold Py.dict_update; simpl;
    keep_strategy; reflexivity.
Qed.

Lemma from_root_strategy (data m m' : list (string * Json)) :
  Utils.from_root data m = Some m' ->
  Py.dict_get "strategy" m' = Py.dict_get "strategy" m.
Proof.
  unfold Utils.from_root.
  destruct (Py.times_100 _) as [w |]; [| discriminate].
  destruct (Py.times_100 _) as [d |]; [| discriminate].
  match goal with
  | |- context [Utils.with_pairs data ?x] =>
      destruct (Utils.with_pairs data x) as [m1 |] eqn:Hp; [| discriminate]
  end.
  destruct (Py.over_100 _) as [r |]; [| discriminate].
  destruct (Py.times_float _ _) as [p |]; [| discriminate].
  destruct (Py.int_of_float _) as [n |]; [| discriminate].
  destruct (Py.minus_int _ _) as [l |]; [| discriminate].
  intros H. apply logged_same in H. subst m'.
  keep_strategy. apply with_pairs_strategy in Hp. rewrite Hp.
  unfold Py.dict_update; simpl. keep_strategy. reflexivity.
Qed.

Lemma parse_strategy_json_data_strategy
      (dir_name : string) (strategy_dir : FS.node) (metrics : list (string * Json)) :
  Utils.parse_strategy_json_data dir_name strategy_dir = Some metrics ->
  Utils.field metrics "strategy" JNull = JStr dir_name.
Proof.
  unfold Utils.parse_strategy_json_data.
  destruct strategy_dir as [text kind | entries]; [discriminate |].
  destruct (FS.entry ".last_result.json" entries) as [f |]; [| discriminate].
  destruct (FS.load_json f) as [last |]; [| discriminate].
  destruct (Py.get last "latest_backtest" JNull) as [latest |]; [| discriminate].
  destruct (negb (Py.truthy latest)); [discriminate |].
  destruct (Py.as_str latest) as [latest' |]; [| discriminate].
  destruct (Utils.load_backtest_data entries latest') as [data |]; [| discriminate].
  destruct (negb (Py.truthy data)); [discriminate |].
  destruct (Py.has_key "strategy" data) as [h |]; [| discriminate].
  destruct (negb h); [discriminate |].
  destruct (Py.get data "strategy" (JDict [])) as [sd |]; [| discriminate].
  destruct (negb (Py.truthy sd)); [discriminate |].
  destruct data as [| b | z | fl | t | l | d]; try discriminate.
  destruct (Py.truthy (Utils.field d "strategy_comparison" (JList []))).
  - destruct (Utils.field d "strategy_comparison" (JList []))
      as [| b | z | fl | t | [| [| b | z | fl | t | l | cd] rest] | dd];
      try discriminate.
    intros H. apply from_comparison_strategy in H. unfold Utils.field.
    rewrite H. reflexivity.
  - destruct (Py.dict_get "total_trades" d); [| discriminate].
    intros H. apply from_root_strategy in H. unfold Utils.field.
    rewrite H. reflexivity.
Qed.

Lemma lookup_store_str (s : string) (v : Json) (d : list (Json * Json)) :
  Py.lookup (JStr s) (Py.store (JStr s) v d) = Some v.
Proof.
  induction d as [| [k' v'] d IH]; simpl.
  - rewrite String.eqb_refl. reflexivity.
  - destruct (Py.eq k' (JStr s)) eqn:E; simpl; rewrite E; [reflexivity | exact IH].
Qed.

Lemma lookup_store_other (s : string) (k v : Json) (d : list (Json * Json)) :
  k <> JStr s ->
  Py.lookup (JStr s) (Py.store k v d) = Py.lookup (JStr s) d.
Proof.
  intros Hk. induction d as [| [k' v'] d IH]; simpl.
  - destruct (Py.eq k (JStr s)) eqn:E; [| reflexivity].
    apply eq_str in E. contradiction.
  - destruct (Py.eq k' k) eqn:E; simpl.
    + destruct (Py.eq k' (JStr s)) eqn:E'; [| reflexivity].
      apply eq_str in E'. subst k'. apply eq_str_l in E. contradiction.
    + destruct (Py.eq k' (JStr s)); [reflexivity | exact IH].
Qed.

Lemma store_keys (P : Json -> Prop) (k v : Json) (d : list (Json * Json)) :
  Forall (fun b => P (fst b)) d -> P k ->
  Forall (fun b => P (fst b)) (Py.store k v d).
Proof.
  intros Hd Hk. induction Hd as [| [k' v'] d Hk' Hd IH]; simpl.
  - constructor; [exact Hk | constructor].
  - destruct (Py.eq k' k); constructor; auto.
Qed.

Lemma store_distinct (k v : Json) (d : list (Json * Json)) :
  Spec.distinct_keys d -> Spec.distinct_keys (Py.store k v d).
Proof.
  unfold Spec.distinct_keys.
  induction 1 as [| [k' v'] d Hk' Hd IH]; simpl.
  - constructor; constructor.
  - destruct (Py.eq k' k) eqn:E.
    + constructor; assumption.
    + constructor; [| exact IH].
      apply (store_keys (fun x => Py.eq k' x = false)); assumption.
Qed.

Lemma directory_step_distinct (acc : list Json * list (Json * Json))
      (e : string * FS.node) :
  Spec.distinct_keys (snd acc) -> Spec.distinct_keys (snd (Utils.directory_step acc e)).
Proof.
  destruct acc as [names results], e as [dir_name strategy_dir].
  unfold Utils.directory_step. intros H.
  destruct (negb _ || _); [exact H |].
  destruct (Utils.parse_strategy_json_data _ _); [| exact H].
  simpl. apply store_distinct. exact H.
Qed.

Lemma cache_step_distinct (acc : list Json * list (Json * Json))
      (e : string * FS.node) :
  Spec.distinct_keys (snd acc) -> Spec.distinct_keys (snd (Utils.cache_step acc e)).
Proof.
  destruct acc as [names results], e as [file_name result_file].
  unfold Utils.cache_step. intros H.
  destruct (FS.load_json _); [| exact H].
  destruct (Py.get _ _ _) as [k |]; [| exact H].
  destruct (Py.hashable k); [| exact H].
  destruct (Py.lookup k results); [exact H |].
  simpl. apply store_distinct. exact H.
Qed.

Lemma fold_distinct (step : list Json * list (Json * Json) -> string * FS.node
                            -> list Json * list (Json * Json))
      (l : list (string * FS.node)) (acc : list Json * list (Json * Json)) :
  (forall a e, Spec.distinct_keys (snd a) -> Spec.distinct_keys (snd (step a e))) ->
  Spec.distinct_keys (snd acc) -> Spec.distinct_keys (snd (fold_left step l acc)).
Proof.
  intros Hstep. revert acc. induction l as [| e l IH]; intros acc H; simpl; auto.
Qed.

Lemma directory_step_other (name : string) (acc : list Json * list (Json * Json))
      (e : string * FS.node) :
  fst e <> name ->
  Py.lookup (JStr name) (snd (Utils.directory_step acc e))
  = Py.lookup (JStr name) (snd acc).
Proof.
  destruct acc as [names results], e as [dir_name strategy_dir].
  unfold Utils.directory_step. simpl. intros Hne.
  destruct (negb _ || _); [reflexivity |].
  destruct (Utils.parse_strategy_json_data _ _) as [metrics |] eqn:Hp; [| reflexivity].
  simpl. rewrite (parse_strategy_json_data_strategy _ _ Hp).
  apply lookup_store_other. congruence.
Qed.

Lemma scan_directories_other (name : string) (entries : list (string * FS.node))
      (acc : list Json * list (Json * Json)) :
  ~ In name (map fst entries) ->
  Py.lookup (JStr name) (snd (fold_left Utils.directory_step entries acc))
  = Py.lookup (JStr name) (snd acc).
Proof.
  revert acc. induction entries as [| e entries IH]; intros acc Hn; simpl; [reflexivity |].
  rewrite IH by (intros H; apply Hn; right; exact H).
  apply directory_step_other. intros H. apply Hn. left. exact H.
Qed.

Lemma scan_directories_found (name : string) (dir : FS.node)
      (metrics : list (string * Json)) (entries : list (string * FS.node))
      (acc : list Json * list (Json * Json)) :
  NoDup (map fst entries) ->
  In (name, dir) entries ->
  FS.is_dir dir = true ->
  name <> "individual_results"%string ->
  Utils.parse_strategy_json_data name dir = Some metrics ->
  Py.lookup (JStr name) (snd (fold_left Utils.directory_step entries acc))
  = Some (JDict metrics).
Proof.
  intros Hnd Hin Hdir Hname Hp. revert acc.
  induction entries as [| e entries IH]; intros acc; [destruct Hin |].
  simpl in Hnd. inversion Hnd as [| x l Hx Hnd']. subst x l.
  destruct Hin as [-> | Hin].
  - simpl. rewrite scan_directories_other by exact Hx.
    destruct acc as [names results]. unfold Utils.directory_step.
    rewrite Hdir, Hp. apply String.eqb_neq in Hname. rewrite Hname. simpl.
    rewrite (parse_strategy_json_data_strategy _ _ Hp). apply lookup_store_str.
  - simpl. apply IH; assumption.
Qed.

Lemma cache_step_keeps (name : string) (v : Json)
      (acc : list Json * list (Json * Json)) (e : string * FS.node) :
  Py.lookup (JStr name) (snd acc) = Some v ->
  Py.lookup (JStr name) (snd (Utils.cache_step acc e)) = Some v.
Proof.
  destruct acc as [names results], e as [file_name result_file].
  unfold Utils.cache_step. simpl. intros H.
  destruct (FS.load_json _); [| exact H].
  destruct (Py.get _ _ _) as [k |]; [| exact H].
  destruct (Py.hashable k); [| exact H].
  destruct (Py.lookup k results) eqn:Hk; [exact H |].
  simpl. rewrite lookup_store_other; [exact H |].
  intros ->. congruence.
Qed.

Lemma scan_cache_keeps (name : string) (v : Json) (files : list (string * FS.node))
      (acc : list Json * list (Json * Json)) :
  Py.lookup (JStr name) (snd acc) = Some v ->
  Py.lookup (JStr name) (snd (Utils.scan_cache files acc)) = Some v.
Proof.
  unfold Utils.scan_cache. revert acc.
  induction files as [| e files IH]; intros acc H; simpl; [exact H |].
  apply IH. apply cache_step_keeps. exact H.
Qed.

Lemma one_entry (name : string) (v : Json) (results : list (Json * Json)) :
  Spec.distinct_keys results ->
  Py.lookup (JStr name) results = Some v ->
  Spec.entries_of name results = [(JStr name, v)].
Proof.
  unfold Spec.distinct_keys, Spec.entries_of.
  induction 1 as [| [k' v'] d Hk' Hd IH]; simpl; [discriminate |].
  destruct (Py.eq k' (JStr name)) eqn:E.
  - intros H. injection H as ->. apply eq_str in E. subst k'. f_equal.
    clear IH Hd. induction Hk' as [| [k2 v2] d Hk2 _ IH2]; simpl; [reflexivity |].
    simpl in Hk2. destruct (Py.eq k2 (JStr name)) eqn:E2; [| exact IH2].
    apply eq_str in E2. subst k2. simpl in Hk2. rewrite String.eqb_refl in Hk2.
    discriminate Hk2.
  - exact IH.
Qed.

Lemma scan_results
      (results_dir : FS.path) (root : FS.node) (entries : list (string * FS.node))
      (found : list Json * list (Json * Json)) :
  FS.lookup results_dir root = Some (FS.Dir entries) ->
  Utils.discover_all_successful_strategies results_dir root = Some found ->
  snd found
  = snd (Utils.scan_cache (Utils.cached_files results_dir "_result.json" root)
                          (Utils.scan_directories entries)).
Proof.
  intros Hdir. unfold Utils.discover_all_successful_strategies. rewrite Hdir.
  destruct (Utils.scan_cache _ _) as [names results].
  destruct (Py.sorted _); [| discriminate].
  intros H. injection H as <-. reflexivity.
Qed.


(** ** Discovery *)

Lemma insert_sorted_perm (x : string) (l : list string) :
  Permutation (x :: l) (Backtester.insert_sorted x l).
Proof.
  induction l as [| y l IH]; simpl; [apply Permutation_refl |].
  destruct (String.leb x y); [apply Permutation_refl |].
  eapply perm_trans; [apply perm_swap | apply perm_skip; exact IH].
Qed.

Lemma sorted_perm (l : list string) : Permutation l (Backtester.sorted l).
Proof.
  induction l as [| x l IH]; simpl; [constructor |].
  eapply perm_trans; [apply perm_skip; exact IH | apply insert_sorted_perm].
Qed.

Lemma insert_sorted_ordered (x : string) (l : list string) :
  Spec.ordered l -> Spec.ordered (Backtester.insert_sorted x l).
Proof.
  unfold Spec.ordered. induction 1 as [| y l Hl IH Hy]; simpl.
  - repeat constructor.
  - destruct (String.leb x y) eqn:E.
    + constructor; [constructor; assumption | constructor; exact E].
    + constructor; [exact IH |].
      assert (Hyx : String.leb y x = true).
      { destruct (String.leb_total x y) as [H | H]; [congruence | exact H]. }
      destruct l as [| z l]; simpl.
      * constructor. exact Hyx.
      * inversion Hy as [| ? ? Hyz]. subst.
        destruct (String.leb x z); constructor; assumption.
Qed.

Lemma sorted_ordered (l : list string) : Spec.ordered (Backtester.sorted l).
Proof.
  induction l as [| x l IH]; simpl; [constructor | apply insert_sorted_ordered; exact IH].
Qed.

Lemma sorted_nodup (l : list string) : NoDup l -> NoDup (Backtester.sorted l).
Proof. intros H. exact (Permutation_NoDup (sorted_perm l) H). Qed.

Lemma fold_left_nodup (A : Type) (step : list string -> A -> list string)
      (l : list A) (acc : list string) :
  (forall a x, NoDup a -> NoDup (step a x)) ->
  NoDup acc -> NoDup (fold_left step l acc).
Proof.
  intros Hstep. revert acc. induction l as [| x l IH]; intros acc H; simpl; auto.
Qed.

Lemma nodup_snoc (x : string) (l : list string) :
  existsb (String.eqb x) l = false -> NoDup l -> NoDup (l ++ [x]).
Proof.
  intros Hx Hl. apply NoDup_app; [exact Hl | repeat constructor; intros [] |].
  intros y Hy [<- | []].
  assert (H : existsb (String.eqb x) l = true).
  { apply existsb_exists. exists x. split; [exact Hy | apply String.eqb_refl]. }
  congruence.
Qed.

Lemma compatible_names_nodup (lines : list string) :
  NoDup (Backtester.compatible_names lines).
Proof.
  unfold Backtester.compatible_names.
  apply fold_left_nodup; [| constructor].
  intros a line Ha.
  destruct (negb _ && _); [| exact Ha].
  destruct (Text.split ":" line) as [| file_path rest]; [exact Ha |].
  destruct (Text.endswith file_path ".py"); [| exact Ha].
  destruct (existsb _ a) eqn:E; [exact Ha | apply nodup_snoc; assumption].
Qed.

(** The compatibility filter returns a sorted sequence without
    duplicates, whatever the search prints. *)
Lemma get_compatible_strategies_sorted_nodup (env : Backtester.Env) (s : Backtester.State) :
  Spec.ordered (fst (Backtester.get_compatible_strategies env s))
  /\ NoDup (fst (Backtester.get_compatible_strategies env s)).
Proof.
  unfold Backtester.get_compatible_strategies.
  destruct (Backtester.subprocess_run env _ _ s) as [[r | e] s']; simpl.
  - split; [apply sorted_ordered |]. apply sorted_nodup.
    destruct (Backtester.returncode r =? 0)%Z; [apply compatible_names_nodup | constructor].
  - split; constructor.
Qed.

Lemma listed_dirs_nodup (entries : list (string * FS.node)) (acc : list string) :
  NoDup (acc ++ map fst entries) ->
  NoDup (fold_left
           (fun strategies e =>
              let (dir_name, strategy_dir) := e : string * FS.node in
              if FS.is_dir strategy_dir && negb (Text.startswith dir_name ".")
              then if FS.exists_ [(dir_name ++ ".py")%string] strategy_dir
                   then strategies ++ [dir_name]
                   else strategies
              else strategies)
           entries acc).
Proof.
  revert acc. induction entries as [| [n x] entries IH]; intros acc H; simpl.
  - rewrite app_nil_r in H. exact H.
  - simpl in H. apply IH.
    destruct (FS.is_dir x && negb (Text.startswith n ".")).
    + destruct (FS.exists_ _ x).
      * rewrite <- app_assoc. exact H.
      * apply NoDup_remove_1 in H. exact H.
    + apply NoDup_remove_1 in H. exact H.
Qed.

(** The file system scan returns a sorted sequence, without duplicates
    when the names of the strategies directory are distinct. *)
Lemma discover_strategies_from_filesystem_sorted_nodup
      (root : FS.node) (l : list string) :
  Backtester.discover_strategies_from_filesystem root = Ok l ->
  Spec.ordered l
  /\ (forall entries,
         FS.lookup Backtester.strategies_dir root = Some (FS.Dir entries) ->
         NoDup (map fst entries) -> NoDup l).
Proof.
  unfold Backtester.discover_strategies_from_filesystem.
  destruct (FS.lookup Backtester.strategies_dir root) as [[text kind | entries] |].
  - discriminate.
  - intros H. injection H as <-. split; [apply sorted_ordered |].
    intros entries' H Hnd. injection H as <-.
    apply sorted_nodup. apply listed_dirs_nodup. exact Hnd.
  - intros H. injection H as <-. split; [constructor | discriminate].
Qed.

(** Every discovery returns a sorted sequence. *)
Lemma discover_strategies_sorted
      (env : Backtester.Env) (self : Backtester.Config) (compatible_only : bool)
      (s : Backtester.State) (l : list string) :
  fst (Backtester.discover_strategies env self compatible_only s) = Ok l ->
  Spec.ordered l.
Proof.
  unfold Backtester.discover_strategies. destruct compatible_only.
  - unfold Backtester.total.
    pose proof (get_compatible_strategies_sorted_nodup env s) as [H _].
    destruct (Backtester.get_compatible_strategies env s) as [l' s']. simpl in *.
    intros E. injection E as <-. exact H.
  - destruct (Backtester.subprocess_run env _ _ s) as [[r | e] s'].
    + destruct (Backtester.returncode r =? 0)%Z.
      * simpl. intros E. injection E as <-. apply sorted_ordered.
      * destruct (Backtester.discover_strategies_from_filesystem (Backtester.fs s'))
          as [l' |] eqn:E'; simpl.
        -- intros E. injection E as <-.
           exact (proj1 (discover_strategies_from_filesystem_sorted_nodup _ E')).
        -- discriminate.
    + simpl. intros E.
      exact (proj1 (discover_strategies_from_filesystem_sorted_nodup _ E)).
Qed.

(** ** The statements at the sample worlds *)

Lemma load_existing_result_window_witness :
  Backtester.load_existing_result Sample.self "C" Sample.cached_tree = None.
Proof.
  apply (proj1 (proj2 (load_existing_result_window Sample.self "C" Sample.cached_tree
                         (Sample.stored_result "C" "20230101" "20231231" "5m")))).
  - eexists. split; reflexivity.
  - left. vm_compute. discriminate.
Defined.

Lemma load_existing_result_window_only_witness :
  Backtester.load_existing_result Sample.self "B" Sample.cached_tree
  = Some (Sample.stored_result "B" "20240101" "20241231" "1h").
Proof.
  unfold Sample.stored_result.
  eapply load_existing_result_window_only; reflexivity.
Defined.

Lemma run_backtest_worker_cache_hit_witness :
  Backtester.run_backtest_worker
    (Sample.world (Backtester.Raised TimeoutExpired)) Sample.self "B"
    (Sample.state Sample.cached_tree)
  = (Some (Sample.stored_result "B" "20240101" "20241231" "1h"),
     Sample.state Sample.cached_tree).
Proof. apply run_backtest_worker_cache_hit. reflexivity. Defined.

(** A unit that has just succeeded is a cache hit at the next call. *)
Example second_run_is_cache_hit :
  let world := Sample.world (Sample.exits 0 (Sample.summary_of "X" "1.5") "") in
  let first := Backtester.run_backtest_worker world Sample.self "X"
                 (Sample.state Sample.empty_cache_tree) in
  fst first <> None
  /\ Backtester.run_backtest_worker world Sample.self "X" (snd first) = first.
Proof. split; [discriminate | reflexivity]. Qed.

(** C3 as stated fails: [B] is completed and is returned for a retry. *)
Lemma get_strategies_to_process_reruns_completed :
  Backtester.get_strategies_to_process Sample.memory ["A"; "B"; "C"] true
  = Some ["A"; "C"; "B"]
  /\ Spec.completed Sample.memory "B"
  /\ ~ (forall l s,
           Backtester.get_strategies_to_process Sample.memory ["A"; "B"; "C"] true
           = Some l ->
           Spec.completed Sample.memory s -> ~ In s l).
Proof.
  split; [reflexivity |]. split; [left; reflexivity |].
  intros H. apply (H ["A"; "C"; "B"] "B"%string); [reflexivity | left; reflexivity |].
  simpl. tauto.
Qed.

Lemma get_strategies_to_process_spec_witness :
  Spec.records_hashable Sample.memory
  /\ exists l,
      Backtester.get_strategies_to_process Sample.memory ["A"; "B"; "C"] false = Some l
      /\ ~ In "B"%string l.
Proof.
  assert (H : Spec.records_hashable Sample.memory).
  { constructor; [| constructor]. eexists. split; reflexivity. }
  split; [exact H |].
  destruct (@get_strategies_to_process_spec Sample.memory ["A"; "B"; "C"] false H)
    as [pending [retry [_ [_ [Heq [Hc _]]]]]].
  eexists. split; [exact Heq |]. rewrite app_nil_r. apply Hc. left. reflexivity.
Defined.

(** C4 as stated fails: the command exits with code 1 where
    [individual_results] is missing; no record is left. *)
Lemma failure_record_not_persisted :
  Backtester.run_backtest_worker
    (Sample.world (Sample.exits 1 "" "boom")) Sample.self "X"
    (Sample.state Sample.bare_tree)
  = (None,
     {| Backtester.fs := Sample.bare_tree;
        Backtester.clock := 1%Q;
        Backtester.spawned := [Backtester.backtest_command Sample.self "X" "5m"];
        Backtester.timeframe_cache := [("X", "5m")]%string |})
  /\ FS.lookup (Backtester.failed_file "X") Sample.bare_tree = None.
Proof. split; reflexivity. Qed.


(** After a timeout where the cache directory exists, the record is in
    place. *)
Example timeout_record_persisted :
  FS.lookup (Backtester.failed_file "X")
    (Backtester.fs
       (snd (Backtester.run_backtest_worker
               (Sample.world (Backtester.Raised TimeoutExpired)) Sample.self "X"
               (Sample.state Sample.empty_cache_tree))))
  = Some (Sample.document
            (JDict (Backtester.raised_record Sample.self "X"
                      "Timeout after 300 seconds" "2024-06-01T12:00:00"))).
Proof. reflexivity. Qed.

(** A unit named as the cache directory: its clean-up removes the cache,
    the record just written included. *)
Example cache_directory_as_unit :
  Backtester.fs
    (snd (Backtester.run_backtest_worker
            (Sample.world (Sample.exits 1 "" "boom")) Sample.self "individual_results"
            (Sample.state Sample.empty_cache_tree)))
  = Sample.bare_tree.
Proof. reflexivity. Qed.

(** C5 fails on the native listing: a name the tool prints twice is
    returned twice. *)
Theorem discover_strategies_keeps_duplicates :
  fst (Backtester.discover_strategies
         (Sample.world (Sample.exits 0 Sample.listing_twice "")) Sample.self false
         (Sample.state Sample.bare_tree))
  = Ok ["A"; "A"]%string
  /\ ~ NoDup ["A"; "A"]%string.
Proof.
  split; [reflexivity |].
  intros H. inversion H as [| x l Hx _]. apply Hx. left. reflexivity.
Qed.

(** C6 fails on the cache of a retried unit: [X] is a key of the success
    map and the strategy of a failure record. *)
Theorem collect_all_results_overlap :
  Utils.collect_all_results Backtester.results_dir "2024-06-02T00:00:00"
    Sample.retried_tree
  = Some ([(JStr "X", Sample.stored_result "X" "20240101" "20241231" "5m")],
          [Sample.failure_of "X"])
  /\ Py.get (Sample.failure_of "X") "strategy" JNull = Some (JStr "X").
Proof. split; reflexivity. Qed.

(** Such a cache is what the worker itself leaves when a unit fails and
    its retry succeeds: the failure record of the first run stays. *)
Example retry_leaves_failure_record :
  let first := Backtester.run_backtest_worker Sample.flaky_world Sample.self "X"
                 (Sample.state Sample.empty_cache_tree) in
  let second := Backtester.run_backtest_worker Sample.flaky_world Sample.self "X"
                  (snd first) in
  fst first = None
  /\ (exists result,
         fst second = Some result
         /\ exists failure,
             Utils.collect_all_results Backtester.results_dir "2024-06-02T00:00:00"
               (Backtester.fs (snd second))
             = Some ([(JStr "X", result)], [failure])
             /\ Py.get failure "strategy" JNull = Some (JStr "X")).
Proof.
  split; [reflexivity |]. eexists. split; [reflexivity |].
  eexists. split; reflexivity.
Qed.

(** C7 as stated fails: the two outputs differ in the average profit
    only, and the malformed one loses the absolute profit as well. *)
Lemma summary_row_malformed_cell :
  exists good bad,
    Backtester.parse_backtest_output Sample.summary_good "S" = Ok good
    /\ Backtester.parse_backtest_output Sample.summary_bad "S" = Ok bad
    /\ Py.dict_get "total_profit_abs" good = Some (JFloat (FFin 5%Q))
    /\ Py.dict_get "total_profit_abs" bad = Some (JFloat (FFin 0%Q))
    /\ Num.py_float (nth 4 (Backtester.cells Sample.summary_bad) ""%string)
       = Some (FFin 5%Q).
Proof.
  eexists. eexists. split; [vm_compute; reflexivity |].
  split; [vm_compute; reflexivity |]. repeat split; reflexivity.
Qed.


Lemma cleanup_failed_strategy_directory_spec_witness :
  FS.lookup (Backtester.results_dir ++ ["A"%string])
    (Backtester.fs
       (Backtester.cleanup_failed_strategy_directory
          (Backtester.results_dir ++ ["A"%string]) "A"
          (Sample.state Sample.partial_tree))) = None
  /\ Backtester.cleanup_failed_strategy_directory
       (Backtester.results_dir ++ ["A"%string]) "A"
       (Sample.state Sample.complete_tree)
     = Sample.state Sample.complete_tree.
Proof.
  split.
  - refine (proj1 (@cleanup_failed_strategy_directory_spec
                     Backtester.results_dir "A" "A"
                     (Sample.state Sample.partial_tree) _ eq_refl) _).
    intros file_name f Hin [_ [_ [_ Hsize]]].
    destruct Hin as [H | [H | []]]; injection H as <- <-; simpl in Hsize; lia.
  - refine (proj2 (@cleanup_failed_strategy_directory_spec
                     Backtester.results_dir "A" "A"
                     (Sample.state Sample.complete_tree) _ eq_refl) _).
    eexists. eexists. split; [left; reflexivity |].
    repeat split; try reflexivity. vm_compute. lia.
Defined.


(** ** Text and numbers at sample values *)

Example split_bar : Text.split "|" "a|b||c" = ["a"; "b"; ""; "c"]%string.
Proof. reflexivity. Qed.

Example split_arrow : Text.split "->" " x -> y " = [" x "; " y "]%string.
Proof. reflexivity. Qed.

Example replace_unit : Text.replace "USDT" "" "12.5 USDT" = "12.5 "%string.
Proof. reflexivity. Qed.

Example strip_both : Text.strip "  a b  " = "a b"%string.
Proof. reflexivity. Qed.

Example words_stats :
  Text.words "352  2  303  53.6" = ["352"; "2"; "303"; "53.6"]%string.
Proof. reflexivity. Qed.

Example suffix_json : FS.suffix "A_backtest.json" = ".json"%string.
Proof. reflexivity. Qed.

Example suffix_hidden : FS.suffix ".json" = ""%string.
Proof. reflexivity. Qed.

Example parent_name_of_file :
  Backtester.parent_name "user_data/strategies/Foo/Foo.py" = "Foo"%string.
Proof. reflexivity. Qed.

Example int_ok : Num.py_int " 1_000 " = Some 1000%Z.
Proof. reflexivity. Qed.

Example int_bad : Num.py_int "12a" = None.
Proof. reflexivity. Qed.

Example float_ok : Num.py_float "-12.50" = Some (FFin (Qmake (-25) 2)).
Proof. reflexivity. Qed.

Example float_exp : Num.py_float "1.5e2" = Some (FFin (Qmake 150 1)).
Proof. reflexivity. Qed.

Example float_inf : Num.py_float "-Infinity" = Some (FInf true).
Proof. reflexivity. Qed.

Example float_bad : Num.py_float "n/a" = None.
Proof. reflexivity. Qed.

(** * Further properties of the code *)

(** ** The timeframe cache *)

Lemma cached_remember (k v : string) (c : list (string * string)) :
  Backtester.cached k (Backtester.remember k v c) = Some v.
Proof.
  induction c as [| [k' v'] c IH]; simpl.
  - now rewrite String.eqb_refl.
  - destruct (String.eqb k k') eqn:E; simpl.
    + now rewrite String.eqb_refl.
    + now rewrite E.
Qed.

Lemma cached_remember_other (k k' v : string) (c : list (string * string)) :
  k' <> k ->
  Backtester.cached k' (Backtester.remember k v c) = Backtester.cached k' c.
Proof.
  intros Hk. induction c as [| [k0 v0] c IH]; simpl.
  - destruct (String.eqb_spec k' k); congruence.
  - destruct (String.eqb_spec k k0) as [-> | Hn]; simpl.
    + destruct (String.eqb_spec k' k0); congruence.
    + now rewrite IH.
Qed.

(** X1. [detect_strategy_timeframe] memoises: after a call the timeframe
    it returned is the cached one of that strategy, every later call on a
    state with this cache returns the same timeframe and changes nothing
    (whatever has happened to the strategy file meanwhile), the cached
    timeframes of the other strategies are kept, and the call touches
    nothing but the cache. *)
Theorem detect_strategy_timeframe_memoised
        (env : Backtester.Env) (strategy_name : string) (s : Backtester.State) :
  let timeframe := fst (Backtester.detect_strategy_timeframe env strategy_name s) in
  let s' := snd (Backtester.detect_strategy_timeframe env strategy_name s) in
  Backtester.cached strategy_name (Backtester.timeframe_cache s') = Some timeframe
  /\ (forall later,
         Backtester.timeframe_cache later = Backtester.timeframe_cache s' ->
         Backtester.detect_strategy_timeframe env strategy_name later
         = (timeframe, later))
  /\ (forall other,
         other <> strategy_name ->
         Backtester.cached other (Backtester.timeframe_cache s')
         = Backtester.cached other (Backtester.timeframe_cache s))
  /\ Backtester.fs s' = Backtester.fs s
  /\ Backtester.spawned s' = Backtester.spawned s
  /\ Backtester.clock s' = Backtester.clock s.
Proof.
  intros timeframe s'.
  assert (Hc : Backtester.cached strategy_name (Backtester.timeframe_cache s')
               = Some timeframe).
  { subst timeframe s'. unfold Backtester.detect_strategy_timeframe.
    destruct (Backtester.cached strategy_name (Backtester.timeframe_cache s)) eqn:E;
      simpl; [exact E | apply cached_remember]. }
  split; [exact Hc |].
  split.
  { intros later Hl. unfold Backtester.detect_strategy_timeframe at 1.
    now rewrite Hl, Hc. }
  subst timeframe s'. unfold Backtester.detect_strategy_timeframe.
  destruct (Backtester.cached strategy_name (Backtester.timeframe_cache s)) eqn:E;
    simpl; repeat split; try reflexivity.
  intros other Ho. now apply cached_remember_other.
Qed.

(** ** Removing directories *)

Lemma in_dir_apart (c : FS.path) (n m : string) (r q : FS.path)
      (f : list (string * FS.node) -> FS.errno + list (string * FS.node))
      (root root' : FS.node) :
  n <> m ->
  FS.in_dir (c ++ n :: r) f root = inr root' ->
  FS.lookup (c ++ m :: q) root' = FS.lookup (c ++ m :: q) root.
Proof.
  intros Hn. revert root root'.
  induction c as [| a c IH]; intros root root' H; destruct root as [t k | es];
    simpl in H; try discriminate.
  - destruct (FS.entry n es) as [x |] eqn:E; [| discriminate].
    destruct (FS.in_dir r f x) as [e | x'] eqn:E'; [discriminate |].
    injection H as <-. simpl. now rewrite entry_set_entry_other.
  - destruct (FS.entry a es) as [x |] eqn:E; [| discriminate].
    destruct (FS.in_dir (c ++ n :: r) f x) as [e | x'] eqn:E'; [discriminate |].
    injection H as <-. simpl. rewrite entry_set_entry, E. now apply IH.
Qed.

Lemma parent_cons_app (c : FS.path) (n : string) (r : FS.path) :
  FS.parent (c ++ n :: r) = c \/ exists r', FS.parent (c ++ n :: r) = c ++ n :: r'.
Proof.
  unfold FS.parent. destruct r as [| b r].
  - left. apply removelast_last.
  - right. exists (removelast (b :: r)).
    rewrite removelast_app by discriminate.
    change (n :: b :: r) with ([n] ++ b :: r).
    rewrite removelast_app by discriminate. reflexivity.
Qed.

Lemma lookup_remove_apart (c : FS.path) (n m : string) (r q : FS.path) (root : FS.node) :
  n <> m ->
  FS.lookup (c ++ m :: q) (FS.remove (c ++ n :: r) root) = FS.lookup (c ++ m :: q) root.
Proof.
  intros Hn. destruct r as [| b r].
  - now apply lookup_remove_sibling.
  - unfold FS.remove.
    destruct (parent_cons_app c n (b :: r)) as [Hp | [r' Hp]].
    + exfalso. unfold FS.parent in Hp.
      apply (f_equal (@List.length string)) in Hp.
      rewrite removelast_app in Hp by discriminate.
      rewrite length_app in Hp. simpl in Hp. destruct r; simpl in Hp; lia.
    + rewrite Hp.
      destruct (FS.in_dir (c ++ n :: r') _ root) as [e | root'] eqn:E; [reflexivity |].
      eapply in_dir_apart; [exact Hn | exact E].
Qed.

Lemma lookup_remove_dir (p : FS.path) (n : string) (root : FS.node)
      (es : list (string * FS.node)) :
  FS.lookup p root = Some (FS.Dir es) ->
  FS.lookup p (FS.remove (p ++ [n]) root) = Some (FS.Dir (FS.del_entry n es)).
Proof.
  intros H. unfold FS.remove.
  destruct (parent_name_app p n) as [-> ->].
  destruct (FS.in_dir p _ root) as [e | root'] eqn:E.
  - eapply in_dir_inl in H; [| exact E]. discriminate.
  - destruct (in_dir_inr _ _ _ E) as (es0 & es' & H0 & Hf & H').
    rewrite H in H0. injection H0 as <-. injection Hf as <-. exact H'.
Qed.

Lemma cleanup_failed_strategy_directory_cases
      (strategy_dir : FS.path) (strategy_name : string) (s : Backtester.State) :
  Backtester.cleanup_failed_strategy_directory strategy_dir strategy_name s = s
  \/ Backtester.cleanup_failed_strategy_directory strategy_dir strategy_name s
     = Backtester.with_fs s (FS.remove strategy_dir (Backtester.fs s)).
Proof.
  unfold Backtester.cleanup_failed_strategy_directory.
  destruct (FS.lookup strategy_dir (Backtester.fs s)) as [[t k | [| e files]] |];
    auto.
  destruct (negb _); auto.
Qed.


Lemma remove_dirs_lookup (names : list string) (root : FS.node)
      (es : list (string * FS.node)) :
  FS.lookup Backtester.results_dir root = Some (FS.Dir es) ->
  FS.lookup Backtester.results_dir (Housekeeping.remove_dirs names root)
  = Some (FS.Dir (filter (fun e => negb (existsb (String.eqb (fst e)) names)) es)).
Proof.
  revert root es. induction names as [| n names IH]; intros root es H.
  - change (Housekeeping.remove_dirs [] root) with root. rewrite H. do 2 f_equal.
    clear H. induction es as [| e es IHes]; simpl; [reflexivity | f_equal; exact IHes].
  - change (Housekeeping.remove_dirs (n :: names) root)
      with (Housekeeping.remove_dirs names
              (FS.remove (Backtester.results_dir ++ [n]) root)).
    rewrite (IH _ _ (lookup_remove_dir Backtester.results_dir n root H)).
    do 2 f_equal. unfold FS.del_entry. clear.
    induction es as [| e es IHes]; simpl; [reflexivity |].
    rewrite (String.eqb_sym (fst e) n).
    destruct (String.eqb n (fst e)); simpl; [exact IHes |].
    destruct (existsb _ names); simpl; [exact IHes | f_equal; exact IHes].
Qed.

Lemma filter_none (A : Type) (p : A -> bool) (l : list A) :
  (forall x, In x l -> p x = false) -> filter p l = [].
Proof.
  induction l as [| x l IH]; intros H; simpl; [reflexivity |].
  rewrite (H x (or_introl eq_refl)). apply IH. intros y Hy. apply H. now right.
Qed.

(** X3. After [cleanup_empty_directories] the results directory holds
    no empty directory but [individual_results]; what it holds was there
    before, in the same order; when the names of the directory are distinct
    every file, every directory that is not empty and [individual_results]
    are still there; a second call changes nothing, and the clock, the
    commands started and the timeframe cache are as before. *)
Theorem cleanup_empty_directories_spec
        (s : Backtester.State) (entries : list (string * FS.node)) :
  FS.lookup Backtester.results_dir (Backtester.fs s) = Some (FS.Dir entries) ->
  let s' := Housekeeping.cleanup_empty_directories s in
  exists kept,
    FS.lookup Backtester.results_dir (Backtester.fs s') = Some (FS.Dir (filter kept entries))
    /\ (forall e, In e (filter kept entries) -> Housekeeping.is_empty_dir e = false)
    /\ (NoDup (map fst entries) ->
        forall e, In e entries -> Housekeeping.is_empty_dir e = false ->
                  In e (filter kept entries))
    /\ Housekeeping.cleanup_empty_directories s' = s'
    /\ Backtester.clock s' = Backtester.clock s
    /\ Backtester.spawned s' = Backtester.spawned s
    /\ Backtester.timeframe_cache s' = Backtester.timeframe_cache s.
Proof.
  intros H s'.
  set (names := map fst (filter Housekeeping.is_empty_dir entries)).
  exists (fun e => negb (existsb (String.eqb (fst e)) names)).
  assert (Hs' : s' = Backtester.with_fs s (Housekeeping.remove_dirs names (Backtester.fs s))).
  { subst s'. unfold Housekeeping.cleanup_empty_directories. now rewrite H. }
  assert (Hl : FS.lookup Backtester.results_dir (Backtester.fs s')
               = Some (FS.Dir (filter (fun e => negb (existsb (String.eqb (fst e)) names))
                                      entries))).
  { rewrite Hs'. apply (remove_dirs_lookup names _ H). }
  assert (Hnone : forall e,
             In e (filter (fun e => negb (existsb (String.eqb (fst e)) names)) entries) ->
             Housekeeping.is_empty_dir e = false).
  { intros e He. apply filter_In in He. destruct He as [He Hk].
    destruct (Housekeeping.is_empty_dir e) eqn:Hd; [| reflexivity].
    exfalso. apply Bool.negb_true_iff in Hk.
    assert (Hx : existsb (String.eqb (fst e)) names = true).
    { apply existsb_exists. exists (fst e). split; [| apply String.eqb_refl].
      subst names. apply in_map. apply filter_In. now split. }
    congruence. }
  split; [exact Hl |]. split; [exact Hnone |]. split.
  { intros Hnd e He Hd. apply filter_In. split; [exact He |].
    apply Bool.negb_true_iff. destruct (existsb _ names) eqn:Hx; [| reflexivity].
    exfalso. apply existsb_exists in Hx. destruct Hx as (n & Hn & Heq).
    apply String.eqb_eq in Heq. subst names. apply in_map_iff in Hn.
    destruct Hn as (e' & He' & Hf). apply filter_In in Hf. destruct Hf as [Hin Hd'].
    assert (e = e').
    { clear - Hnd He Hin Heq He'. rewrite <- He' in Heq. clear He'.
      induction entries as [| x l IH]; [contradiction |].
      simpl in Hnd. inversion Hnd as [| ? ? Hx Hl]; subst.
      destruct He as [-> | He], Hin as [-> | Hin]; auto.
      - exfalso. apply Hx. rewrite Heq. now apply in_map.
      - exfalso. apply Hx. rewrite <- Heq. now apply in_map. }
    congruence. }
  split.
  { unfold Housekeeping.cleanup_empty_directories at 1. rewrite Hl.
    replace (filter Housekeeping.is_empty_dir
               (filter (fun e => negb (existsb (String.eqb (fst e)) names)) entries))
      with (@nil (string * FS.node)).
    - rewrite Hs'. reflexivity.
    - symmetry. now apply filter_none. }
  rewrite Hs'. now repeat split.
Qed.

(** ** What is left to run *)

Lemma failed_names_members (records : list Json) (names : list Json) :
  Backtester.failed_names records = Some names ->
  forall v, In v names <->
            exists fs, In fs records /\ Py.get fs "strategy" JNull = Some v.
Proof.
  revert names. induction records as [| fs rest IH]; intros names H; simpl in H.
  - injection H as <-. intros v. split; [contradiction | intros (x & [] & _)].
  - destruct (Py.get fs "strategy" JNull) as [v0 |] eqn:G; [| discriminate].
    destruct (Py.hashable v0); [| discriminate].
    destruct (Backtester.failed_names rest) as [vs |]; [| discriminate].
    injection H as <-. intros v. simpl. rewrite (IH vs eq_refl v). split.
    + intros [<- | (x & Hx & Hv)]; [exists fs; auto | exists x; auto].
    + intros (x & [<- | Hx] & Hv); [left; congruence | right; exists x; auto].
Qed.

(** X4. What [get_strategies_to_process] returns, when it returns: only
    identifiers of [all_strategies]; each of them once when they are
    distinct there; with [include_failed] every identifier that is not
    completed; without it exactly those that are neither completed nor
    failed; and an identifier that is completed and has not failed is never
    returned. *)
Theorem get_strategies_to_process_cover
        (self : Backtester.Memory) (all_strategies : list string)
        (include_failed : bool) (to_process : list string) :
  Backtester.get_strategies_to_process self all_strategies include_failed
  = Some to_process ->
  (forall s, In s to_process -> In s all_strategies)
  /\ (NoDup all_strategies -> NoDup to_process)
  /\ (include_failed = true ->
      forall s, In s all_strategies -> ~ Spec.completed self s -> In s to_process)
  /\ (include_failed = false ->
      forall s, In s to_process <->
                In s all_strategies /\ ~ Spec.completed self s /\ ~ Spec.failed self s)
  /\ (forall s, In s to_process -> Spec.completed self s -> Spec.failed self s).
Proof.
  unfold Backtester.get_strategies_to_process.
  destruct (Backtester.failed_names (Backtester.failed_strategies self))
    as [names |] eqn:E; [| discriminate].
  intros H. injection H as <-.
  pose proof (failed_names_members _ E) as Hm.
  assert (Hf : forall s, Py.member (JStr s) names = true <-> Spec.failed self s).
  { intros s. rewrite member_str. apply Hm. }
  assert (Hc : forall s, Py.member (JStr s) (map fst (Backtester.results self)) = true
                         <-> Spec.completed self s).
  { intros s. apply member_str. }
  set (pending := fun s => negb (Py.member (JStr s) (map fst (Backtester.results self)))
                           && negb (Py.member (JStr s) names)).
  set (retry := fun s => Py.member (JStr s) names).
  assert (Hp : forall s, pending s = true
                         <-> ~ Spec.completed self s /\ ~ Spec.failed self s).
  { intros s. unfold pending. rewrite Bool.andb_true_iff, !Bool.negb_true_iff.
    rewrite <- Hc, <- Hf, !Bool.not_true_iff_false. tauto. }
  split; [| split; [| split; [| split]]].
  - intros s Hs. apply in_app_or in Hs.
    destruct Hs as [Hs | Hs]; [now apply filter_In in Hs |].
    destruct include_failed; [now apply filter_In in Hs | contradiction].
  - intros Hnd. apply NoDup_app.
    + now apply NoDup_filter.
    + destruct include_failed; [now apply NoDup_filter | constructor].
    + intros s Hs Hr. apply filter_In in Hs. destruct Hs as [_ Hs].
      apply Hp in Hs. destruct include_failed; [| contradiction].
      apply filter_In in Hr. destruct Hr as [_ Hr]. apply Hf in Hr. tauto.
  - intros -> s Hs Hn. apply in_or_app.
    destruct (retry s) eqn:R.
    + right. apply filter_In. now split.
    + left. apply filter_In. split; [exact Hs |]. apply Hp. split; [exact Hn |].
      rewrite <- Hf. fold (retry s). congruence.
  - intros -> s. rewrite app_nil_r, filter_In. fold (pending s). now rewrite Hp.
  - intros s Hs Hd. apply in_app_or in Hs. destruct Hs as [Hs | Hs].
    + apply filter_In in Hs. destruct Hs as [_ Hs]. apply Hp in Hs. tauto.
    + destruct include_failed; [| contradiction].
      apply filter_In in Hs. destruct Hs as [_ Hs]. now apply Hf.
Qed.

(** ** The worker *)

Lemma dict_set_truthy (k : string) (v : Json) (m : list (string * Json)) :
  Py.truthy (JDict (Py.dict_set k v m)) = true.
Proof. destruct m as [| [k' v'] m]; simpl; [| destruct (String.eqb k k')]; reflexivity. Qed.

Lemma dict_update_truthy (a m : list (string * Json)) :
  Py.truthy (JDict m) = true -> Py.truthy (JDict (Py.dict_update m a)) = true.
Proof.
  revert m. induction a as [| [k v] a IH]; intros m H; [exact H |].
  apply IH. apply dict_set_truthy.
Qed.

Lemma execute_some
      (env : Backtester.Env) (self : Backtester.Config) (strategy_name : string)
      (s s' : Backtester.State) (result : Json) :
  Backtester.execute env self strategy_name s = (Ok (Some result), s') ->
  exists s1,
    s' = Backtester.save_strategy_result env strategy_name result s1
    /\ Spec.stored_bound result "start_date" = Some (JStr (Backtester.start_date self))
    /\ Spec.stored_bound result "end_date" = Some (JStr (Backtester.end_date self))
    /\ Py.truthy result = true.
Proof.
  unfold Backtester.execute, Backtester.now, Backtester.bind, Backtester.on_fs,
    Backtester.total, Backtester.gets, Backtester.lift, Backtester.ret.
  destruct (FS.mkdir _ _) as [root |]; [| discriminate].
  destruct (Backtester.detect_strategy_timeframe env strategy_name _) as [tf s2].
  destruct (Backtester.subprocess_run env _ _ s2) as [[r | e] s3]; [| discriminate].
  destruct (Backtester.returncode r =? 0)%Z; [| discriminate].
  destruct (Backtester.parse_backtest_output _ _) as [metrics |]; [| discriminate].
  destruct (Backtester.get_freqtrade_version env s3) as [version s4].
  destruct (FS.write _ _ _) as [root' |]; [| discriminate].
  intros H. injection H as <- <-.
  eexists. split; [reflexivity |].
  split; [| split].
  - unfold Spec.stored_bound, Py.dict_update. simpl fold_left.
    rewrite !dict_get_set. reflexivity.
  - unfold Spec.stored_bound, Py.dict_update. simpl fold_left.
    rewrite !dict_get_set. reflexivity.
  - unfold Py.dict_update. simpl fold_left. apply dict_set_truthy.
Qed.

Lemma attempt_some
      (env : Backtester.Env) (self : Backtester.Config) (strategy_name : string)
      (s s' : Backtester.State) (result : Json) :
  Backtester.run_backtest_worker env self strategy_name s = (Some result, s') ->
  (Backtester.load_existing_result self strategy_name (Backtester.fs s) = Some result
   /\ s' = s)
  \/ Backtester.execute env self strategy_name s = (Ok (Some result), s').
Proof.
  unfold Backtester.run_backtest_worker.
  destruct (Backtester.attempt env self strategy_name s) as [[r | [| text]] s1] eqn:Ha;
    intros H; try discriminate.
  injection H as -> ->.
  unfold Backtester.attempt, Backtester.bind, Backtester.gets, Backtester.ret in Ha.
  destruct (Backtester.load_existing_result self strategy_name (Backtester.fs s))
    as [existing |] eqn:El; [| now right].
  destruct (Py.truthy existing); [| now right].
  injection Ha as -> ->. now left.
Qed.

Lemma cache_hit
      (env : Backtester.Env) (self : Backtester.Config) (strategy_name : string)
      (s : Backtester.State) (result : Json) :
  Backtester.load_existing_result self strategy_name (Backtester.fs s) = Some result ->
  Backtester.run_backtest_worker env self strategy_name s = (Some result, s).
Proof.
  intros H.
  unfold Backtester.run_backtest_worker, Backtester.attempt, Backtester.bind,
    Backtester.gets, Backtester.ret.
  now rewrite H, (valid_result_truthy _ _ _ H).
Qed.

(** X5. A result that [run_backtest_worker] returns is for the active
    window, on a cache hit as after a backtest: its stored configuration
    has the active start and end date, and it is a non-empty record. *)
Theorem run_backtest_worker_result_window
        (env : Backtester.Env) (self : Backtester.Config) (strategy_name : string)
        (s s' : Backtester.State) (result : Json) :
  Backtester.run_backtest_worker env self strategy_name s = (Some result, s') ->
  Spec.stored_bound result "start_date" = Some (JStr (Backtester.start_date self))
  /\ Spec.stored_bound result "end_date" = Some (JStr (Backtester.end_date self))
  /\ Py.truthy result = true.
Proof.
  intros H. apply attempt_some in H. destruct H as [[H _] | H].
  - pose proof (valid_result_truthy _ _ _ H) as Ht.
    apply load_existing_result_some in H. tauto.
  - apply execute_some in H. destruct H as (s1 & _ & H). exact H.
Qed.

(** X6. The worker's result survives the call: when afterwards the
    result file can be opened ([individual_results] is a directory and the
    file name is not one of a directory), [load_existing_result] reads the
    returned result back, and a further call, whatever the commands would
    do, is a cache hit that returns it again and changes nothing. *)
Theorem run_backtest_worker_result_kept
        (env : Backtester.Env) (self : Backtester.Config) (strategy_name : string)
        (s s' : Backtester.State) (result : Json) (es : list (string * FS.node)) :
  Backtester.run_backtest_worker env self strategy_name s = (Some result, s') ->
  FS.lookup Backtester.individual_results_dir (Backtester.fs s') = Some (FS.Dir es) ->
  (forall sub, FS.entry (strategy_name ++ "_result.json")%string es
               <> Some (FS.Dir sub)) ->
  Backtester.load_existing_result self strategy_name (Backtester.fs s') = Some result
  /\ forall env',
      Backtester.run_backtest_worker env' self strategy_name s' = (Some result, s').
Proof.
  intros H Hdir Hfile.
  assert (Hl : Backtester.load_existing_result self strategy_name (Backtester.fs s')
               = Some result).
  { apply attempt_some in H. destruct H as [[H ->] | H]; [exact H |].
    apply execute_some in H. destruct H as (s1 & -> & Hs & He & _).
    apply load_existing_result_some. split; [| now split].
    unfold Backtester.save_strategy_result, Backtester.dump in *.
    unfold Backtester.get_strategy_result_file in *.
    destruct (FS.write _ _ (Backtester.fs s1)) as [root | e] eqn:Ew.
    - eexists. split; [exact (lookup_write _ _ _ _ Ew) | reflexivity].
    - exfalso.
      destruct (@write_succeeds Backtester.individual_results_dir
                  (strategy_name ++ "_result.json")%string
                  (FS.File (Backtester.dumps env result) (FS.Document result))
                  _ _ Hdir Hfile) as [root Hr].
      congruence. }
  split; [exact Hl |]. intros env'. now apply cache_hit.
Qed.

Lemma dump_spawned (env : Backtester.Env) (file : FS.path) (x : Json)
      (s : Backtester.State) :
  Backtester.spawned (Backtester.dump env file x s) = Backtester.spawned s.
Proof. unfold Backtester.dump. now destruct (FS.write _ _ _). Qed.

Lemma abandon_spawned (env : Backtester.Env) (strategy_name : string)
      (record : list (string * Json)) (s : Backtester.State) :
  Backtester.spawned (Backtester.abandon env strategy_name record s)
  = Backtester.spawned s.
Proof.
  unfold Backtester.abandon, Backtester.save_failed_result.
  destruct (cleanup_failed_strategy_directory_cases
              (Backtester.strategy_results_dir strategy_name) strategy_name
              (Backtester.dump env (Backtester.failed_file strategy_name)
                 (JDict record) s)) as [-> | ->];
    [| change (Backtester.spawned (Backtester.with_fs ?a ?b))
         with (Backtester.spawned a)];
    apply dump_spawned.
Qed.

Lemma detect_strategy_timeframe_spawned
      (env : Backtester.Env) (strategy_name : string) (s : Backtester.State) :
  Backtester.spawned (snd (Backtester.detect_strategy_timeframe env strategy_name s))
  = Backtester.spawned s.
Proof.
  unfold Backtester.detect_strategy_timeframe.
  now destruct (Backtester.cached _ _).
Qed.

Lemma subprocess_run_spawned
      (env : Backtester.Env) (cmd : list string) (timeout : Z) (s : Backtester.State) :
  Backtester.spawned (snd (Backtester.subprocess_run env cmd timeout s))
  = cmd :: Backtester.spawned s.
Proof.
  unfold Backtester.subprocess_run.
  destruct (Backtester.run env cmd timeout (Backtester.fs s)) as [[[r | e] root] t];
    reflexivity.
Qed.

Lemma get_freqtrade_version_spawned (env : Backtester.Env) (s : Backtester.State) :
  Backtester.spawned (snd (Backtester.get_freqtrade_version env s))
  = ["freqtrade"; "--version"] :: Backtester.spawned s.
Proof.
  unfold Backtester.get_freqtrade_version.
  pose proof (subprocess_run_spawned env ["freqtrade"; "--version"] 10 s) as H.
  destruct (Backtester.subprocess_run env ["freqtrade"; "--version"] 10 s)
    as [[r | e] s']; exact H.
Qed.

Lemma dump_cache (env : Backtester.Env) (file : FS.path) (x : Json)
      (s : Backtester.State) :
  Backtester.timeframe_cache (Backtester.dump env file x s)
  = Backtester.timeframe_cache s.
Proof. unfold Backtester.dump. now destruct (FS.write _ _ _). Qed.

Lemma abandon_cache (env : Backtester.Env) (strategy_name : string)
      (record : list (string * Json)) (s : Backtester.State) :
  Backtester.timeframe_cache (Backtester.abandon env strategy_name record s)
  = Backtester.timeframe_cache s.
Proof.
  unfold Backtester.abandon, Backtester.save_failed_result.
  destruct (cleanup_failed_strategy_directory_cases
              (Backtester.strategy_results_dir strategy_name) strategy_name
              (Backtester.dump env (Backtester.failed_file strategy_name)
                 (JDict record) s)) as [-> | ->];
    [| change (Backtester.timeframe_cache (Backtester.with_fs ?a ?b))
         with (Backtester.timeframe_cache a)];
    apply dump_cache.
Qed.

Lemma detect_strategy_timeframe_cache
      (env : Backtester.Env) (strategy_name : string) (s : Backtester.State) :
  Backtester.cached strategy_name
    (Backtester.timeframe_cache
       (snd (Backtester.detect_strategy_timeframe env strategy_name s)))
  = Some (fst (Backtester.detect_strategy_timeframe env strategy_name s)).
Proof.
  unfold Backtester.detect_strategy_timeframe.
  destruct (Backtester.cached strategy_name (Backtester.timeframe_cache s)) eqn:E;
    simpl; [exact E | apply cached_remember].
Qed.

Lemma subprocess_run_cache
      (env : Backtester.Env) (cmd : list string) (timeout : Z) (s : Backtester.State) :
  Backtester.timeframe_cache (snd (Backtester.subprocess_run env cmd timeout s))
  = Backtester.timeframe_cache s.
Proof.
  unfold Backtester.subprocess_run.
  destruct (Backtester.run env cmd timeout (Backtester.fs s)) as [[[r | e] root] t];
    reflexivity.
Qed.

Lemma get_freqtrade_version_cache (env : Backtester.Env) (s : Backtester.State) :
  Backtester.timeframe_cache (snd (Backtester.get_freqtrade_version env s))
  = Backtester.timeframe_cache s.
Proof.
  unfold Backtester.get_freqtrade_version.
  pose proof (subprocess_run_cache env ["freqtrade"; "--version"] 10 s) as H.
  destruct (Backtester.subprocess_run env ["freqtrade"; "--version"] 10 s)
    as [[r | e] s']; exact H.
Qed.

Lemma execute_processes
      (env : Backtester.Env) (self : Backtester.Config) (strategy_name : string)
      (s : Backtester.State) :
  let s' := snd (Backtester.execute env self strategy_name s) in
  (Backtester.spawned s' = Backtester.spawned s
   /\ Backtester.timeframe_cache s' = Backtester.timeframe_cache s)
  \/ exists timeframe,
      Backtester.cached strategy_name (Backtester.timeframe_cache s') = Some timeframe
      /\ (Backtester.spawned s'
          = Backtester.backtest_command self strategy_name timeframe
            :: Backtester.spawned s
          \/ Backtester.spawned s'
             = ["freqtrade"; "--version"]
               :: Backtester.backtest_command self strategy_name timeframe
               :: Backtester.spawned s).
Proof.
  unfold Backtester.execute, Backtester.now, Backtester.bind, Backtester.on_fs,
    Backtester.total, Backtester.gets, Backtester.lift, Backtester.ret.
  destruct (FS.mkdir _ _) as [root |]; [| now left].
  pose proof (detect_strategy_timeframe_spawned env strategy_name
                (Backtester.with_fs s root)) as Hd.
  pose proof (detect_strategy_timeframe_cache env strategy_name
                (Backtester.with_fs s root)) as Hc.
  destruct (Backtester.detect_strategy_timeframe env strategy_name _) as [tf s2].
  simpl in Hd, Hc.
  pose proof (subprocess_run_spawned env
                (Backtester.backtest_command self strategy_name tf)
                (Backtester.strategy_timeout self) s2) as Hr.
  pose proof (subprocess_run_cache env
                (Backtester.backtest_command self strategy_name tf)
                (Backtester.strategy_timeout self) s2) as Hrc.
  rewrite Hd in Hr.
  destruct (Backtester.subprocess_run env _ _ s2) as [[r | e] s3]; simpl in Hr, Hrc;
    right; exists tf; [| simpl; rewrite Hrc; now split; [| left]].
  destruct (Backtester.returncode r =? 0)%Z.
  - destruct (Backtester.parse_backtest_output _ _) as [metrics |];
      [| simpl; rewrite Hrc; now split; [| left]].
    pose proof (get_freqtrade_version_spawned env s3) as Hv. rewrite Hr in Hv.
    pose proof (get_freqtrade_version_cache env s3) as Hvc. rewrite Hrc in Hvc.
    destruct (Backtester.get_freqtrade_version env s3) as [version s4].
    simpl in Hv, Hvc.
    destruct (FS.write _ _ _) as [root' |]; simpl.
    + unfold Backtester.save_strategy_result. rewrite dump_spawned, dump_cache.
      simpl. rewrite Hvc. now split; [| right].
    + rewrite Hvc. now split; [| right].
  - simpl. rewrite abandon_spawned, abandon_cache, Hrc. now split; [| left].
Qed.

(** X7. The child processes of a call of [run_backtest_worker]: none, or
    the backtest of that strategy, or that backtest and then
    [freqtrade --version]; the backtest runs with the timeframe that the
    cache holds for the strategy after the call, and no command started
    before is forgotten. *)
Theorem run_backtest_worker_processes
        (env : Backtester.Env) (self : Backtester.Config) (strategy_name : string)
        (s : Backtester.State) :
  let s' := snd (Backtester.run_backtest_worker env self strategy_name s) in
  (Backtester.spawned s' = Backtester.spawned s
   /\ Backtester.timeframe_cache s' = Backtester.timeframe_cache s)
  \/ exists timeframe,
      Backtester.cached strategy_name (Backtester.timeframe_cache s') = Some timeframe
      /\ (Backtester.spawned s'
          = Backtester.backtest_command self strategy_name timeframe
            :: Backtester.spawned s
          \/ Backtester.spawned s'
             = ["freqtrade"; "--version"]
               :: Backtester.backtest_command self strategy_name timeframe
               :: Backtester.spawned s).
Proof.
  assert (He : forall out s1,
             Backtester.attempt env self strategy_name s = (out, s1) ->
             (Backtester.spawned s1 = Backtester.spawned s
              /\ Backtester.timeframe_cache s1 = Backtester.timeframe_cache s)
             \/ exists timeframe,
                 Backtester.cached strategy_name (Backtester.timeframe_cache s1)
                 = Some timeframe
                 /\ (Backtester.spawned s1
                     = Backtester.backtest_command self strategy_name timeframe
                       :: Backtester.spawned s
                     \/ Backtester.spawned s1
                        = ["freqtrade"; "--version"]
                          :: Backtester.backtest_command self strategy_name timeframe
                          :: Backtester.spawned s)).
  { intros out s1 Ha.
    pose proof (execute_processes env self strategy_name s) as Hx.
    unfold Backtester.attempt, Backtester.bind, Backtester.gets, Backtester.ret in Ha.
    destruct (Backtester.load_existing_result self strategy_name (Backtester.fs s))
      as [existing |].
    - destruct (Py.truthy existing).
      + injection Ha as _ <-. now left.
      + rewrite Ha in Hx. exact Hx.
    - rewrite Ha in Hx. exact Hx. }
  unfold Backtester.run_backtest_worker.
  destruct (Backtester.attempt env self strategy_name s) as [[r | [| text]] s1] eqn:Ha;
    simpl; try rewrite !abandon_spawned, !abandon_cache; exact (He _ _ eq_refl).
Qed.

(** ** Discovery *)

Lemma in_sorted (n : string) (l : list string) :
  In n (Backtester.sorted l) <-> In n l.
Proof.
  split; apply Permutation_in; [apply Permutation_sym |]; apply sorted_perm.
Qed.

Lemma in_snoc (A : Type) (x y : A) (l : list A) : In x (l ++ [y]) <-> In x l \/ y = x.
Proof. rewrite in_app_iff. simpl. tauto. Qed.

(** The directories that [discover_strategies_from_filesystem] keeps. *)
Lemma listed_dirs_in (n : string) (entries : list (string * FS.node)) (acc : list string) :
  In n (fold_left
          (fun strategies e =>
             let (dir_name, strategy_dir) := e : string * FS.node in
             if FS.is_dir strategy_dir && negb (Text.startswith dir_name ".")
             then if FS.exists_ [(dir_name ++ ".py")%string] strategy_dir
                  then strategies ++ [dir_name]
                  else strategies
             else strategies)
          entries acc)
  <-> In n acc
      \/ exists d, In (n, d) entries /\ FS.is_dir d = true
                   /\ Text.startswith n "." = false
                   /\ FS.exists_ [(n ++ ".py")%string] d = true.
Proof.
  revert acc. induction entries as [| [m d] entries IH]; intros acc.
  - simpl. split; [auto | intros [H | (d & [] & _)]; exact H].
  - simpl fold_left. rewrite IH. clear IH.
    destruct (FS.is_dir d) eqn:Hd; simpl.
    + destruct (Text.startswith m ".") eqn:Hs; simpl.
      * split; intros [H | (d' & H & H1 & H2 & H3)]; auto.
        -- right. exists d'. simpl. auto.
        -- destruct H as [H | H].
           ++ injection H as -> ->. congruence.
           ++ right. exists d'. auto.
      * destruct (FS.exists_ [(m ++ ".py")%string] d) eqn:He.
        -- rewrite in_snoc. split.
           ++ intros [[H | ->] | (d' & H & H')]; auto.
              ** right. exists d. simpl. auto.
              ** right. exists d'. simpl. auto.
           ++ intros [H | (d' & [H | H] & H1 & H2 & H3)]; auto.
              ** injection H as -> ->. auto.
              ** right. exists d'. auto.
        -- split; intros [H | (d' & H & H1 & H2 & H3)]; auto.
           ++ right. exists d'. simpl. auto.
           ++ destruct H as [H | H].
              ** injection H as -> ->. congruence.
              ** right. exists d'. auto.
    + split; intros [H | (d' & H & H1 & H2 & H3)]; auto.
      * right. exists d'. simpl. auto.
      * destruct H as [H | H].
        -- injection H as -> ->. congruence.
        -- right. exists d'. auto.
Qed.

(** X8. [discover_strategies_from_filesystem] returns, sorted, exactly
    the names of the entries of [user_data/strategies] that are directories,
    do not start with a dot and hold a file or directory [<name>.py]; each
    one once when the names of the directory are distinct; and nothing when
    there is no such directory. *)
Theorem discover_strategies_from_filesystem_spec
        (root : FS.node) (strategies : list string) :
  Backtester.discover_strategies_from_filesystem root = Ok strategies ->
  Spec.ordered strategies
  /\ (FS.lookup Backtester.strategies_dir root = None -> strategies = [])
  /\ (forall entries,
         FS.lookup Backtester.strategies_dir root = Some (FS.Dir entries) ->
         (forall n,
             In n strategies <->
             exists d, In (n, d) entries /\ FS.is_dir d = true
                       /\ Text.startswith n "." = false
                       /\ FS.exists_ [(n ++ ".py")%string] d = true)
         /\ (NoDup (map fst entries) -> NoDup strategies)).
Proof.
  unfold Backtester.discover_strategies_from_filesystem.
  destruct (FS.lookup Backtester.strategies_dir root) as [[t k | entries] |];
    intros H; [discriminate | |]; injection H as <-.
  - split; [apply sorted_ordered |]. split; [discriminate |].
    intros entries' H. injection H as <-. split.
    + intros n. rewrite in_sorted, listed_dirs_in. simpl. tauto.
    + intros Hnd. apply sorted_nodup. now apply listed_dirs_nodup.
  - split; [constructor |]. split; [reflexivity | discriminate].
Qed.

Lemma listed_names_in (n : string) (lines : list string) (acc : list string) :
  In n (fold_left
          (fun strategies line =>
             let strategy := Text.strip line in
             if negb (strategy =? "") && negb (Text.startswith strategy "2025-")
             then strategies ++ [strategy]
             else strategies)
          lines acc)
  <-> In n acc
      \/ exists line, In line lines /\ n = Text.strip line /\ n <> ""%string
                      /\ Text.startswith n "2025-" = false.
Proof.
  revert acc. induction lines as [| line lines IH]; intros acc.
  - simpl. split; [auto | intros [H | (l & [] & _)]; exact H].
  - simpl fold_left. rewrite IH. clear IH.
    destruct (String.eqb_spec (Text.strip line) "") as [He | He]; simpl.
    + split; intros [H | (l & H & H1 & H2 & H3)]; auto.
      * right. exists l. simpl. auto.
      * destruct H as [<- | H]; [congruence | right; exists l; auto].
    + destruct (Text.startswith (Text.strip line) "2025-") eqn:Hs; simpl.
      * split; intros [H | (l & H & H1 & H2 & H3)]; auto.
        -- right. exists l. simpl. auto.
        -- destruct H as [<- | H]; [congruence | right; exists l; auto].
      * rewrite in_snoc. split.
        -- intros [[H | <-] | (l & H & H')]; auto.
           ++ right. exists line. simpl. auto.
           ++ right. exists l. simpl. auto.
        -- intros [H | (l & [<- | H] & H1 & H2 & H3)]; auto.
           right. exists l. auto.
Qed.

(** The test of [get_compatible_strategies] on a line of [grep], and the
    name it takes from it. *)
Lemma compatible_names_in (n : string) (lines : list string) (acc : list string) :
  In n (fold_left
          (fun compatible_strategies line =>
             if negb (Text.strip line =? "") && Text.contains ".py:" line
             then match Text.split ":" line with
                  | file_path :: _ =>
                      if Text.endswith file_path ".py"
                      then let strategy_name := Backtester.parent_name file_path in
                           if existsb (String.eqb strategy_name) compatible_strategies
                           then compatible_strategies
                           else compatible_strategies ++ [strategy_name]
                      else compatible_strategies
                  | [] => compatible_strategies
                  end
             else compatible_strategies)
          lines acc)
  <-> In n acc
      \/ exists line file_path rest,
          In line lines /\ Text.strip line <> ""%string
          /\ Text.contains ".py:" line = true
          /\ Text.split ":" line = file_path :: rest
          /\ Text.endswith file_path ".py" = true
          /\ n = Backtester.parent_name file_path.
Proof.
  revert acc. induction lines as [| line lines IH]; intros acc.
  - simpl. split; [auto | intros [H | (l & f & r & [] & _)]; exact H].
  - simpl fold_left. rewrite IH. clear IH.
    assert (Hskip : forall P : Prop,
               ~ P ->
               (forall f r, Text.strip line <> ""%string
                            /\ Text.contains ".py:" line = true
                            /\ Text.split ":" line = f :: r
                            /\ Text.endswith f ".py" = true
                            /\ n = Backtester.parent_name f -> P) ->
               (In n acc
                \/ (exists l f r,
                       In l lines /\ Text.strip l <> ""%string
                       /\ Text.contains ".py:" l = true
                       /\ Text.split ":" l = f :: r
                       /\ Text.endswith f ".py" = true
                       /\ n = Backtester.parent_name f))
               <-> (In n acc
                    \/ (exists l f r,
                           In l (line :: lines) /\ Text.strip l <> ""%string
                           /\ Text.contains ".py:" l = true
                           /\ Text.split ":" l = f :: r
                           /\ Text.endswith f ".py" = true
                           /\ n = Backtester.parent_name f))).
    { intros P HP Himp. split; intros [H | (l & f & r & H & H')]; auto.
      - right. exists l, f, r. simpl. auto.
      - destruct H as [<- | H]; [exfalso; exact (HP (Himp f r H')) |].
        right. exists l, f, r. auto. }
    destruct (String.eqb_spec (Text.strip line) "") as [He | He]; simpl.
    { apply (Hskip False); [tauto | intros f r (H & _); auto]. }
    destruct (Text.contains ".py:" line) eqn:Hc.
    2:{ apply (Hskip False); [tauto | intros f r (_ & H & _); discriminate]. }
    destruct (Text.split ":" line) as [| file_path rest] eqn:Hsp.
    { apply (Hskip False); [tauto | intros f r (_ & _ & H & _); discriminate]. }
    destruct (Text.endswith file_path ".py") eqn:Hend.
    2:{ apply (Hskip False); [tauto |].
        intros f r (_ & _ & H & H' & _). injection H as <- <-. congruence. }
    destruct (existsb (String.eqb (Backtester.parent_name file_path)) acc) eqn:Hex.
    + apply existsb_exists in Hex. destruct Hex as (x & Hx & Heq).
      apply String.eqb_eq in Heq. subst x.
      split; intros [H | (l & f & r & H & H')]; auto.
      * right. exists l, f, r. simpl. auto.
      * destruct H as [<- | H]; [| right; exists l, f, r; auto].
        destruct H' as (_ & _ & H1 & _ & ->). rewrite Hsp in H1.
        injection H1 as <- <-. now left.
    + rewrite in_snoc. split.
      * intros [[H | <-] | (l & f & r & H & H')]; auto.
        -- right. exists line, file_path, rest. simpl. auto 10.
        -- right. exists l, f, r. simpl. auto.
      * intros [H | (l & f & r & [<- | H] & H')]; auto.
        -- destruct H' as (_ & _ & H1 & _ & ->). rewrite Hsp in H1.
           injection H1 as <- <-. auto.
        -- right. exists l, f, r. auto.
Qed.

(** X9. [get_compatible_strategies] never raises and returns a sorted
    sequence without repetition; it is empty unless [grep] exits with 0,
    and then it holds exactly the names of the parent directories of the
    files [....py] that [grep] reports. *)
Theorem get_compatible_strategies_spec (env : Backtester.Env) (s : Backtester.State) :
  let compatible := fst (Backtester.get_compatible_strategies env s) in
  let out :=
    fst (fst (Backtester.run env
                ["grep"; "-r"; "populate_entry_trend";
                 FS.path_str Backtester.strategies_dir] 30 (Backtester.fs s))) in
  Spec.ordered compatible
  /\ NoDup compatible
  /\ (forall r,
         out = Backtester.Returned r ->
         Backtester.returncode r = 0%Z ->
         forall n,
           In n compatible <->
           exists line file_path rest,
             In line (Text.split Backtester.newline (Backtester.stdout r))
             /\ Text.strip line <> ""%string
             /\ Text.contains ".py:" line = true
             /\ Text.split ":" line = file_path :: rest
             /\ Text.endswith file_path ".py" = true
             /\ n = Backtester.parent_name file_path)
  /\ ((forall r, out = Backtester.Returned r -> Backtester.returncode r <> 0%Z) ->
      compatible = []).
Proof.
  intros compatible out.
  split; [apply get_compatible_strategies_sorted_nodup |].
  split; [apply get_compatible_strategies_sorted_nodup |].
  subst compatible out.
  unfold Backtester.get_compatible_strategies, Backtester.subprocess_run.
  destruct (Backtester.run env _ 30 (Backtester.fs s)) as [[[r | e] root] t]; simpl.
  - split.
    + intros r' H Hz. injection H as <-. rewrite Hz. simpl.
      intros n. rewrite in_sorted. unfold Backtester.compatible_names.
      rewrite compatible_names_in. simpl. tauto.
    + intros H. specialize (H r eq_refl).
      destruct (Z.eqb_spec (Backtester.returncode r) 0); [contradiction | reflexivity].
  - split; [discriminate | reflexivity].
Qed.

(** X10. With [compatible_only] off and a listing command of
    [freqtrade] that exits with 0, [discover_strategies] returns, sorted,
    exactly the stripped lines of its stripped output that are not empty
    and do not start with [2025-]. *)
Theorem discover_strategies_listed
        (env : Backtester.Env) (self : Backtester.Config) (s : Backtester.State)
        (r : Backtester.Completed) (root : FS.node) (elapsed : Q) :
  Backtester.run env
    ["freqtrade"; "list-strategies"; "--one-column"; "--config";
     Backtester.config_path self] (Backtester.discovery_timeout self) (Backtester.fs s)
  = (Backtester.Returned r, root, elapsed) ->
  Backtester.returncode r = 0%Z ->
  exists strategies,
    fst (Backtester.discover_strategies env self false s) = Ok strategies
    /\ Spec.ordered strategies
    /\ forall n,
        In n strategies <->
        exists line,
          In line (Text.split Backtester.newline (Text.strip (Backtester.stdout r)))
          /\ n = Text.strip line /\ n <> ""%string
          /\ Text.startswith n "2025-" = false.
Proof.
  intros Hrun Hz.
  unfold Backtester.discover_strategies, Backtester.subprocess_run.
  rewrite Hrun, Hz. simpl. eexists. split; [reflexivity |].
  split; [apply sorted_ordered |].
  intros n. rewrite in_sorted. unfold Backtester.listed_names.
  rewrite listed_names_in. simpl. tauto.
Qed.

(** X11. Whenever the listing command does not exit with 0 (another exit
    code, a timeout, any other error) [discover_strategies] gives what
    [discover_strategies_from_filesystem] gives on the files the command
    left, a raised [NotADirectoryError] included; it has started that one
    command. *)
Theorem discover_strategies_fallback
        (env : Backtester.Env) (self : Backtester.Config) (s : Backtester.State)
        (out : Backtester.outcome) (root : FS.node) (elapsed : Q) :
  Backtester.run env
    ["freqtrade"; "list-strategies"; "--one-column"; "--config";
     Backtester.config_path self] (Backtester.discovery_timeout self) (Backtester.fs s)
  = (out, root, elapsed) ->
  (forall r, out = Backtester.Returned r -> Backtester.returncode r <> 0%Z) ->
  let found := Backtester.discover_strategies env self false s in
  fst found = Backtester.discover_strategies_from_filesystem root
  /\ Backtester.fs (snd found) = root
  /\ Backtester.spawned (snd found)
     = ["freqtrade"; "list-strategies"; "--one-column"; "--config";
        Backtester.config_path self] :: Backtester.spawned s.
Proof.
  intros Hrun Hout found. subst found.
  unfold Backtester.discover_strategies, Backtester.subprocess_run.
  rewrite Hrun. destruct out as [r | e]; simpl.
  - specialize (Hout r eq_refl).
    destruct (Z.eqb_spec (Backtester.returncode r) 0); [contradiction |].
    destruct (Backtester.discover_strategies_from_filesystem root) eqn:E; simpl; auto.
  - auto.
Qed.

(** ** The parser and white space *)

Lemma rstrip_idempotent (s : string) : Text.rstrip (Text.rstrip s) = Text.rstrip s.
Proof.
  induction s as [| c s IH]; [reflexivity |].
  simpl. destruct (Text.rstrip s) as [| a r] eqn:E.
  - destruct (Text.is_space c) eqn:Hc; simpl; [reflexivity | now rewrite Hc].
  - change (Text.rstrip (String c (String a r)))
      with (match Text.rstrip (String a r) with
            | EmptyString => if Text.is_space c then EmptyString else String c EmptyString
            | x => String c x
            end).
    now rewrite IH.
Qed.

Lemma lstrip_head (s : string) :
  match Text.lstrip s with
  | EmptyString => True
  | String c _ => Text.is_space c = false
  end.
Proof.
  induction s as [| c s IH]; simpl; [exact I |].
  destruct (Text.is_space c) eqn:E; [exact IH | exact E].
Qed.

Lemma rstrip_head (s : string) :
  match s with
  | EmptyString => True
  | String c _ => Text.is_space c = false
  end ->
  match Text.rstrip s with
  | EmptyString => True
  | String c _ => Text.is_space c = false
  end.
Proof.
  destruct s as [| c s]; [trivial |]. simpl. intros Hc.
  destruct (Text.rstrip s); [rewrite Hc |]; exact Hc.
Qed.

Lemma lstrip_fixed (s : string) :
  match s with
  | EmptyString => True
  | String c _ => Text.is_space c = false
  end -> Text.lstrip s = s.
Proof. destruct s as [| c s]; [trivial |]. simpl. now intros ->. Qed.

Lemma strip_idempotent (s : string) : Text.strip (Text.strip s) = Text.strip s.
Proof.
  unfold Text.strip.
  rewrite (lstrip_fixed _ (rstrip_head _ (lstrip_head s))).
  apply rstrip_idempotent.
Qed.

(** X12. The parser does not see the white space around a line: two
    sequences of lines that agree once each line is stripped lead from any
    record to the same record, so an output parses as the output with every
    line stripped, and as the same output with other indentation or line
    ends. *)
Theorem parse_lines_stripped
        (strategy_name : string) (lines lines' : list string)
        (metrics : list (string * Json)) :
  map Text.strip lines = map Text.strip lines' ->
  Backtester.parse_lines strategy_name lines metrics
  = Backtester.parse_lines strategy_name lines' metrics
  /\ Backtester.parse_lines strategy_name (map Text.strip lines) metrics
     = Backtester.parse_lines strategy_name lines metrics.
Proof.
  assert (Hline : forall raw raw' m,
             Text.strip raw = Text.strip raw' ->
             Backtester.parse_line strategy_name raw m
             = Backtester.parse_line strategy_name raw' m).
  { intros raw raw' m H. unfold Backtester.parse_line. now rewrite H. }
  assert (Hall : forall l l' m,
             map Text.strip l = map Text.strip l' ->
             Backtester.parse_lines strategy_name l m
             = Backtester.parse_lines strategy_name l' m).
  { induction l as [| raw l IH]; intros [| raw' l'] m H; try discriminate;
      [reflexivity |].
    simpl in H. injection H as H H'. simpl.
    rewrite (Hline raw raw' m H).
    destruct (Backtester.parse_line strategy_name raw' m); [now apply IH | reflexivity]. }
  intros H. split; [now apply Hall |].
  apply Hall. rewrite map_map. apply map_ext. intros raw. apply strip_idempotent.
Qed.

(** X13. The block of the [Backtested a -> b] line stores both dates or
    neither: either the record is left as it is, or [backtest_start] and
    [backtest_end] become two stripped texts, and no other field
    changes. *)
Theorem backtested_row_dates (line : string) (metrics : list (string * Json)) :
  let after := Backtester.backtested_row line metrics in
  after = metrics
  \/ exists start_date end_date,
      Py.dict_get "backtest_start" after = Some (JStr start_date)
      /\ Py.dict_get "backtest_end" after = Some (JStr end_date)
      /\ Text.strip start_date = start_date
      /\ Text.strip end_date = end_date
      /\ forall k, k <> "backtest_start"%string -> k <> "backtest_end"%string ->
                   Py.dict_get k after = Py.dict_get k metrics.
Proof.
  unfold Backtester.backtested_row.
  destruct (Backtester.item (Text.split "Backtested" line) 1) as [after |]; [| now left].
  destruct (Backtester.item (Text.split "|" after) 0) as [before |]; [| now left].
  destruct (Text.contains "->" (Text.strip before)); [| now left].
  destruct (Text.split "->" (Text.strip before)) as [| a [| b [| c l]]];
    try (now left).
  right. exists (Text.strip a), (Text.strip b).
  rewrite !dict_get_set. simpl.
  split; [reflexivity |]. split; [reflexivity |].
  split; [apply strip_idempotent |]. split; [apply strip_idempotent |].
  intros k H1 H2. rewrite !dict_get_set.
  destruct (String.eqb_spec k "backtest_end"); [contradiction |].
  destruct (String.eqb_spec k "backtest_start"); [contradiction | reflexivity].
Qed.

(** ** The records of the shared utilities *)

Lemma dict_set_shaped (dir_name k : string) (v : Json) (m : list (string * Json)) :
  In k (map fst (Utils.default_metrics dir_name)) ->
  map fst m = map fst (Utils.default_metrics dir_name) ->
  map fst (Py.dict_set k v m) = map fst (Utils.default_metrics dir_name).
Proof. intros Hk Hm. rewrite dict_set_keys; [exact Hm | now rewrite Hm]. Qed.

Ltac keep_shape :=
  repeat (apply dict_set_shaped; [simpl; tauto |]).

Lemma with_pairs_shaped (dir_name : string) (data m m' : list (string * Json)) :
  Utils.with_pairs data m = Some m' ->
  map fst m = map fst (Utils.default_metrics dir_name) ->
  map fst m' = map fst (Utils.default_metrics dir_name).
Proof.
  unfold Utils.with_pairs. intros H Hm. revert H.
  destruct (Py.truthy (Utils.field data "best_pair" (JDict []))).
  - destruct (Py.get _ "key" _) as [k1 |]; [| discriminate].
    destruct (Py.truthy (Utils.field data "worst_pair" (JDict []))).
    + destruct (Py.get _ "key" _) as [k2 |]; [| discriminate].
      intros H. injection H as <-. keep_shape. exact Hm.
    + intros H. injection H as <-. keep_shape. exact Hm.
  - destruct (Py.truthy (Utils.field data "worst_pair" (JDict []))).
    + destruct (Py.get _ "key" _) as [k2 |]; [| discriminate].
      intros H. injection H as <-. keep_shape. exact Hm.
    + intros H. injection H as <-. exact Hm.
Qed.

Lemma logged_number (m m' : list (string * Json)) :
  Utils.logged m = Some m' ->
  Py.formats_as_float (Utils.field m' "total_profit_percent" JNull) = true.
Proof.
  unfold Utils.logged.
  destruct (Py.formats_as_float _) eqn:E; [| discriminate].
  intros H. injection H as <-. exact E.
Qed.

Lemma from_comparison_shaped (dir_name : string)
      (data comparison m m' : list (string * Json)) :
  Utils.from_comparison data comparison m = Some m' ->
  map fst m = map fst (Utils.default_metrics dir_name) ->
  map fst m' = map fst (Utils.default_metrics dir_name)
  /\ Py.formats_as_float (Utils.field m' "total_profit_percent" JNull) = true.
Proof.
  unfold Utils.from_comparison. intros H Hm. revert H.
  destruct (Py.times_100 _) as [w |]; [| discriminate].
  destruct (Py.times_100 _) as [d |]; [| discriminate].
  destruct (Py.times_100 _) as [c |]; [| discriminate].
  match goal with
  | |- context [Utils.with_pairs data ?x] =>
      destruct (Utils.with_pairs data x) as [m1 |] eqn:Hp; [| discriminate]
  end.
  intros H. split; [| eapply logged_number; exact H].
  apply logged_same in H. subst m'.
  eapply with_pairs_shaped; [exact Hp |].
  destruct (Py.dict_get "backtest_start" data); unfold Py.dict_update; simpl fold_left;
    keep_shape; exact Hm.
Qed.

Lemma from_root_shaped (dir_name : string) (data m m' : list (string * Json)) :
  Utils.from_root data m = Some m' ->
  map fst m = map fst (Utils.default_metrics dir_name) ->
  map fst m' = map fst (Utils.default_metrics dir_name)
  /\ Py.formats_as_float (Utils.field m' "total_profit_percent" JNull) = true.
Proof.
  unfold Utils.from_root. intros H Hm. revert H.
  destruct (Py.times_100 _) as [w |]; [| discriminate].
  destruct (Py.times_100 _) as [d |]; [| discriminate].
  match goal with
  | |- context [Utils.with_pairs data ?x] =>
      destruct (Utils.with_pairs data x) as [m1 |] eqn:Hp; [| discriminate]
  end.
  destruct (Py.over_100 _) as [r |]; [| discriminate].
  destruct (Py.times_float _ _) as [p |]; [| discriminate].
  destruct (Py.int_of_float _) as [n |]; [| discriminate].
  destruct (Py.minus_int _ _) as [l |]; [| discriminate].
  intros H. split; [| eapply logged_number; exact H].
  apply logged_same in H. subst m'.
  keep_shape.
  eapply with_pairs_shaped; [exact Hp |].
  unfold Py.dict_update; simpl fold_left. keep_shape. exact Hm.
Qed.

(** X14. Every record that [parse_strategy_json_data] returns has the
    shape of its defaults: the same 23 fields in the same order, the name of
    the directory under [strategy], and a number under
    [total_profit_percent]; and there is one only for a directory whose
    [.last_result.json] can be read. *)
Theorem parse_strategy_json_data_shape
        (dir_name : string) (strategy_dir : FS.node) (metrics : list (string * Json)) :
  Utils.parse_strategy_json_data dir_name strategy_dir = Some metrics ->
  map fst metrics = map fst (Utils.default_metrics dir_name)
  /\ List.length metrics = 23
  /\ Py.dict_get "strategy" metrics = Some (JStr dir_name)
  /\ Py.formats_as_float (Utils.field metrics "total_profit_percent" JNull) = true
  /\ exists entries pointer last_result,
      strategy_dir = FS.Dir entries
      /\ FS.entry ".last_result.json" entries = Some pointer
      /\ FS.load_json pointer = Some last_result.
Proof.
  intros H.
  assert (Hshape : map fst metrics = map fst (Utils.default_metrics dir_name)
                   /\ Py.formats_as_float
                        (Utils.field metrics "total_profit_percent" JNull) = true
                   /\ Py.dict_get "strategy" metrics = Some (JStr dir_name)
                   /\ exists entries pointer last_result,
                       strategy_dir = FS.Dir entries
                       /\ FS.entry ".last_result.json" entries = Some pointer
                       /\ FS.load_json pointer = Some last_result).
  { revert H. unfold Utils.parse_strategy_json_data.
    destruct strategy_dir as [text kind | entries]; [discriminate |].
    destruct (FS.entry ".last_result.json" entries) as [f |] eqn:Ef; [| discriminate].
    destruct (FS.load_json f) as [last |] eqn:El; [| discriminate].
    destruct (Py.get last "latest_backtest" JNull) as [latest |]; [| discriminate].
    destruct (negb (Py.truthy latest)); [discriminate |].
    destruct (Py.as_str latest) as [latest' |]; [| discriminate].
    destruct (Utils.load_backtest_data entries latest') as [data |]; [| discriminate].
    destruct (negb (Py.truthy data)); [discriminate |].
    destruct (Py.has_key "strategy" data) as [h |]; [| discriminate].
    destruct (negb h); [discriminate |].
    destruct (Py.get data "strategy" (JDict [])) as [sd |]; [| discriminate].
    destruct (negb (Py.truthy sd)); [discriminate |].
    destruct data as [| b | z | fl | t | l | d]; try discriminate.
    destruct (Py.truthy (Utils.field d "strategy_comparison" (JList []))).
    - destruct (Utils.field d "strategy_comparison" (JList []))
        as [| b | z | fl | t | [| [| b | z | fl | t | l | cd] rest] | dd];
        try discriminate.
      intros H.
      destruct (@from_comparison_shaped dir_name _ _ _ _ H eq_refl) as [H1 H2].
      apply from_comparison_strategy in H.
      split; [exact H1 |]. split; [exact H2 |]. split; [exact H |]. eauto 10.
    - destruct (Py.dict_get "total_trades" d); [| discriminate].
      intros H.
      destruct (@from_root_shaped dir_name _ _ _ H eq_refl) as [H1 H2].
      apply from_root_strategy in H.
      split; [exact H1 |]. split; [exact H2 |]. split; [exact H |]. eauto 10. }
  destruct Hshape as (H1 & H2 & H3 & H4).
  split; [exact H1 |]. split; [| now split; [| split]].
  rewrite <- (length_map fst), H1. reflexivity.
Qed.

(** ** The scans of the shared utilities *)

Lemma fold_left_invariant (A B : Type) (f : A -> B -> A) (P : A -> Prop)
      (l : list B) (a : A) :
  (forall a x, P a -> P (f a x)) -> P a -> P (fold_left f l a).
Proof. intros Hf. revert a. induction l as [| x l IH]; simpl; auto. Qed.

Lemma fold_left_reached (A B : Type) (f : A -> B -> A) (P Q : A -> Prop)
      (l : list B) (x0 : B) (a : A) :
  In x0 l ->
  (forall a x, P a -> P (f a x)) ->
  (forall a x, P a -> Q a -> Q (f a x)) ->
  (forall a, P a -> Q (f a x0)) ->
  P a -> Q (fold_left f l a).
Proof.
  intros Hin HP HQ H0. revert a.
  induction l as [| x l IH]; [contradiction |]. intros a Ha. simpl.
  destruct Hin as [-> | Hin]; [| apply IH; auto].
  assert (Hboth : P (f a x0) /\ Q (f a x0)) by (split; auto).
  clear IH Ha. revert Hboth. generalize (f a x0). clear a.
  induction l as [| y l IH]; intros a [Hp Hq]; simpl; [exact Hq |].
  apply IH. split; auto.
Qed.

Lemma lookup_some_key (s : string) (v : Json) (d : list (Json * Json)) :
  Py.lookup (JStr s) d = Some v -> In (JStr s) (map fst d).
Proof.
  induction d as [| [k w] d IH]; simpl; [discriminate |].
  destruct (Py.eq k (JStr s)) eqn:E; [| auto].
  intros _. left. now apply eq_str.
Qed.

Lemma lookup_none_store (k v : Json) (d : list (Json * Json)) :
  Py.lookup k d = None -> Py.store k v d = (d ++ [(k, v)])%list.
Proof.
  induction d as [| [k' w] d IH]; simpl; [reflexivity |].
  destruct (Py.eq k' k); [discriminate |]. intros H. now rewrite IH.
Qed.

Lemma store_str_keys (s : string) (v : Json) (d : list (Json * Json)) :
  forall x, In x (map fst (Py.store (JStr s) v d)) <-> In x (map fst d) \/ x = JStr s.
Proof.
  induction d as [| [k w] d IH]; intros x; simpl.
  - intuition congruence.
  - destruct (Py.eq k (JStr s)) eqn:E; simpl.
    + apply eq_str in E. subst k. intuition congruence.
    + rewrite IH. tauto.
Qed.

(** The names and the keys grow together. *)
Lemma directory_step_names (acc : list Json * list (Json * Json))
      (e : string * FS.node) :
  (forall x, In x (fst acc) <-> In x (map fst (snd acc))) ->
  forall x, In x (fst (Utils.directory_step acc e))
            <-> In x (map fst (snd (Utils.directory_step acc e))).
Proof.
  destruct acc as [names results], e as [dir_name dir]. simpl. intros H.
  destruct (negb (FS.is_dir dir) || (dir_name =? "individual_results")); [exact H |].
  destruct (Utils.parse_strategy_json_data dir_name dir) as [metrics |] eqn:Ep;
    [| exact H].
  rewrite (parse_strategy_json_data_strategy _ _ Ep). simpl.
  intros x. rewrite in_snoc, store_str_keys, H. intuition congruence.
Qed.

Lemma cache_step_names (acc : list Json * list (Json * Json))
      (e : string * FS.node) :
  (forall x, In x (fst acc) <-> In x (map fst (snd acc))) ->
  forall x, In x (fst (Utils.cache_step acc e))
            <-> In x (map fst (snd (Utils.cache_step acc e))).
Proof.
  destruct acc as [names results], e as [file_name file]. simpl. intros H.
  destruct (FS.load_json file) as [record |]; [| exact H].
  destruct (Py.get record "strategy" _) as [k |]; [| exact H].
  destruct (Py.hashable k); [| exact H].
  destruct (Py.lookup k results) eqn:El; [exact H |]. simpl.
  intros x. rewrite lookup_none_store by exact El.
  rewrite map_app. simpl. rewrite !in_snoc, H. tauto.
Qed.

Lemma distinct_in (x : Json) (l : list Json) : In x (Py.distinct l) -> In x l.
Proof.
  revert x. induction l as [| y l IH]; intros x; simpl; [auto |].
  intros [H | H]; [now left |]. apply filter_In in H. right. now apply IH.
Qed.

Lemma distinct_in_str (s : string) (l : list Json) :
  In (JStr s) l -> In (JStr s) (Py.distinct l).
Proof.
  induction l as [| y l IH]; simpl; [auto |].
  intros [H | H]; [now left |].
  destruct (Py.eq y (JStr s)) eqn:E.
  - left. now apply eq_str in E.
  - right. apply filter_In. split; [now apply IH | now rewrite E].
Qed.

Lemma insert_by_perm (A : Type) (le : A -> A -> bool) (x : A) (l : list A) :
  Permutation (x :: l) (Py.insert_by le x l).
Proof.
  induction l as [| y l IH]; simpl; [reflexivity |].
  destruct (le x y); [reflexivity |].
  rewrite perm_swap. now apply perm_skip.
Qed.

Lemma sort_by_perm (A : Type) (le : A -> A -> bool) (l : list A) :
  Permutation l (Py.sort_by le l).
Proof.
  induction l as [| x l IH]; simpl; [reflexivity |].
  rewrite <- insert_by_perm. now apply perm_skip.
Qed.

Lemma all_some_as_str (l : list Json) (strs : list string) :
  Py.all_some Py.as_str l = Some strs -> l = map JStr strs.
Proof.
  revert strs. induction l as [| x l IH]; intros strs; simpl.
  - intros H. now injection H as <-.
  - destruct x as [| b | z | f | t | l0 | d]; simpl; try discriminate.
    destruct (Py.all_some Py.as_str l) as [ys |]; [| discriminate].
    intros H. injection H as <-. simpl. now rewrite (IH ys eq_refl).
Qed.

Lemma sorted_in (l l' : list Json) :
  Py.sorted l = Some l' -> forall x, In x l' <-> In x l.
Proof.
  unfold Py.sorted. destruct l as [| a [| b l]].
  - intros H. injection H as <-. tauto.
  - intros H. injection H as <-. tauto.
  - destruct (Py.all_some Py.as_str (a :: b :: l)) as [strs |] eqn:Es.
    + intros H. injection H as <-. intros x.
      rewrite (all_some_as_str _ Es).
      split; apply Permutation_in; apply Permutation_map;
        [apply Permutation_sym |]; exact (@sort_by_perm _ _ strs).
    + destruct (Py.all_some Py.number (a :: b :: l)); [| discriminate].
      intros H. injection H as <-. intros x.
      split; apply Permutation_in; [apply Permutation_sym |];
        exact (@sort_by_perm _ _ (a :: b :: l)).
Qed.

(** A cache file that can be read and names its strategy leaves that
    strategy under a key of the map. *)
Lemma scan_cache_reached
      (files : list (string * FS.node)) (acc : list Json * list (Json * Json))
      (file_name : string) (cache_file : FS.node) (record : Json) (s : string) :
  In (file_name, cache_file) files ->
  FS.load_json cache_file = Some record ->
  Py.get record "strategy" (JStr (Text.replace "_result" "" (FS.stem file_name)))
  = Some (JStr s) ->
  exists v, Py.lookup (JStr s) (snd (Utils.scan_cache files acc)) = Some v.
Proof.
  intros Hin Hl Hg. unfold Utils.scan_cache.
  apply fold_left_reached
    with (P := fun _ => True)
         (Q := fun a => exists v, Py.lookup (JStr s) (snd a) = Some v)
         (x0 := (file_name, cache_file)); auto.
  - intros a x _ [v Hv]. exists v. now apply cache_step_keeps.
  - intros [ns rs] _. simpl. rewrite Hl, Hg. simpl.
    destruct (Py.lookup (JStr s) rs) as [v |] eqn:E; simpl; [eauto |].
    eexists. apply lookup_store_str.
Qed.

Lemma discover_all_successful_strategies_cached
      (results_dir : FS.path) (root : FS.node)
      (names : list Json) (results : list (Json * Json))
      (file_name : string) (cache_file : FS.node) (record : Json) (s : string) :
  Utils.discover_all_successful_strategies results_dir root = Some (names, results) ->
  In (file_name, cache_file) (Utils.cached_files results_dir "_result.json" root) ->
  FS.load_json cache_file = Some record ->
  Py.get record "strategy" (JStr (Text.replace "_result" "" (FS.stem file_name)))
  = Some (JStr s) ->
  exists v, Py.lookup (JStr s) results = Some v.
Proof.
  unfold Utils.discover_all_successful_strategies.
  destruct (FS.lookup results_dir root) as [[t k | entries] |] eqn:El;
    [discriminate | |].
  2:{ intros _ Hin. exfalso. revert Hin.
      unfold Utils.cached_files, Utils.individual_results_dir.
      rewrite lookup_app, El. simpl. tauto. }
  intros H Hin Hl Hg.
  pose proof (@scan_cache_reached _ (Utils.scan_directories entries) _ _ _ _
                Hin Hl Hg) as Hr.
  destruct (Utils.scan_cache (Utils.cached_files results_dir "_result.json" root)
              (Utils.scan_directories entries)) as [found stored].
  destruct (Py.sorted (Py.distinct found)) as [ordered |]; [| discriminate].
  injection H as <- <-. exact Hr.
Qed.

(** X15. The two results of [discover_all_successful_strategies] agree:
    every name it returns is a key of the map it returns, and every key
    that is a text is among the names.  And no cached result is lost: a
    file [*_result.json] of the cache that can be read and names its
    strategy has that strategy among the names and under a key of the
    map. *)
Theorem discover_all_successful_strategies_agree
        (results_dir : FS.path) (root : FS.node)
        (names : list Json) (results : list (Json * Json)) :
  Utils.discover_all_successful_strategies results_dir root = Some (names, results) ->
  (forall x, In x names -> In x (map fst results))
  /\ (forall s, In (JStr s) (map fst results) -> In (JStr s) names)
  /\ (forall file_name cache_file record s,
         In (file_name, cache_file) (Utils.cached_files results_dir "_result.json" root) ->
         FS.load_json cache_file = Some record ->
         Py.get record "strategy" (JStr (Text.replace "_result" "" (FS.stem file_name)))
         = Some (JStr s) ->
         In (JStr s) names /\ exists v, Py.lookup (JStr s) results = Some v).
Proof.
  intros H.
  assert (Hcached : forall file_name cache_file record s,
             In (file_name, cache_file)
                (Utils.cached_files results_dir "_result.json" root) ->
             FS.load_json cache_file = Some record ->
             Py.get record "strategy"
                    (JStr (Text.replace "_result" "" (FS.stem file_name)))
             = Some (JStr s) ->
             exists v, Py.lookup (JStr s) results = Some v).
  { intros file_name cache_file record s Hin Hl Hg.
    eapply discover_all_successful_strategies_cached; eassumption. }
  assert (Hagree : (forall x, In x names -> In x (map fst results))
                   /\ (forall s, In (JStr s) (map fst results) -> In (JStr s) names)).
  { revert H. unfold Utils.discover_all_successful_strategies.
    destruct (FS.lookup results_dir root) as [[t k | entries] |];
      [discriminate | |].
    2:{ intros H. injection H as <- <-. split; tauto. }
    destruct (Utils.scan_cache (Utils.cached_files results_dir "_result.json" root)
                (Utils.scan_directories entries)) as [found stored] eqn:Es.
    destruct (Py.sorted (Py.distinct found)) as [ordered |] eqn:Eo; [| discriminate].
    intros H. injection H as <- <-.
    assert (Hinv : forall x,
               In x (fst (Utils.scan_cache
                            (Utils.cached_files results_dir "_result.json" root)
                            (Utils.scan_directories entries)))
               <-> In x (map fst (snd (Utils.scan_cache
                                         (Utils.cached_files results_dir "_result.json"
                                                             root)
                                         (Utils.scan_directories entries))))).
    { unfold Utils.scan_cache, Utils.scan_directories.
      apply fold_left_invariant
        with (P := fun a => forall x, In x (fst a) <-> In x (map fst (snd a)));
        [apply cache_step_names |].
      apply fold_left_invariant
        with (P := fun a => forall x, In x (fst a) <-> In x (map fst (snd a)));
        [apply directory_step_names |].
      simpl. tauto. }
    rewrite Es in Hinv. simpl in Hinv. split.
    - intros x Hx. apply Hinv. apply distinct_in. now apply (sorted_in _ Eo).
    - intros s Hs. apply (sorted_in _ Eo). apply distinct_in_str. now apply Hinv. }
  destruct Hagree as [Hkeys Hnames].
  split; [exact Hkeys |]. split; [exact Hnames |].
  intros file_name cache_file record s Hin Hl Hg.
  destruct (Hcached _ _ _ _ Hin Hl Hg) as [v Hv].
  split; [| now exists v].
  apply Hnames. now apply (lookup_some_key _ _ Hv).
Qed.

Lemma already_failed_dicts (strategy_name : Json) (failed : list Json) :
  Forall (fun fs => exists fields, fs = JDict fields) failed ->
  exists b, Utils.already_failed strategy_name failed = Some b.
Proof.
  induction 1 as [| fs l [fields ->] _ [b IH]]; simpl; [eauto |].
  destruct (Py.eq _ strategy_name); eauto.
Qed.

Lemma already_failed_true (strategy_name : Json) (failed : list Json) :
  Utils.already_failed strategy_name failed = Some true ->
  exists fs v, In fs failed /\ Py.get fs "strategy" JNull = Some v
               /\ Py.eq v strategy_name = true.
Proof.
  induction failed as [| fs l IH]; simpl; [discriminate |].
  destruct (Py.get fs "strategy" JNull) as [v |] eqn:E; [| discriminate].
  destruct (Py.eq v strategy_name) eqn:Ev.
  - intros _. exists fs, v. auto.
  - intros H. destruct (IH H) as (fs' & v' & H1 & H2). exists fs', v'. auto.
Qed.

Lemma already_failed_false (s : string) (failed : list Json) :
  Utils.already_failed (JStr s) failed = Some false ->
  Spec.records_of s failed = [].
Proof.
  induction failed as [| fs l IH]; simpl; [reflexivity |].
  destruct (Py.get fs "strategy" JNull) as [v |] eqn:E; [| discriminate].
  destruct (Py.eq v (JStr s)) eqn:Ev; [discriminate | exact IH].
Qed.

Lemma records_of_app (s : string) (a b : list Json) :
  Spec.records_of s (a ++ b) = (Spec.records_of s a ++ Spec.records_of s b)%list.
Proof. apply filter_app. Qed.

(** The loop of [get_failed_strategies] over the directories gives one
    record for each directory it selects. *)
Lemma failed_directories_records (now s : string) (entries : list (string * FS.node))
      (acc : list Json) :
  ~ In s (map fst entries) \/ (Spec.records_of s acc = [] /\ NoDup (map fst entries)) ->
  List.length (Spec.records_of s acc) <= 1 ->
  Forall (fun fs => exists fields, fs = JDict fields) acc ->
  let failed :=
    fold_left
      (fun failed_strategies e =>
         let (dir_name, strategy_dir) := e : string * FS.node in
         match strategy_dir with
         | FS.Dir files =>
             if dir_name =? "individual_results" then failed_strategies
             else match Utils.parse_strategy_json_data dir_name strategy_dir with
                  | Some _ => failed_strategies
                  | None =>
                      if existsb Utils.failed_indicator files
                      then (failed_strategies
                            ++ [JDict [ ("strategy", JStr dir_name);
                                        ("error", JStr "Backtest failed");
                                        ("failed_timestamp", JStr now) ]])%list
                      else failed_strategies
                  end
         | FS.File _ _ => failed_strategies
         end)
      entries acc in
  List.length (Spec.records_of s failed) <= 1
  /\ Forall (fun fs => exists fields, fs = JDict fields) failed.
Proof.
  revert acc. induction entries as [| [dir_name dir] entries IH]; intros acc Hs Hl Hd;
    [simpl; auto |].
  simpl fold_left.
  assert (Hs' : ~ In s (map fst entries)
                \/ (Spec.records_of s acc = [] /\ NoDup (map fst entries))).
  { destruct Hs as [Hs | [Hs Hn]]; [left; simpl in Hs; tauto |].
    right. split; [exact Hs |]. simpl in Hn. now inversion Hn. }
  destruct dir as [t k | files]; [now apply IH |].
  destruct (dir_name =? "individual_results"); [now apply IH |].
  destruct (Utils.parse_strategy_json_data dir_name (FS.Dir files)); [now apply IH |].
  destruct (existsb Utils.failed_indicator files); [| now apply IH].
  apply IH.
  - destruct (String.eqb_spec dir_name s) as [-> | Hne].
    + left. destruct Hs as [Hs | [Hs Hn]]; [simpl in Hs; tauto |].
      simpl in Hn. now inversion Hn.
    + destruct Hs' as [Hs' | [Hs' Hn]]; [now left |]. right. split; [| exact Hn].
      rewrite records_of_app, Hs'. simpl.
      destruct (String.eqb_spec dir_name s); [contradiction | reflexivity].
  - rewrite records_of_app, length_app. simpl.
    destruct (String.eqb_spec dir_name s) as [-> | Hne]; simpl; [| lia].
    destruct Hs as [Hs | [Hs Hn]]; [simpl in Hs; tauto |]. rewrite Hs. simpl. lia.
  - apply Forall_app. split; [exact Hd |]. constructor; [eauto | constructor].
Qed.

(** A failure file of the cache that can be read is in the list, unless
    a record of its strategy was there before. *)
Lemma get_failed_strategies_cached
      (results_dir : FS.path) (now : string) (root : FS.node) (failed : list Json)
      (file_name : string) (failed_file : FS.node) (record strategy_name : Json) :
  Utils.get_failed_strategies results_dir now root = Some failed ->
  In (file_name, failed_file) (Utils.cached_files results_dir "_failed.json" root) ->
  FS.load_json failed_file = Some record ->
  Py.get record "strategy" (JStr (Text.replace "_failed" "" (FS.stem file_name)))
  = Some strategy_name ->
  In record failed
  \/ exists fs v, In fs failed /\ Py.get fs "strategy" JNull = Some v
                  /\ Py.eq v strategy_name = true.
Proof.
  unfold Utils.get_failed_strategies.
  destruct (FS.lookup results_dir root) as [[t k | entries] |] eqn:El;
    [discriminate | |].
  2:{ intros _ Hin. exfalso. revert Hin.
      unfold Utils.cached_files, Utils.individual_results_dir.
      rewrite lookup_app, El. simpl. tauto. }
  intros H. injection H as <-.
  match goal with
  | |- context [fold_left ?step (Utils.cached_files results_dir "_failed.json" root) ?start] =>
      set (cache_step := step); set (from_directories := start)
  end.
  assert (Hdirs : Forall (fun fs => exists fields, fs = JDict fields) from_directories).
  { subst from_directories. apply fold_left_invariant; [| constructor].
    intros a [dir_name [t k | files]] Ha; [exact Ha |].
    destruct (dir_name =? "individual_results"); [exact Ha |].
    destruct (Utils.parse_strategy_json_data dir_name (FS.Dir files)); [exact Ha |].
    destruct (existsb Utils.failed_indicator files); [| exact Ha].
    apply Forall_app. split; [exact Ha |]. constructor; [eauto | constructor]. }
  assert (Hstep : forall a x,
             Forall (fun fs => exists fields, fs = JDict fields) a ->
             Forall (fun fs => exists fields, fs = JDict fields) (cache_step a x)).
  { intros a [fn ff] Ha. subst cache_step. simpl.
    destruct (FS.load_json ff) as [rec |]; [| exact Ha].
    destruct rec as [| b | z | f | t | l | fields]; simpl; try exact Ha.
    destruct (Utils.already_failed _ a) as [[|] |]; try exact Ha.
    apply Forall_app. split; [exact Ha |]. constructor; [eauto | constructor]. }
  intros Hin Hl Hg.
  apply fold_left_reached
    with (P := Forall (fun fs => exists fields, fs = JDict fields))
         (Q := fun a => In record a
                        \/ exists fs v, In fs a /\ Py.get fs "strategy" JNull = Some v
                                        /\ Py.eq v strategy_name = true)
         (x0 := (file_name, failed_file)); auto.
  - intros a [fn ff] Ha Hq. subst cache_step. simpl.
    assert (Hgrow : forall r, In r a -> forall x, In r (a ++ [x])).
    { intros r Hr x. apply in_or_app. now left. }
    destruct (FS.load_json ff) as [rec |]; [| exact Hq].
    destruct (Py.get rec "strategy" _) as [nm |]; [| exact Hq].
    destruct (Utils.already_failed nm a) as [[|] |]; try exact Hq.
    destruct Hq as [Hq | (fs & v & Hq & Hq')]; [left; auto |].
    right. exists fs, v. auto.
  - intros a Ha. subst cache_step. simpl. rewrite Hl, Hg.
    destruct (already_failed_dicts strategy_name Ha) as [[|] Hb]; rewrite Hb.
    + right. now apply already_failed_true.
    + left. apply in_or_app. right. now left.
Qed.

(** X16. What [get_failed_strategies] returns: records that are all
    [dict]s; for a failure file [*_failed.json] of the cache that can be
    read and is a [dict], that record itself or an earlier record of the
    same strategy; and, when the names of the results directory are
    distinct, at most one record for a strategy name. *)
Theorem get_failed_strategies_records
        (results_dir : FS.path) (now : string) (root : FS.node) (failed : list Json) :
  Utils.get_failed_strategies results_dir now root = Some failed ->
  Forall (fun fs => exists fields, fs = JDict fields) failed
  /\ (forall file_name failed_file record strategy_name,
         In (file_name, failed_file)
            (Utils.cached_files results_dir "_failed.json" root) ->
         FS.load_json failed_file = Some record ->
         Py.get record "strategy" (JStr (Text.replace "_failed" "" (FS.stem file_name)))
         = Some strategy_name ->
         In record failed
         \/ exists fs v, In fs failed /\ Py.get fs "strategy" JNull = Some v
                         /\ Py.eq v strategy_name = true)
  /\ (forall entries,
         FS.lookup results_dir root = Some (FS.Dir entries) ->
         NoDup (map fst entries) ->
         forall s, List.length (Spec.records_of s failed) <= 1).
Proof.
  intros H.
  assert (Hcached : forall file_name failed_file record strategy_name,
             In (file_name, failed_file)
                (Utils.cached_files results_dir "_failed.json" root) ->
             FS.load_json failed_file = Some record ->
             Py.get record "strategy"
                    (JStr (Text.replace "_failed" "" (FS.stem file_name)))
             = Some strategy_name ->
             In record failed
             \/ exists fs v, In fs failed /\ Py.get fs "strategy" JNull = Some v
                             /\ Py.eq v strategy_name = true).
  { intros file_name failed_file record strategy_name Hin Hl Hg.
    eapply get_failed_strategies_cached; eassumption. }
  revert H.
  unfold Utils.get_failed_strategies.
  destruct (FS.lookup results_dir root) as [[t k | entries] |] eqn:El;
    [discriminate | |].
  2:{ intros H. injection H as <-.
      split; [constructor |]. split; [exact Hcached | discriminate]. }
  intros H. injection H as <-.
  match goal with
  | |- context [fold_left ?step (Utils.cached_files results_dir "_failed.json" root) ?start] =>
      set (cache_step := step); set (from_directories := start)
  end.
  assert (Hdirs : Forall (fun fs => exists fields, fs = JDict fields) from_directories).
  { subst from_directories. apply fold_left_invariant; [| constructor].
    intros a [dir_name [t k | files]] Ha; [exact Ha |].
    destruct (dir_name =? "individual_results"); [exact Ha |].
    destruct (Utils.parse_strategy_json_data dir_name (FS.Dir files)); [exact Ha |].
    destruct (existsb Utils.failed_indicator files); [| exact Ha].
    apply Forall_app. split; [exact Ha |]. constructor; [eauto | constructor]. }
  assert (Hstep : forall a x,
             Forall (fun fs => exists fields, fs = JDict fields) a ->
             Forall (fun fs => exists fields, fs = JDict fields) (cache_step a x)).
  { intros a [file_name failed_file] Ha. subst cache_step. simpl.
    destruct (FS.load_json failed_file) as [record |]; [| exact Ha].
    destruct record as [| b | z | f | t | l | fields]; simpl; try exact Ha.
    destruct (Utils.already_failed _ a) as [[|] |]; try exact Ha.
    apply Forall_app. split; [exact Ha |]. constructor; [eauto | constructor]. }
  split; [| split; [exact Hcached |]].
  - apply fold_left_invariant; assumption.
  - intros entries' Hl Hnd s. injection Hl as <-.
    assert (Hfrom : List.length (Spec.records_of s from_directories) <= 1).
    { subst from_directories.
      apply (@failed_directories_records now s entries []); simpl; auto. }
    enough (Hboth : Forall (fun fs => exists fields, fs = JDict fields)
                      (fold_left cache_step
                         (Utils.cached_files results_dir "_failed.json" root)
                         from_directories)
                    /\ List.length
                         (Spec.records_of s
                            (fold_left cache_step
                               (Utils.cached_files results_dir "_failed.json" root)
                               from_directories)) <= 1)
      by exact (proj2 Hboth).
    apply fold_left_invariant
      with (P := fun a => Forall (fun fs => exists fields, fs = JDict fields) a
                          /\ List.length (Spec.records_of s a) <= 1);
      [| now split].
    intros a [fn ff] [Ha Hn]. split; [now apply Hstep |].
    subst cache_step. simpl.
    destruct (FS.load_json ff) as [rec |]; [| exact Hn].
    destruct (Py.get rec "strategy" _) as [nm |] eqn:Eg; [| exact Hn].
    destruct (Utils.already_failed nm a) as [[|] |] eqn:Ea; try exact Hn.
    rewrite records_of_app, length_app.
    unfold Spec.records_of at 2. simpl.
    destruct (Py.get rec "strategy" JNull) as [v |] eqn:Ev; [| simpl; lia].
    destruct (Py.eq v (JStr s)) eqn:Es; [| simpl; lia].
    apply eq_str in Es. subst v.
    destruct rec as [| b | z | f | t | l | fields]; try discriminate.
    simpl in Eg, Ev.
    destruct (Py.dict_get "strategy" fields) as [w |]; [| discriminate].
    injection Ev as ->. injection Eg as <-.
    rewrite (already_failed_false _ _ Ea). simpl. lia.
Qed.

(** ** Loading what earlier runs left *)

Lemma store_keeps_str (s : string) (k v : Json) (d : list (Json * Json)) :
  (exists w, Py.lookup (JStr s) d = Some w) ->
  exists w, Py.lookup (JStr s) (Py.store k v d) = Some w.
Proof.
  intros [w Hw]. destruct (Py.eq k (JStr s)) eqn:E.
  - apply eq_str in E. subst k. eexists. apply lookup_store_str.
  - exists w. rewrite lookup_store_other; [exact Hw |].
    intros ->. rewrite (proj2 (eq_str (JStr s) s) eq_refl) in E. discriminate.
Qed.

Lemma fallback_results_reached
      (files : list (string * FS.node)) (start : list (Json * Json))
      (file_name : string) (cache_file : FS.node) (record : Json) (s : string) :
  In (file_name, cache_file) files ->
  FS.load_json cache_file = Some record ->
  Py.get record "strategy" (JStr (Text.replace "_result" "" (FS.stem file_name)))
  = Some (JStr s) ->
  exists v, Py.lookup (JStr s) (fold_left Housekeeping.fallback_result_step files start)
            = Some v.
Proof.
  intros Hin Hl Hg.
  apply fold_left_reached
    with (P := fun _ => True)
         (Q := fun a => exists v, Py.lookup (JStr s) a = Some v)
         (x0 := (file_name, cache_file)); auto.
  - intros a [fn f] _ Hq. unfold Housekeeping.fallback_result_step.
    destruct (FS.load_json f) as [r |]; [| exact Hq].
    destruct (Py.get r "strategy" _) as [k |]; [| exact Hq].
    destruct (Py.hashable k); [| exact Hq].
    now apply store_keeps_str.
  - intros a _. unfold Housekeeping.fallback_result_step. rewrite Hl, Hg. simpl.
    eexists. apply lookup_store_str.
Qed.

Lemma fallback_failed_reached
      (files : list (string * FS.node)) (start : list Json)
      (file_name : string) (failed_file : FS.node) (record : Json) :
  In (file_name, failed_file) files ->
  FS.load_json failed_file = Some record ->
  In record (fold_left Housekeeping.fallback_failed_step files start).
Proof.
  intros Hin Hl.
  apply fold_left_reached
    with (P := fun _ => True) (Q := fun a => In record a)
         (x0 := (file_name, failed_file)); auto.
  - intros a [fn f] _ Hq. unfold Housekeeping.fallback_failed_step. simpl.
    destruct (FS.load_json f); [apply in_or_app; now left | exact Hq].
  - intros a _. unfold Housekeeping.fallback_failed_step. simpl. rewrite Hl.
    apply in_or_app. right. now left.
Qed.

(** X17. [collect_all_results] brings back what the cache records,
    whether it scans with the shared utilities or falls back: the strategy
    of every result file [*_result.json] that can be read is completed, the
    strategy of every failure file [*_failed.json] that names it has
    failed; so, without the retry of failures, [get_strategies_to_process]
    never asks again for a strategy with such a result file. *)
Theorem collect_all_results_cached
        (utils_found : bool) (now : string) (root : FS.node) :
  let memory := Housekeeping.collect_all_results utils_found now root in
  (forall file_name cache_file record s,
      In (file_name, cache_file)
         (Utils.cached_files Backtester.results_dir "_result.json" root) ->
      FS.load_json cache_file = Some record ->
      Py.get record "strategy" (JStr (Text.replace "_result" "" (FS.stem file_name)))
      = Some (JStr s) ->
      Spec.completed memory s
      /\ forall all_strategies to_process,
          Backtester.get_strategies_to_process memory all_strategies false
          = Some to_process ->
          ~ In s to_process)
  /\ (forall file_name failed_file fields s,
         In (file_name, failed_file)
            (Utils.cached_files Backtester.results_dir "_failed.json" root) ->
         FS.load_json failed_file = Some (JDict fields) ->
         Py.dict_get "strategy" fields = Some (JStr s) ->
         Spec.failed memory s).
Proof.
  intros memory.
  assert (Hdone : forall file_name cache_file record s,
             In (file_name, cache_file)
                (Utils.cached_files Backtester.results_dir "_result.json" root) ->
             FS.load_json cache_file = Some record ->
             Py.get record "strategy"
                    (JStr (Text.replace "_result" "" (FS.stem file_name)))
             = Some (JStr s) ->
             Spec.completed memory s).
  { intros file_name cache_file record s Hin Hl Hg. unfold Spec.completed.
    assert (Hfb : In (JStr s)
                     (map fst (Backtester.results
                                 (Housekeeping.collect_all_results_fallback root)))).
    { destruct (fallback_results_reached _ [] _ _ Hin Hl Hg) as [v Hv].
      eapply lookup_some_key. exact Hv. }
    subst memory. unfold Housekeeping.collect_all_results.
    destruct utils_found; [| exact Hfb].
    destruct (Utils.collect_all_results Backtester.results_dir now root)
      as [[successes failures] |] eqn:Ec; [| exact Hfb].
    unfold Utils.collect_all_results in Ec.
    destruct (Utils.discover_all_successful_strategies Backtester.results_dir root)
      as [[names results] |] eqn:Ed; [| discriminate].
    destruct (Utils.get_failed_strategies Backtester.results_dir now root);
      [| discriminate].
    injection Ec as <- <-. simpl.
    destruct (@discover_all_successful_strategies_cached _ _ _ _ _ _ _ _ Ed Hin Hl Hg)
      as [v Hv].
    eapply lookup_some_key. exact Hv. }
  split.
  - intros file_name cache_file record s Hin Hl Hg.
    pose proof (Hdone _ _ _ _ Hin Hl Hg) as Hc. split; [exact Hc |].
    intros all_strategies to_process.
    unfold Backtester.get_strategies_to_process.
    destruct (Backtester.failed_names _) as [names |]; [| discriminate].
    intros H. injection H as <-. rewrite app_nil_r, filter_In.
    intros [_ Hp]. apply Bool.andb_true_iff in Hp. destruct Hp as [Hp _].
    apply Bool.negb_true_iff in Hp. apply member_str in Hc. congruence.
  - intros file_name failed_file fields s Hin Hl Hg. unfold Spec.failed.
    assert (Hget : forall default, Py.get (JDict fields) "strategy" default
                                   = Some (JStr s)).
    { intros default. simpl. now rewrite Hg. }
    assert (Hfb : exists fs,
               In fs (Backtester.failed_strategies
                        (Housekeeping.collect_all_results_fallback root))
               /\ Py.get fs "strategy" JNull = Some (JStr s)).
    { exists (JDict fields). split; [| apply Hget].
      exact (fallback_failed_reached _ [] _ _ Hin Hl). }
    subst memory. unfold Housekeeping.collect_all_results.
    destruct utils_found; [| exact Hfb].
    destruct (Utils.collect_all_results Backtester.results_dir now root)
      as [[successes failures] |] eqn:Ec; [| exact Hfb].
    unfold Utils.collect_all_results in Ec.
    destruct (Utils.discover_all_successful_strategies Backtester.results_dir root)
      as [[names results] |]; [| discriminate].
    destruct (Utils.get_failed_strategies Backtester.results_dir now root)
      as [failed |] eqn:Ef; [| discriminate].
    injection Ec as <- <-. simpl.
    destruct (@get_failed_strategies_cached _ _ _ _ _ _ _ _ Ef Hin Hl (Hget _))
      as [Hr | (fs & v & Hr & Hv & He)].
    + exists (JDict fields). split; [exact Hr | apply Hget].
    + apply eq_str in He. subst v. eauto.
Qed.

(** ** Where the worker writes *)

Lemma write_apart (d : FS.path) (x : string) (f : FS.node) (root root' : FS.node)
      (c : FS.path) (n m : string) (r q : FS.path) :
  FS.write (d ++ [x]) f root = Ok root' ->
  d = (c ++ n :: r)%list -> n <> m ->
  FS.lookup (c ++ m :: q) root' = FS.lookup (c ++ m :: q) root.
Proof.
  unfold FS.write. destruct (parent_name_app d x) as [-> ->].
  destruct (FS.in_dir d _ root) as [e | root''] eqn:E; [discriminate |].
  intros H -> Hn. injection H as <-. eapply in_dir_apart; [exact Hn | exact E].
Qed.

Lemma mkdir_apart (d : FS.path) (x : string) (root root' : FS.node)
      (c : FS.path) (n m : string) (r q : FS.path) :
  FS.mkdir (d ++ [x]) root = Ok root' ->
  d = (c ++ n :: r)%list -> n <> m ->
  FS.lookup (c ++ m :: q) root' = FS.lookup (c ++ m :: q) root.
Proof.
  unfold FS.mkdir. destruct (parent_name_app d x) as [-> ->].
  destruct (FS.in_dir d _ root) as [e | root''] eqn:E; [discriminate |].
  intros H -> Hn. injection H as <-. eapply in_dir_apart; [exact Hn | exact E].
Qed.

Lemma leaves_ret (A : Type) (p : FS.path) (a : A) : Spec.leaves p (Backtester.ret a).
Proof. intros s. reflexivity. Qed.

Lemma leaves_gets (A : Type) (p : FS.path) (f : Backtester.State -> A) :
  Spec.leaves p (Backtester.gets f).
Proof. intros s. reflexivity. Qed.

Lemma leaves_lift (A : Type) (p : FS.path) (x : result A) :
  Spec.leaves p (Backtester.lift x).
Proof. intros s. reflexivity. Qed.

Lemma leaves_bind (A B : Type) (p : FS.path) (c : Backtester.M A)
      (k : A -> Backtester.M B) :
  Spec.leaves p c -> (forall a, Spec.leaves p (k a)) ->
  Spec.leaves p (Backtester.bind c k).
Proof.
  intros Hc Hk s. unfold Backtester.bind. specialize (Hc s).
  destruct (c s) as [[a | e] s1]; simpl in Hc; [| exact Hc].
  specialize (Hk a s1). unfold Spec.unchanged_at in *. congruence.
Qed.

Lemma leaves_total (A : Type) (p : FS.path) (f : Backtester.State -> A * Backtester.State) :
  (forall s, Spec.unchanged_at p s (snd (f s))) -> Spec.leaves p (Backtester.total f).
Proof.
  intros Hf s. unfold Backtester.total. specialize (Hf s).
  destruct (f s) as [a s1]. exact Hf.
Qed.

Section Apart.

Variable env : Backtester.Env.
Variable self : Backtester.Config.

(** A path [c ++ m :: q] that leaves [results_dir] at a component. *)
Variables (c : FS.path) (n m : string) (r q : FS.path).
Hypothesis Hresults : Backtester.results_dir = (c ++ n :: r)%list.
Hypothesis Hapart : n <> m.

(** The commands leave the files as they are. *)
Hypothesis Hrun :
  forall cmd timeout root, snd (fst (Backtester.run env cmd timeout root)) = root.

Lemma dump_apart (d : FS.path) (x : string) (v : Json) (s : Backtester.State) :
  (exists r', d = (c ++ n :: r')%list) ->
  Spec.unchanged_at (c ++ m :: q) s (Backtester.dump env (d ++ [x]) v s).
Proof.
  intros [r' Hd]. unfold Spec.unchanged_at, Backtester.dump.
  destruct (FS.write _ _ (Backtester.fs s)) as [root |] eqn:E; [| reflexivity].
  simpl. eapply write_apart; [exact E | exact Hd | exact Hapart].
Qed.

Lemma under_results (l : FS.path) :
  exists r', (Backtester.results_dir ++ l)%list = (c ++ n :: r')%list.
Proof. exists (r ++ l)%list. rewrite Hresults, <- app_assoc. reflexivity. Qed.

Lemma cleanup_apart (strategy_name : string) (s : Backtester.State) :
  Spec.unchanged_at (c ++ m :: q) s
    (Backtester.cleanup_failed_strategy_directory
       (Backtester.strategy_results_dir strategy_name) strategy_name s).
Proof.
  unfold Spec.unchanged_at.
  destruct (cleanup_failed_strategy_directory_cases
              (Backtester.strategy_results_dir strategy_name) strategy_name s)
    as [-> | ->]; [reflexivity |].
  simpl. unfold Backtester.strategy_results_dir.
  destruct (under_results [strategy_name]) as [r' ->].
  now apply lookup_remove_apart.
Qed.

Lemma abandon_apart (strategy_name : string) (record : list (string * Json))
      (s : Backtester.State) :
  Spec.unchanged_at (c ++ m :: q) s (Backtester.abandon env strategy_name record s).
Proof.
  unfold Backtester.abandon.
  pose proof (cleanup_apart strategy_name
                (Backtester.save_failed_result env strategy_name (JDict record) s)) as H1.
  assert (H2 : Spec.unchanged_at (c ++ m :: q) s
                 (Backtester.save_failed_result env strategy_name (JDict record) s)).
  { unfold Backtester.save_failed_result, Backtester.failed_file.
    apply dump_apart. apply (under_results ["individual_results"]). }
  unfold Spec.unchanged_at in *. congruence.
Qed.

Lemma subprocess_run_apart (cmd : list string) (timeout : Z) :
  Spec.leaves (c ++ m :: q) (Backtester.subprocess_run env cmd timeout).
Proof.
  intros s. unfold Spec.unchanged_at, Backtester.subprocess_run.
  pose proof (Hrun cmd timeout (Backtester.fs s)) as H.
  destruct (Backtester.run env cmd timeout (Backtester.fs s)) as [[[x | e] root] t];
    simpl in *; now subst.
Qed.

Lemma get_freqtrade_version_apart (s : Backtester.State) :
  Spec.unchanged_at (c ++ m :: q) s (snd (Backtester.get_freqtrade_version env s)).
Proof.
  unfold Backtester.get_freqtrade_version.
  pose proof (subprocess_run_apart ["freqtrade"; "--version"] 10 s) as H.
  destruct (Backtester.subprocess_run env ["freqtrade"; "--version"] 10 s)
    as [[x | e] s']; exact H.
Qed.

Lemma on_fs_mkdir_apart (strategy_name : string) :
  Spec.leaves (c ++ m :: q)
    (Backtester.on_fs (FS.mkdir (Backtester.strategy_results_dir strategy_name))).
Proof.
  intros s. unfold Spec.unchanged_at, Backtester.on_fs.
  destruct (FS.mkdir _ (Backtester.fs s)) as [root |] eqn:E; [| reflexivity].
  simpl. destruct (under_results []) as [r' Hr]. rewrite app_nil_r in Hr.
  eapply mkdir_apart; [exact E | exact Hr | exact Hapart].
Qed.

Lemma on_fs_write_apart (strategy_name x : string) (f : FS.node) :
  Spec.leaves (c ++ m :: q)
    (Backtester.on_fs
       (FS.write (Backtester.strategy_results_dir strategy_name ++ [x]) f)).
Proof.
  intros s. unfold Spec.unchanged_at, Backtester.on_fs.
  destruct (FS.write _ _ (Backtester.fs s)) as [root |] eqn:E; [| reflexivity].
  simpl. destruct (under_results [strategy_name]) as [r' Hr].
  eapply write_apart; [exact E | exact Hr | exact Hapart].
Qed.

Lemma execute_apart (strategy_name : string) :
  Spec.leaves (c ++ m :: q) (Backtester.execute env self strategy_name).
Proof.
  unfold Backtester.execute.
  apply leaves_bind; [apply on_fs_mkdir_apart | intros _].
  apply leaves_bind.
  { apply leaves_total. intros s. unfold Spec.unchanged_at.
    unfold Backtester.detect_strategy_timeframe.
    now destruct (Backtester.cached strategy_name (Backtester.timeframe_cache s)). }
  intros detected_timeframe.
  apply leaves_bind; [apply leaves_gets | intros start_time].
  apply leaves_bind; [apply subprocess_run_apart | intros x].
  apply leaves_bind; [apply leaves_gets | intros end_time].
  destruct (Backtester.returncode x =? 0)%Z.
  - apply leaves_bind; [apply leaves_lift | intros metrics].
    apply leaves_bind; [apply leaves_gets | intros stamp].
    apply leaves_bind;
      [apply leaves_total; apply get_freqtrade_version_apart | intros version].
    apply leaves_bind; [apply on_fs_write_apart | intros _].
    apply leaves_bind; [| intros _; apply leaves_ret].
    apply leaves_total. intros s. simpl.
    unfold Backtester.save_strategy_result, Backtester.get_strategy_result_file.
    apply dump_apart. apply (under_results ["individual_results"]).
  - apply leaves_bind; [apply leaves_gets | intros stamp].
    apply leaves_bind; [| intros _; apply leaves_ret].
    apply leaves_total. intros s. simpl. apply abandon_apart.
Qed.

(** X18. The worker writes to its log file and below the results
    directory only: for an identifier that is one name of a path, and when
    the commands it starts leave the files as they are, a path other than
    the log file that leaves [user_data/backtest_results] at some component
    ([user_data/strategies], the configuration, ...) leads after a call of
    [run_backtest_worker] to what it led to before. *)
Theorem run_backtest_worker_writes_results_only
        (strategy_name : string) (s : Backtester.State) :
  Spec.component strategy_name ->
  (c ++ m :: q)%list <> Spec.log_file ->
  Spec.unchanged_at (c ++ m :: q) s
    (snd (Backtester.run_backtest_worker env self strategy_name s)).
Proof.
  intros _ _.
  assert (Ha : Spec.leaves (c ++ m :: q) (Backtester.attempt env self strategy_name)).
  { unfold Backtester.attempt.
    apply leaves_bind; [apply leaves_gets | intros [result |]];
      [| apply execute_apart].
    destruct (Py.truthy result); [apply leaves_ret | apply execute_apart]. }
  unfold Backtester.run_backtest_worker. specialize (Ha s).
  destruct (Backtester.attempt env self strategy_name s) as [[x | [| text]] s1];
    simpl in *; [exact Ha | |];
    match goal with
    | |- Spec.unchanged_at _ _ (Backtester.abandon _ _ ?record _) =>
        pose proof (abandon_apart strategy_name record s1) as Hb
    end;
    unfold Spec.unchanged_at in *; congruence.
Qed.

End Apart.

(** ** The window of a failure record, the order of the names *)

(** X19. A failure that [run_backtest_worker] records is for the active
    window too: whenever the call returns no result, the record it built
    and tried to save names the strategy and stores the active start and
    end date in its configuration. *)
Theorem run_backtest_worker_failure_window
        (env : Backtester.Env) (self : Backtester.Config) (strategy_name : string)
        (s s' : Backtester.State) :
  Backtester.run_backtest_worker env self strategy_name s = (None, s') ->
  exists record s1,
    s' = Backtester.abandon env strategy_name record s1
    /\ Py.dict_get "strategy" record = Some (JStr strategy_name)
    /\ Spec.stored_bound (JDict record) "start_date"
       = Some (JStr (Backtester.start_date self))
    /\ Spec.stored_bound (JDict record) "end_date"
       = Some (JStr (Backtester.end_date self)).
Proof.
  unfold Backtester.run_backtest_worker.
  destruct (Backtester.attempt env self strategy_name s) as [[x | [| text]] s1] eqn:Ha;
    intros H.
  - injection H as -> <-.
    assert (He : Backtester.execute env self strategy_name s = (Ok None, s1)).
    { unfold Backtester.attempt, Backtester.bind, Backtester.gets in Ha.
      destruct (Backtester.load_existing_result self strategy_name (Backtester.fs s))
        as [result |]; [| exact Ha].
      destruct (Py.truthy result); [discriminate Ha | exact Ha]. }
    apply execute_none in He. destruct He as (x & tf & stamp & s0 & ->).
    eexists _, s0. split; [reflexivity |]. now repeat split.
  - injection H as <-. eexists _, s1. split; [reflexivity |]. now repeat split.
  - injection H as <-. eexists _, s1. split; [reflexivity |]. now repeat split.
Qed.

Lemma sort_by_sorted (l : list string) :
  Py.sort_by String.leb l = Backtester.sorted l.
Proof.
  induction l as [| x l IH]; [reflexivity |].
  change (Py.sort_by String.leb (x :: l))
    with (Py.insert_by String.leb x (Py.sort_by String.leb l)).
  rewrite IH. simpl. clear IH.
  induction (Backtester.sorted l) as [| y l' IH]; [reflexivity |].
  simpl. now rewrite IH.
Qed.

Lemma all_some_strings (l : list Json) :
  (forall x, In x l -> exists s, x = JStr s) ->
  exists strs, Py.all_some Py.as_str l = Some strs.
Proof.
  induction l as [| x l IH]; intros H; [now exists [] |].
  destruct (H x (or_introl eq_refl)) as [s ->].
  destruct IH as [strs Hs]; [intros y Hy; apply H; now right |].
  exists (s :: strs). simpl. now rewrite Hs.
Qed.

Lemma distinct_strings (l : list Json) (strs : list string) :
  Py.distinct l = map JStr strs -> NoDup strs.
Proof.
  revert strs. induction l as [| x l IH]; intros strs H.
  - destruct strs; [constructor | discriminate].
  - simpl in H. destruct strs as [| s strs]; [discriminate |].
    simpl in H. injection H as -> H.
    assert (Hall : forall y, In y (Py.distinct l) -> exists t, y = JStr t).
    { intros y Hy. destruct (Py.eq (JStr s) y) eqn:E.
      - exists s. now apply eq_str_l.
      - assert (Hin : In y (map JStr strs)).
        { rewrite <- H. apply filter_In. split; [exact Hy | now rewrite E]. }
        apply in_map_iff in Hin. destruct Hin as (t & <- & _). now exists t. }
    destruct (all_some_strings _ Hall) as [strs' Hs'].
    apply all_some_as_str in Hs'.
    specialize (IH strs' Hs'). rewrite Hs' in H.
    constructor.
    + intros Hin.
      assert (Hf : In (JStr s) (filter (fun y => negb (Py.eq (JStr s) y))
                                       (map JStr strs'))).
      { rewrite H. now apply in_map. }
      apply filter_In in Hf. destruct Hf as [_ Hf]. simpl in Hf.
      rewrite String.eqb_refl in Hf. discriminate.
    + assert (Hsub : strs = filter (fun t => negb (String.eqb s t)) strs').
      { clear - H. revert strs H.
        induction strs' as [| t l IH]; intros strs H; simpl in *.
        - destruct strs; [reflexivity | discriminate].
        - destruct (String.eqb s t); simpl in *; [now apply IH |].
          destruct strs as [| u strs]; [discriminate |].
          simpl in H. injection H as <- H. f_equal. now apply IH. }
      rewrite Hsub. now apply NoDup_filter.
Qed.

(** X20. When the names that [discover_all_successful_strategies]
    returns are all texts, they are in ascending order and no name comes
    twice. *)
Theorem discover_all_successful_strategies_names
        (results_dir : FS.path) (root : FS.node)
        (names : list Json) (results : list (Json * Json)) :
  Utils.discover_all_successful_strategies results_dir root = Some (names, results) ->
  (forall x, In x names -> exists s, x = JStr s) ->
  exists strs, names = map JStr strs /\ Spec.ordered strs /\ NoDup strs.
Proof.
  unfold Utils.discover_all_successful_strategies.
  destruct (FS.lookup results_dir root) as [[t k | entries] |]; [discriminate | |].
  2:{ intros H _. injection H as <- <-. exists []. repeat split; constructor. }
  destruct (Utils.scan_cache _ _) as [found stored].
  destruct (Py.sorted (Py.distinct found)) as [ordered |] eqn:Eo; [| discriminate].
  intros H Hstr. injection H as <- <-.
  assert (Hd : forall x, In x (Py.distinct found) -> exists s, x = JStr s).
  { intros x Hx. apply Hstr. now apply (sorted_in _ Eo). }
  destruct (all_some_strings _ Hd) as [strs Hs].
  pose proof (all_some_as_str _ Hs) as Hm.
  pose proof (distinct_strings _ _ Hm) as Hnd.
  exists (Backtester.sorted strs).
  split; [| split; [apply sorted_ordered | now apply sorted_nodup]].
  revert Eo. unfold Py.sorted. rewrite Hs, <- sort_by_sorted.
  destruct (Py.distinct found) as [| a [| b l]].
  - intros H. injection H as <-. destruct strs; [reflexivity | discriminate].
  - intros H. injection H as <-. destruct strs as [| u [| v strs]]; try discriminate.
    exact Hm.
  - intros H. now injection H as <-.
Qed.

(** ** The scan returns *)

Lemma fold_left_invariant_in (A B : Type) (f : A -> B -> A) (P : A -> Prop)
      (l : list B) (a : A) :
  (forall a x, In x l -> P a -> P (f a x)) -> P a -> P (fold_left f l a).
Proof.
  revert a. induction l as [| x l IH]; intros a Hf Ha; [exact Ha |].
  simpl. apply IH.
  - intros b y Hy. apply Hf. now right.
  - apply Hf; [now left | exact Ha].
Qed.

Lemma sorted_texts (l : list Json) :
  (forall x, In x l -> exists s, x = JStr s) -> exists l', Py.sorted l = Some l'.
Proof.
  intros H. destruct (all_some_strings _ H) as [strs Hs].
  unfold Py.sorted. rewrite Hs. destruct l as [| a [| b l]]; eauto.
Qed.

(** The names the scan collects are texts when the cache records name
    their strategies by texts. *)
Lemma scan_names_texts (results_dir : FS.path) (root : FS.node)
      (entries : list (string * FS.node)) :
  (forall file_name cache_file record k,
      In (file_name, cache_file) (Utils.cached_files results_dir "_result.json" root) ->
      FS.load_json cache_file = Some record ->
      Py.get record "strategy" (JStr (Text.replace "_result" "" (FS.stem file_name)))
      = Some k ->
      exists s, k = JStr s) ->
  forall x,
    In x (fst (Utils.scan_cache (Utils.cached_files results_dir "_result.json" root)
                                (Utils.scan_directories entries))) ->
    exists s, x = JStr s.
Proof.
  intros Htext. unfold Utils.scan_cache, Utils.scan_directories.
  apply fold_left_invariant_in
    with (P := fun a => forall x, In x (fst a) -> exists s, x = JStr s).
  - intros [names results] [file_name cache_file] Hin Ha. simpl.
    destruct (FS.load_json cache_file) as [record |] eqn:El; [| exact Ha].
    destruct (Py.get record "strategy" _) as [k |] eqn:Eg; [| exact Ha].
    destruct (Py.hashable k); [| exact Ha].
    destruct (Py.lookup k results); [exact Ha |]. simpl.
    intros x Hx. apply in_app_or in Hx. destruct Hx as [Hx | [<- | []]]; [now apply Ha |].
    exact (Htext _ _ _ _ Hin El Eg).
  - apply fold_left_invariant
      with (P := fun a => forall x, In x (fst a) -> exists s, x = JStr s);
      [| intros x []].
    intros [names results] [dir_name dir] Ha. simpl.
    destruct (negb (FS.is_dir dir) || (dir_name =? "individual_results")); [exact Ha |].
    destruct (Utils.parse_strategy_json_data dir_name dir) as [metrics |] eqn:Ep;
      [| exact Ha].
    rewrite (parse_strategy_json_data_strategy _ _ Ep). simpl.
    intros x Hx. apply in_app_or in Hx. destruct Hx as [Hx | [<- | []]]; [now apply Ha |].
    eauto.
Qed.

(** C9, as amended.  When the results directory (with distinct names)
    holds an artifact directory that yields a record for an identifier, the
    cache holds a record for the same identifier, and every cache record
    that can be read names its strategy by a text, the scan returns:
    [discover_all_successful_strategies] and [collect_all_results] give a
    success map that has exactly one entry for the identifier, the record
    of the artifact directory, and no two equal keys; the identifier is
    among the returned names. *)
Theorem directory_record_wins
        (results_dir : FS.path) (now : string) (root : FS.node)
        (entries : list (string * FS.node))
        (name : string) (dir : FS.node) (metrics : list (string * Json))
        (file_name : string) (cache_file : FS.node) (record : Json) :
  FS.lookup results_dir root = Some (FS.Dir entries) ->
  NoDup (map fst entries) ->
  In (name, dir) entries ->
  name <> "individual_results"%string ->
  Utils.parse_strategy_json_data name dir = Some metrics ->
  In (file_name, cache_file) (Utils.cached_files results_dir "_result.json" root) ->
  FS.load_json cache_file = Some record ->
  Py.get record "strategy" (JStr (Text.replace "_result" "" (FS.stem file_name)))
  = Some (JStr name) ->
  (forall other_name other_file other k,
      In (other_name, other_file)
         (Utils.cached_files results_dir "_result.json" root) ->
      FS.load_json other_file = Some other ->
      Py.get other "strategy" (JStr (Text.replace "_result" "" (FS.stem other_name)))
      = Some k ->
      exists s, k = JStr s) ->
  exists names results failures,
    Utils.discover_all_successful_strategies results_dir root = Some (names, results)
    /\ Utils.collect_all_results results_dir now root = Some (results, failures)
    /\ In (JStr name) names
    /\ Spec.entries_of name results = [(JStr name, JDict metrics)]
    /\ Spec.distinct_keys results.
Proof.
  intros Hdir Hnd Hin Hname Hp _ _ _ Htext.
  set (scan := Utils.scan_cache (Utils.cached_files results_dir "_result.json" root)
                                (Utils.scan_directories entries)).
  assert (Hisdir : FS.is_dir dir = true).
  { destruct dir; [discriminate Hp | reflexivity]. }
  assert (Hdistinct : Spec.distinct_keys (snd scan)).
  { unfold scan, Utils.scan_cache, Utils.scan_directories.
    apply fold_distinct; [exact cache_step_distinct |].
    apply fold_distinct; [exact directory_step_distinct | constructor]. }
  assert (Hfound : Py.lookup (JStr name) (snd scan) = Some (JDict metrics)).
  { unfold scan. apply scan_cache_keeps. unfold Utils.scan_directories.
    eapply scan_directories_found; eassumption. }
  assert (Hagree : forall x, In x (fst scan) <-> In x (map fst (snd scan))).
  { unfold scan, Utils.scan_cache, Utils.scan_directories.
    apply fold_left_invariant
      with (P := fun a => forall x, In x (fst a) <-> In x (map fst (snd a)));
      [apply cache_step_names |].
    apply fold_left_invariant
      with (P := fun a => forall x, In x (fst a) <-> In x (map fst (snd a)));
      [apply directory_step_names |].
    simpl. tauto. }
  destruct (@sorted_texts (Py.distinct (fst scan))) as [names Hsorted].
  { intros x Hx. apply (scan_names_texts _ _ entries Htext). now apply distinct_in. }
  assert (Hscan : Utils.discover_all_successful_strategies results_dir root
                  = Some (names, snd scan)).
  { unfold Utils.discover_all_successful_strategies. rewrite Hdir. fold scan.
    destruct scan as [found stored]. simpl in *. now rewrite Hsorted. }
  assert (Hfailed : exists failures,
             Utils.get_failed_strategies results_dir now root = Some failures).
  { unfold Utils.get_failed_strategies. rewrite Hdir. eauto. }
  destruct Hfailed as [failures Hfailed].
  exists names, (snd scan), failures.
  split; [exact Hscan |].
  split; [unfold Utils.collect_all_results; now rewrite Hscan, Hfailed |].
  split; [| split; [now apply one_entry | exact Hdistinct]].
  apply (sorted_in _ Hsorted). apply distinct_in_str. apply Hagree.
  now apply (lookup_some_key _ _ Hfound).
Qed.

(** ** The further properties on the sample worlds *)

(** The empty directories [A] and [C] go, the rest stays, and a second
    cleanup finds nothing to do. *)
Lemma cleanup_empty_directories_spec_witness :
  Backtester.fs (Housekeeping.cleanup_empty_directories
                   (Sample.state Sample.littered_tree))
  = Sample.tree [ ("individual_results", FS.Dir []);
                  ("B", FS.Dir [("B_output.txt", FS.File "done" FS.Plain)]);
                  ("notes.txt", FS.File "" FS.Plain) ]
  /\ Housekeeping.cleanup_empty_directories
       (Housekeeping.cleanup_empty_directories (Sample.state Sample.littered_tree))
     = Housekeeping.cleanup_empty_directories (Sample.state Sample.littered_tree).
Proof.
  split; [reflexivity |].
  destruct (@cleanup_empty_directories_spec (Sample.state Sample.littered_tree) _ eq_refl)
    as (kept & _ & _ & _ & H & _).
  exact H.
Defined.

Lemma get_strategies_to_process_cover_witness :
  Backtester.get_strategies_to_process Sample.memory ["A"; "B"; "C"] true
  = Some ["A"; "C"; "B"]
  /\ NoDup ["A"; "C"; "B"]%string.
Proof.
  split; [reflexivity |].
  apply (proj1 (proj2 (@get_strategies_to_process_cover
                         Sample.memory ["A"; "B"; "C"] true ["A"; "C"; "B"] eq_refl))).
  repeat constructor; simpl; intuition discriminate.
Defined.

Lemma run_backtest_worker_result_window_witness :
  exists result s',
    Backtester.run_backtest_worker
      (Sample.world (Sample.exits 0 (Sample.summary_of "X" "1.5") "")) Sample.self "X"
      (Sample.state Sample.empty_cache_tree) = (Some result, s')
    /\ Spec.stored_bound result "start_date" = Some (JStr "20240101")
    /\ Spec.stored_bound result "end_date" = Some (JStr "20241231").
Proof.
  eexists _, _. split; [reflexivity |].
  pose proof (@run_backtest_worker_result_window
                (Sample.world (Sample.exits 0 (Sample.summary_of "X" "1.5") ""))
                Sample.self "X" (Sample.state Sample.empty_cache_tree) _ _ eq_refl)
    as (H1 & H2 & _).
  split; [exact H1 | exact H2].
Defined.

Lemma run_backtest_worker_result_kept_witness :
  exists result s',
    Backtester.run_backtest_worker
      (Sample.world (Sample.exits 0 (Sample.summary_of "X" "1.5") "")) Sample.self "X"
      (Sample.state Sample.empty_cache_tree) = (Some result, s')
    /\ Backtester.run_backtest_worker
         (Sample.world (Backtester.Raised TimeoutExpired)) Sample.self "X" s'
       = (Some result, s').
Proof.
  eexists _, _. split; [reflexivity |].
  refine (proj2 (@run_backtest_worker_result_kept
                   (Sample.world (Sample.exits 0 (Sample.summary_of "X" "1.5") ""))
                   Sample.self "X" (Sample.state Sample.empty_cache_tree) _ _ _
                   eq_refl eq_refl _) _).
  intros sub. vm_compute. discriminate.
Defined.

Lemma discover_strategies_from_filesystem_spec_witness :
  Backtester.discover_strategies_from_filesystem Sample.strategies_tree
  = Ok ["A"; "B"]%string
  /\ Spec.ordered ["A"; "B"]%string.
Proof.
  split; [reflexivity |].
  apply (proj1 (@discover_strategies_from_filesystem_spec
                  Sample.strategies_tree ["A"; "B"]%string eq_refl)).
Defined.

Lemma discover_strategies_listed_witness :
  exists strategies,
    fst (Backtester.discover_strategies
           (Sample.world (Sample.exits 0 Sample.listing_logged "")) Sample.self false
           (Sample.state Sample.bare_tree)) = Ok strategies
    /\ (In "B"%string strategies <->
        exists line,
          In line (Text.split Backtester.newline (Text.strip Sample.listing_logged))
          /\ "B"%string = Text.strip line /\ "B"%string <> ""%string
          /\ Text.startswith "B" "2025-" = false).
Proof.
  destruct (@discover_strategies_listed
              (Sample.world (Sample.exits 0 Sample.listing_logged "")) Sample.self
              (Sample.state Sample.bare_tree) _ _ _ eq_refl eq_refl)
    as (strategies & H1 & _ & H2).
  exists strategies. split; [exact H1 | apply H2].
Defined.

Lemma discover_strategies_fallback_witness :
  fst (Backtester.discover_strategies
         (Sample.world (Sample.exits 1 "" "no config")) Sample.self false
         (Sample.state Sample.strategies_tree))
  = Ok ["A"; "B"]%string.
Proof.
  refine (proj1 (@discover_strategies_fallback
                   (Sample.world (Sample.exits 1 "" "no config")) Sample.self
                   (Sample.state Sample.strategies_tree) _ _ _ eq_refl _)).
  intros x H. injection H as <-. discriminate.
Defined.

Lemma parse_lines_stripped_witness :
  Backtester.parse_lines "S" ["    " ++ Sample.summary_good ++ "  "]%string
    (Backtester.default_metrics "S")
  = Backtester.parse_lines "S" [Sample.summary_good] (Backtester.default_metrics "S").
Proof.
  apply (proj1 (@parse_lines_stripped "S"
                  ["    " ++ Sample.summary_good ++ "  "]%string [Sample.summary_good]
                  (Backtester.default_metrics "S") eq_refl)).
Defined.

Lemma parse_strategy_json_data_shape_witness :
  exists metrics,
    Utils.parse_strategy_json_data "A" Sample.directory_of_A = Some metrics
    /\ List.length metrics = 23
    /\ Py.dict_get "strategy" metrics = Some (JStr "A").
Proof.
  destruct (Utils.parse_strategy_json_data "A" Sample.directory_of_A)
    as [metrics |] eqn:Hp; [| vm_compute in Hp; discriminate Hp].
  exists metrics. split; [reflexivity |].
  destruct (parse_strategy_json_data_shape "A" Sample.directory_of_A Hp)
    as (_ & H1 & H2 & _).
  split; [exact H1 | exact H2].
Defined.

Lemma discover_all_successful_strategies_agree_witness :
  exists names results,
    Utils.discover_all_successful_strategies Backtester.results_dir
      Sample.both_sources_tree = Some (names, results)
    /\ forall x, In x names -> In x (map fst results).
Proof.
  destruct (Utils.discover_all_successful_strategies Backtester.results_dir
              Sample.both_sources_tree) as [[names results] |] eqn:Hd;
    [| vm_compute in Hd; discriminate Hd].
  exists names, results. split; [reflexivity |].
  apply (proj1 (discover_all_successful_strategies_agree
                  Backtester.results_dir Sample.both_sources_tree Hd)).
Defined.

Lemma get_failed_strategies_records_witness :
  exists failed,
    Utils.get_failed_strategies Backtester.results_dir "2024-06-02T00:00:00"
      Sample.retried_tree = Some failed
    /\ Forall (fun fs => exists fields, fs = JDict fields) failed.
Proof.
  destruct (Utils.get_failed_strategies Backtester.results_dir "2024-06-02T00:00:00"
              Sample.retried_tree) as [failed |] eqn:Hf;
    [| vm_compute in Hf; discriminate Hf].
  exists failed. split; [reflexivity |].
  apply (proj1 (get_failed_strategies_records
                  Backtester.results_dir "2024-06-02T00:00:00" Sample.retried_tree Hf)).
Defined.

(** A backtest of [A] leaves the source of [A] as it is. *)
Lemma run_backtest_worker_writes_results_only_witness :
  FS.lookup ["user_data"; "strategies"; "A"; "A.py"]%string
    (Backtester.fs
       (snd (Backtester.run_backtest_worker
               (Sample.world (Sample.exits 0 (Sample.summary_of "A" "1.5") ""))
               Sample.self "A" (Sample.state Sample.strategies_tree))))
  = Some (FS.File "class A" FS.Plain).
Proof.
  exact (eq_trans
           (@run_backtest_worker_writes_results_only
              (Sample.world (Sample.exits 0 (Sample.summary_of "A" "1.5") ""))
              Sample.self ["user_data"%string] "backtest_results" "strategies" []
              ["A"; "A.py"]%string eq_refl
              ltac:(discriminate) (fun _ _ _ => eq_refl) "A"
              (Sample.state Sample.strategies_tree)
              ltac:(repeat split; try reflexivity; discriminate)
              ltac:(discriminate))
           eq_refl).
Defined.

Lemma run_backtest_worker_failure_window_witness :
  exists record,
    Py.dict_get "strategy" record = Some (JStr "X")
    /\ Spec.stored_bound (JDict record) "start_date" = Some (JStr "20240101")
    /\ Spec.stored_bound (JDict record) "end_date" = Some (JStr "20241231").
Proof.
  destruct (@run_backtest_worker_failure_window
              (Sample.world (Sample.exits 1 "" "boom")) Sample.self "X"
              (Sample.state Sample.bare_tree) _ eq_refl)
    as (record & s1 & _ & H1 & H2 & H3).
  exists record. split; [exact H1 |]. split; [exact H2 | exact H3].
Defined.

Lemma discover_all_successful_strategies_names_witness :
  exists names results strs,
    Utils.discover_all_successful_strategies Backtester.results_dir
      Sample.both_sources_tree = Some (names, results)
    /\ names = map JStr strs /\ NoDup strs.
Proof.
  destruct (Utils.discover_all_successful_strategies Backtester.results_dir
              Sample.both_sources_tree) as [[names results] |] eqn:Hd;
    [| vm_compute in Hd; discriminate Hd].
  assert (Hs : forall x, In x names -> exists s, x = JStr s).
  { pose proof Hd as Hd'. vm_compute in Hd'. injection Hd' as <- _.
    intros x [<- | []]. now exists "A". }
  destruct (discover_all_successful_strategies_names
              Backtester.results_dir Sample.both_sources_tree Hd Hs)
    as (strs & H1 & _ & H2).
  exists names, results, strs. split; [reflexivity |]. split; [exact H1 | exact H2].
Defined.

(** ** The amended claims on the sample worlds *)

(** The command exits with code 1: no result, and the record of that
    exit is in the cache afterwards. *)
Lemma run_backtest_worker_failure_witness :
  let failed :=
    Backtester.run_backtest_worker
      (Sample.world (Sample.exits 1 "" "boom")) Sample.self "X"
      (Sample.state Sample.empty_cache_tree) in
  fst failed = None
  /\ FS.lookup (Backtester.failed_file "X") (Backtester.fs (snd failed))
     = Some (Sample.document
               (JDict (Backtester.exit_record Sample.self "X"
                         {| Backtester.returncode := 1;
                            Backtester.stdout := "";
                            Backtester.stderr := "boom" |}
                         "5m" "2024-06-01T12:00:00"))).
Proof.
  pose proof (proj1 (run_backtest_worker_failure
                       (Sample.world (Sample.exits 1 "" "boom")) Sample.self "X")
                (Sample.state Sample.empty_cache_tree) _ _ _
                eq_refl eq_refl eq_refl) as H.
  cbv zeta in H. cbn [Sample.world Sample.exits Backtester.run fst] in H.
  cbv zeta. rewrite (H ltac:(discriminate)). split; reflexivity.
Defined.

(** A Sharpe row whose value cannot be read stores nothing: the output
    parses as without it, and the profit of the row before is kept. *)
Lemma parse_backtest_output_spec_witness :
  Backtester.parse_lines "S"
    [Sample.detail_of "Total profit %" "12.5%"; Sample.detail_of "Sharpe" "n/a"]
    (Backtester.default_metrics "S")
  = Backtester.parse_lines "S" [Sample.detail_of "Total profit %" "12.5%"]
      (Backtester.default_metrics "S")
  /\ exists metrics,
      Backtester.parse_lines "S" [Sample.detail_of "Total profit %" "12.5%"]
        (Backtester.default_metrics "S") = Ok metrics
      /\ Py.dict_get "total_profit_percent" metrics = Some (JFloat (FFin (25 # 2)%Q))
      /\ Py.dict_get "sharpe_ratio" metrics = Some (JFloat (FFin 0%Q)).
Proof.
  split.
  - apply (proj1 (proj2 (proj2 (proj2 (proj2 (proj2 parse_backtest_output_spec)))))
             "S" [Sample.detail_of "Total profit %" "12.5%"] []
             (Sample.detail_of "Sharpe" "n/a") (Backtester.default_metrics "S")).
    reflexivity.
  - eexists. split; [reflexivity |]. split; reflexivity.
Defined.

(** C9 as stated fails: both sources hold a record of [A], and the scan
    returns no map, because it cannot sort the name [A] and the number 5
    that another cache record gives as its strategy; the fallback of the
    backtester then takes the cache record of [A]. *)
Lemma scan_raises_on_unordered_names :
  Utils.parse_strategy_json_data "A" Sample.directory_of_A <> None
  /\ In ("A_result.json"%string,
         Sample.document (Sample.stored_result "A" "20240101" "20241231" "5m"))
        (Utils.cached_files Backtester.results_dir "_result.json"
           Sample.mixed_names_tree)
  /\ Utils.discover_all_successful_strategies Backtester.results_dir
       Sample.mixed_names_tree = None
  /\ Utils.collect_all_results Backtester.results_dir "2024-06-02T00:00:00"
       Sample.mixed_names_tree = None
  /\ Py.lookup (JStr "A")
       (Backtester.results
          (Housekeeping.collect_all_results true "2024-06-02T00:00:00"
             Sample.mixed_names_tree))
     = Some (Sample.stored_result "A" "20240101" "20241231" "5m").
Proof.
  split; [vm_compute; discriminate |].
  split; [left; reflexivity |].
  split; [reflexivity |]. split; reflexivity.
Qed.

Lemma directory_record_wins_witness :
  exists metrics names results failures,
    Utils.parse_strategy_json_data "A" Sample.directory_of_A = Some metrics
    /\ Utils.discover_all_successful_strategies Backtester.results_dir
         Sample.both_sources_tree = Some (names, results)
    /\ Utils.collect_all_results Backtester.results_dir "2024-06-02T00:00:00"
         Sample.both_sources_tree = Some (results, failures)
    /\ Spec.entries_of "A" results = [(JStr "A", JDict metrics)].
Proof.
  destruct (Utils.parse_strategy_json_data "A" Sample.directory_of_A)
    as [metrics |] eqn:Hp; [| vm_compute in Hp; discriminate Hp].
  destruct (@directory_record_wins
              Backtester.results_dir "2024-06-02T00:00:00" Sample.both_sources_tree
              _ "A" Sample.directory_of_A metrics
              "A_result.json"
              (Sample.document (Sample.stored_result "A" "20240101" "20241231" "5m"))
              (Sample.stored_result "A" "20240101" "20241231" "5m")
              eq_refl)
    as (names & results & failures & H1 & H2 & _ & H3 & _).
  - repeat constructor; simpl; intuition discriminate.
  - left. reflexivity.
  - discriminate.
  - exact Hp.
  - left. reflexivity.
  - reflexivity.
  - reflexivity.
  - intros other_name other_file other k [H | []] Hl Hg.
    injection H as <- <-. injection Hl as <-. injection Hg as <-. now exists "A"%string.
  - exists metrics, names, results, failures. auto.
Defined.
